(** * Ecowitt Local: the coordinator's data pipeline

    A shallow embedding of [custom_components/ecowitt_local/coordinator.py]
    (class [EcowittLocalDataUpdateCoordinator]), of the entities of
    [custom_components/ecowitt_local/sensor.py] and of the set-up, the device
    registry and the migration of [custom_components/ecowitt_local/__init__.py],
    with the properties the specification states about them and further
    properties of the code.

    Conventions.
    - A Python [str] is a [string]: its sequence of code points, for the code
      points U+0000..U+00FF.  Character classes follow Python's Unicode
      tables on that range.
    - Python exceptions are values of [exn]; a computation that may raise
      returns a [result].
    - A [dict] whose iteration order the code depends on is an insertion
      ordered association list ([odict]); a dict or set that is only looked
      up is a [gmap] or [gset].
    - [const.py], [sensor_mapper.py] and [api.py] are not part of the
      modelled sources.  Their tables and methods are parameters of the
      development ([Const], [MapperOps], [Api]); so are the constants of
      Home Assistant ([Hass]). *)

From Stdlib Require Import Ascii String ZArith NArith Lia Bool DecimalString.
From Stdlib Require DecimalPos.
From stdpp Require Import base strings list gmap.

Import Ascii.
Local Open Scope string_scope.
Local Open Scope list_scope.
#[local] Arguments String.append !_ _ / : simpl nomatch.

(** ** Exceptions *)

Inductive exn : Type :=
| ValueError
| AuthenticationError
| APIConnectionError
| OtherError (name : string).

Inductive result (A : Type) : Type :=
| Ok (a : A)
| Raise (e : exn).
Arguments Ok {A} a.
Arguments Raise {A} e.

#[global] Instance result_ret : MRet result := fun A a => Ok a.

#[global] Instance result_bind : MBind result := fun A B k r =>
  match r with
  | Ok a => k a
  | Raise e => Raise e
  end.

#[global] Instance result_fmap : FMap result := fun A B f r =>
  match r with
  | Ok a => Ok (f a)
  | Raise e => Raise e
  end.

(** [try: body except ValueError: rest] *)
Definition except_ValueError {A} (body : result A) (rest : result A) : result A :=
  match body with
  | Raise ValueError => rest
  | r => r
  end.

(** [try: body except Exception as err: handler] *)
Definition except_Exception {A} (body : result A) (handler : exn -> result A) : result A :=
  match body with
  | Ok a => Ok a
  | Raise e => handler e
  end.

(** ** Python string primitives *)

Module Str.

Definition code (c : ascii) : N := N_of_ascii c.

Definition between (lo hi : N) (c : ascii) : bool :=
  ((lo <=? code c) && (code c <=? hi))%N.

Definition code_is (n : N) (c : ascii) : bool := (code c =? n)%N.

(** [str.isspace] on one character, also the class [\s] of [re]:
    TAB..CR, FS..US, space, NEL and NBSP. *)
Definition isspace_c (c : ascii) : bool :=
  between 9 13 c || between 28 32 c || code_is 133 c || code_is 160 c.

(** Decimal digits (category Nd): the class [\d] of [re] and the digits
    [int] and [float] accept. *)
Definition isdecimal_c (c : ascii) : bool := between 48 57 c.

(** [str.isdigit] on one character: the decimal digits and the
    superscripts two, three and one. *)
Definition isdigit_c (c : ascii) : bool :=
  isdecimal_c c || code_is 178 c || code_is 179 c || code_is 185 c.

Definition digit_val (c : ascii) : N := (code c - 48)%N.

(** [a-zA-Z%/] *)
Definition isunit_c (c : ascii) : bool :=
  between 97 122 c || between 65 90 c || code_is 37 c || code_is 47 c.

(** The class [\w] of [re]: alphanumerics and the underscore. *)
Definition isword_c (c : ascii) : bool :=
  between 48 57 c || between 65 90 c || between 97 122 c || code_is 95 c
  || code_is 170 c || code_is 178 c || code_is 179 c || code_is 181 c || code_is 185 c || code_is 186 c
  || between 188 190 c || between 192 214 c || between 216 246 c
  || between 248 255 c.

Definition shift (c : ascii) (d : Z) : ascii :=
  ascii_of_N (Z.to_N (Z.of_N (code c) + d)).

Definition lower_c (c : ascii) : ascii :=
  if between 65 90 c || (between 192 222 c && negb (code_is 215 c))
  then shift c 32 else c.

Fixpoint lower (s : string) : string :=
  match s with
  | EmptyString => EmptyString
  | String c s' => String (lower_c c) (lower s')
  end.

(** [str.upper].  Sharp s becomes "SS"; the upper-case forms of the micro
    sign and of y-diaeresis lie above U+00FF and those two characters are
    kept. *)
Definition upper_c (c : ascii) : string :=
  if code_is 223 c then "SS"
  else if between 97 122 c || (between 224 254 c && negb (code_is 247 c))
  then String (shift c (-32)) EmptyString
  else String c EmptyString.

Fixpoint upper (s : string) : string :=
  match s with
  | EmptyString => EmptyString
  | String c s' => upper_c c +:+ upper s'
  end.

Fixpoint lstrip (s : string) : string :=
  match s with
  | EmptyString => EmptyString
  | String c s' => if isspace_c c then lstrip s' else s
  end.

Fixpoint rstrip (s : string) : string :=
  match s with
  | EmptyString => EmptyString
  | String c s' =>
      match rstrip s' with
      | EmptyString => if isspace_c c then EmptyString else String c EmptyString
      | r => String c r
      end
  end.

Definition strip (s : string) : string := rstrip (lstrip s).

Definition is_empty (s : string) : bool :=
  match s with EmptyString => true | _ => false end.

Fixpoint forallb (p : ascii -> bool) (s : string) : bool :=
  match s with
  | EmptyString => true
  | String c s' => p c && forallb p s'
  end.

(** [s.isdigit()] *)
Definition isdigit (s : string) : bool := negb (is_empty s) && forallb isdigit_c s.

(** [s.startswith(p)] *)
Definition startswith (p s : string) : bool := String.prefix p s.

(** [sub in s] *)
Fixpoint contains (sub s : string) : bool :=
  String.prefix sub s
  || match s with
     | EmptyString => false
     | String _ s' => contains sub s'
     end.

Fixpoint drop (n : nat) (s : string) : string :=
  match n, s with
  | O, _ => s
  | S n', String _ s' => drop n' s'
  | S _, EmptyString => EmptyString
  end.

(** [s.replace(old, new)] for a non-empty [old]: occurrences are replaced
    from the left and do not overlap.  [skip] counts the characters of a
    replaced occurrence still to be passed over. *)
Fixpoint replace_go (old new : string) (skip : nat) (s : string) : string :=
  match s with
  | EmptyString => EmptyString
  | String c s' =>
      match skip with
      | S k => replace_go old new k s'
      | O =>
          if String.prefix old s
          then new +:+ replace_go old new (String.length old - 1) s'
          else String c (replace_go old new 0 s')
      end
  end.

Definition replace (old new s : string) : string := replace_go old new 0 s.

(** [s.split(sep)[0]] for a one-character separator. *)
Fixpoint before_first (sep : ascii) (s : string) : string :=
  match s with
  | EmptyString => EmptyString
  | String c s' => if Ascii.eqb c sep then EmptyString else String c (before_first sep s')
  end.

(** [s[-n:] if len(s) >= n else s] *)
Definition last_n (n : nat) (s : string) : string :=
  drop (String.length s - n) s.

(** [str(z)] for an [int]. *)
Definition of_Z (z : Z) : string := NilZero.string_of_int (Z.to_int z).

End Str.

(** ** [int(str)] and [float(str)] *)

(** What [float] reads from a literal.  The rounding of a finite literal to
    binary64 belongs to the float implementation ([PyFloatOps] below). *)
Inductive float_literal : Type :=
| LitFinite (neg : bool) (mantissa : N) (exp10 : Z)
| LitInf (neg : bool)
| LitNan (neg : bool).

Module Num.
Import Str.

Definition underscore (c : ascii) : bool := code_is 95 c.

(** Optional sign: [(negative, rest)]. *)
Definition sign (s : string) : bool * string :=
  match s with
  | String c s' =>
      if code_is 45 c then (true, s')
      else if code_is 43 c then (false, s')
      else (false, s)
  | EmptyString => (false, s)
  end.

(** The digits of an [int] literal: decimal digits, single underscores
    allowed between two digits. *)
Fixpoint int_digits (s : string) (acc : N) (after_digit : bool) : option N :=
  match s with
  | EmptyString => if after_digit then Some acc else None
  | String c s' =>
      if isdecimal_c c then int_digits s' (acc * 10 + digit_val c)%N true
      else if underscore c then
        if after_digit then int_digits s' acc false else None
      else None
  end.

(** [int(s)], base 10.  (The interpreter's optional limit on the number of
    digits, [sys.set_int_max_str_digits], is not part of the model.) *)
Definition py_int (s : string) : result Z :=
  let '(neg, body) := sign (strip s) in
  match int_digits body 0%N false with
  | Some n => Ok (if neg then - Z.of_N n else Z.of_N n)%Z
  | None => Raise ValueError
  end.

(** The rest of a [digitpart], read just after one of its digits:
    [(["_"] digit)*], greedy.  Returns the accumulated value, the number of
    digits read and the unread rest. *)
Fixpoint digitpart_go (s : string) (acc : N) (cnt : nat) : N * nat * string :=
  match s with
  | EmptyString => (acc, cnt, s)
  | String c s' =>
      if isdecimal_c c then digitpart_go s' (acc * 10 + digit_val c)%N (S cnt)
      else if underscore c then
        match s' with
        | String c2 s'' =>
            if isdecimal_c c2
            then digitpart_go s'' (acc * 10 + digit_val c2)%N (S cnt)
            else (acc, cnt, s)
        | EmptyString => (acc, cnt, s)
        end
      else (acc, cnt, s)
  end.

(** [digitpart ::= digit (["_"] digit)*] *)
Definition digitpart (s : string) (acc : N) : option (N * nat * string) :=
  match s with
  | String c s' =>
      if isdecimal_c c then Some (digitpart_go s' (acc * 10 + digit_val c)%N 1)
      else None
  | EmptyString => None
  end.

(** [exponent ::= ("e" | "E") [sign] digitpart], then the end of the
    literal. *)
Definition exponent (s : string) : option Z :=
  match s with
  | EmptyString => Some 0%Z
  | String c s' =>
      if code_is 101 c || code_is 69 c then
        let '(neg, body) := sign s' in
        match digitpart body 0%N with
        | Some (e, _, EmptyString) => Some (if neg then - Z.of_N e else Z.of_N e)%Z
        | _ => None
        end
      else None
  end.

(** [number ::= [digitpart] "." digitpart | digitpart ["."]], followed by
    the optional exponent. *)
Definition floatnumber (neg : bool) (s : string) : option float_literal :=
  match s with
  | String c s' =>
      if code_is 46 c then
        match digitpart s' 0%N with
        | Some (m, cnt, r) =>
            e ← exponent r; Some (LitFinite neg m (e - Z.of_nat cnt))
        | None => None
        end
      else
        match digitpart s 0%N with
        | Some (m, _, String c1 r1) =>
            if code_is 46 c1 then
              match digitpart r1 m with
              | Some (m', cnt, r2) =>
                  e ← exponent r2; Some (LitFinite neg m' (e - Z.of_nat cnt))
              | None => e ← exponent r1; Some (LitFinite neg m e)
              end
            else e ← exponent (String c1 r1); Some (LitFinite neg m e)
        | Some (m, _, EmptyString) => Some (LitFinite neg m 0)
        | None => None
        end
  | EmptyString => None
  end.

(** The literal [float(s)] reads, or [ValueError]. *)
Definition float_literal_of (s : string) : result float_literal :=
  let '(neg, body) := sign (strip s) in
  let l := lower body in
  if String.eqb l "inf" || String.eqb l "infinity" then Ok (LitInf neg)
  else if String.eqb l "nan" then Ok (LitNan neg)
  else match floatnumber neg body with
       | Some f => Ok f
       | None => Raise ValueError
       end.

End Num.

Import Str Num.

(** ** Python values *)

(** The float implementation: what the coordinator needs of binary64. *)
Class PyFloatOps (float : Type) := {
  (** the float nearest to a literal *)
  float_of_literal : float_literal -> float;
  (** [f == 0.0], which makes a float falsy *)
  float_is_zero : float -> bool;
  (** [str(f)] *)
  float_repr : float -> string;
}.

Section Values.
Context {float : Type} `{!PyFloatOps float}.

Inductive PyVal : Type :=
| PyNone
| PyBool (b : bool)
| PyInt (z : Z)
| PyFloat (f : float)
| PyStr (s : string).

(** [bool(v)] *)
Definition truthy (v : PyVal) : bool :=
  match v with
  | PyNone => false
  | PyBool b => b
  | PyInt z => negb (z =? 0)%Z
  | PyFloat f => negb (float_is_zero f)
  | PyStr s => negb (is_empty s)
  end.

(** [v == s] for a string [s] *)
Definition eq_str (v : PyVal) (s : string) : bool :=
  match v with
  | PyStr t => String.eqb t s
  | _ => false
  end.

(** [str(v)] *)
Definition py_str (v : PyVal) : string :=
  match v with
  | PyNone => "None"
  | PyBool true => "True"
  | PyBool false => "False"
  | PyInt z => of_Z z
  | PyFloat f => float_repr f
  | PyStr s => s
  end.

(** [float(s)] *)
Definition py_float (s : string) : result float :=
  float_of_literal <$> float_literal_of s.

(** ** The value normalizer *)

(** The longest prefix of decimal digits, and the rest. *)
Fixpoint span_decimal (s : string) : string * string :=
  match s with
  | EmptyString => (EmptyString, EmptyString)
  | String c s' =>
      if isdecimal_c c
      then let '(d, r) := span_decimal s' in (String c d, r)
      else (EmptyString, s)
  end.

(** [.*$]: no newline, except one that ends the string. *)
Fixpoint dot_star_end (s : string) : bool :=
  match s with
  | EmptyString => true
  | String c s' => if code_is 10 c then is_empty s' else dot_star_end s'
  end.

(** The tail of the pattern: spaces, then either the end or a unit
    character followed by anything but a newline up to the end. *)
Definition unit_tail (s : string) : bool :=
  match lstrip s with
  | EmptyString => true
  | String c r => isunit_c c && dot_star_end r
  end.

(** [re.match] of [str_value] against the pattern whose group 1 is
    [[-+]?\d*\.?\d+] and whose tail is [unit_tail]: group 1 of the match, if
    there is one.  The tail of the pattern starts with a space,
    a unit character or the end, none of which is a digit or a dot, so group
    1 can only end where the digits (and the fraction, if a dot and a digit
    follow) end: the match is decided on the longest numeric prefix. *)
Definition unit_match (s : string) : option string :=
  let '(sg, s1) :=
    match s with
    | String c s' =>
        if code_is 45 c || code_is 43 c then (String c EmptyString, s')
        else (EmptyString, s)
    | EmptyString => (EmptyString, s)
    end in
  let '(d1, s2) := span_decimal s1 in
  match s2 with
  | String c s3 =>
      if code_is 46 c then
        let '(d2, s4) := span_decimal s3 in
        if is_empty d2 then None
        else if unit_tail s4 then Some (sg +:+ d1 +:+ "." +:+ d2)
        else None
      else if is_empty d1 then None
      else if unit_tail s2 then Some (sg +:+ d1)
      else None
  | EmptyString => if is_empty d1 then None else Some (sg +:+ d1)
  end.

Definition invalid_readings : list string := ["--"; "null"; "none"; "n/a"].

(** The strings the normalizer reads as "no reading". *)
Definition is_invalid_reading (str_value : string) : bool :=
  bool_decide (lower str_value ∈ invalid_readings)
  || startswith "--" str_value
  || is_empty (strip (replace "." "" (replace "-" "" str_value))).

(** [_convert_sensor_value(self, value, unit)] *)
Definition _convert_sensor_value (value : PyVal) (unit : option string) : result PyVal :=
  if negb (truthy value) || eq_str value "" then Ok PyNone
  else
    except_Exception
      (match value with
       | PyBool _ | PyInt _ | PyFloat _ => Ok value
       | _ =>
           let str_value := strip (py_str value) in
           if is_invalid_reading str_value then Ok PyNone
           else
             let pure_numeric :=
               except_ValueError (PyInt <$> py_int str_value)
                 (except_ValueError (PyFloat <$> py_float str_value)
                    (Ok (PyStr str_value))) in
             match unit_match str_value with
             | Some numeric_part =>
                 except_ValueError
                   (if negb (contains "." numeric_part)
                    then PyInt <$> py_int numeric_part
                    else PyFloat <$> py_float numeric_part)
                   pure_numeric
             | None => pure_numeric
             end
       end)
      (fun err => Ok (if truthy value then PyStr (py_str value) else PyNone)).

End Values.
Arguments PyVal float : clear implicits.

(** ** Dictionaries in insertion order *)

Definition odict (V : Type) : Type := list (string * V).

Module ODict.

(** [d.get(k)] *)
Fixpoint get {V} (k : string) (d : odict V) : option V :=
  match d with
  | [] => None
  | (k', v) :: d' => if String.eqb k' k then Some v else get k d'
  end.

(** [d[k] = v]: an existing key keeps its place, a new key goes last. *)
Fixpoint set {V} (k : string) (v : V) (d : odict V) : odict V :=
  match d with
  | [] => [(k, v)]
  | (k', v') :: d' =>
      if String.eqb k' k then (k', v) :: d' else (k', v') :: set k v d'
  end.

Definition keys {V} (d : odict V) : list string := map fst d.
Definition values {V} (d : odict V) : list V := map snd d.

End ODict.

(** ** Data *)

(** A JSON object of the gateway: string fields. *)
Definition Item : Type := gmap string string.

(** [x] is truthy: present and not empty. *)
Definition nonempty (s : string) : bool := negb (is_empty s).

Definition present (o : option string) : bool :=
  match o with
  | Some s => nonempty s
  | None => false
  end.

(** [live_data]: the sections the coordinator reads; a missing section is
    the empty list. *)
Record RawData : Type := {
  common_list : list Item;
  ch_soil : list Item;
  wh25 : list Item;
  piezoRain : list Item;
  ch_aisle : list Item;
}.

(** An entry of [SensorMapper._sensor_info]. *)
Record HardwareInfo : Type := {
  info_hardware_id : string;
  info_sensor_type : string;
  info_channel : string;
  info_device_model : string;
  info_battery : string;
  info_signal : string;
  info_raw_data : gmap string string;
}.

(** The two tables of [SensorMapper] the coordinator writes to. *)
Record SensorMapper : Type := {
  _sensor_info : odict HardwareInfo;
  _hardware_mapping : gmap string string;
}.

(** The methods of [SensorMapper] the coordinator calls (sensor_mapper.py). *)
Record MapperOps : Type := {
  get_hardware_id : SensorMapper -> string -> result (option string);
  generate_entity_id : SensorMapper -> string -> option string -> result (string * string);
  get_sensor_info : SensorMapper -> string -> result (option HardwareInfo);
  update_mapping : SensorMapper -> list Item -> SensorMapper * result unit;
  get_mapping_stats : SensorMapper -> result (Z * Z * Z);
}.

(** The tables of const.py the coordinator and the sensor platform read. *)
Record Const : Type := {
  DOMAIN : string;
  SENSOR_TYPES : gmap string (gmap string string);
  BATTERY_SENSORS : gmap string (gmap string string);
  SYSTEM_SENSORS : gmap string (gmap string string);
  GATEWAY_SENSORS : gset string;
  WS90_HEX_SENSORS : gset string;
}.

Inductive ApiCall : Type :=
| GetAllSensorMappings
| GetLiveData
| GetVersion.

(** The gateway client (api.py): what a call answers, given the number of
    calls issued before it. *)
Record Api : Type := {
  get_all_sensor_mappings : nat -> result (list Item);
  get_live_data : nat -> result RawData;
  get_version : nat -> result (gmap string string);
}.

Record Ws90Metadata : Type := {
  ws90_battery : string;
  ws90_voltage : option string;
  ws90_cap_volt : option string;
  ws90_ver : string;
}.

(** The coordinator's fields, and the calls made on [self.api] so far. *)
Record Coordinator : Type := {
  host : string;
  mapping_interval : Z;
  sensor_mapper : SensorMapper;
  _gateway_info : gmap string string;
  _last_mapping_update : option Z;
  _include_inactive : bool;
  api_calls : list ApiCall;
}.

Definition set_sensor_mapper (m : SensorMapper) (c : Coordinator) : Coordinator :=
  {| host := host c; mapping_interval := mapping_interval c; sensor_mapper := m;
     _gateway_info := _gateway_info c; _last_mapping_update := _last_mapping_update c;
     _include_inactive := _include_inactive c; api_calls := api_calls c |}.

Definition set_gateway_info (g : gmap string string) (c : Coordinator) : Coordinator :=
  {| host := host c; mapping_interval := mapping_interval c; sensor_mapper := sensor_mapper c;
     _gateway_info := g; _last_mapping_update := _last_mapping_update c;
     _include_inactive := _include_inactive c; api_calls := api_calls c |}.

Definition set_last_mapping_update (t : Z) (c : Coordinator) : Coordinator :=
  {| host := host c; mapping_interval := mapping_interval c; sensor_mapper := sensor_mapper c;
     _gateway_info := _gateway_info c; _last_mapping_update := Some t;
     _include_inactive := _include_inactive c; api_calls := api_calls c |}.

(** [await self.api.call(...)] is recorded. *)
Definition record_call (call : ApiCall) (c : Coordinator) : Coordinator :=
  {| host := host c; mapping_interval := mapping_interval c; sensor_mapper := sensor_mapper c;
     _gateway_info := _gateway_info c; _last_mapping_update := _last_mapping_update c;
     _include_inactive := _include_inactive c; api_calls := api_calls c ++ [call] |}.

(** What [_async_update_data] ends with. *)
Inductive outcome (A : Type) : Type :=
| Returned (a : A)
| ConfigEntryAuthFailed (cause : exn)
| UpdateFailed (cause : exn).
Arguments Returned {A} a.
Arguments ConfigEntryAuthFailed {A} cause.
Arguments UpdateFailed {A} cause.

(** ** The coordinator *)

Section Coordinator.
Context {float : Type} `{!PyFloatOps float}.
Variable C : Const.
Variable ops : MapperOps.
Variable api : Api.
(** [datetime.isoformat] of a time in microseconds; the clock is read once
    per cycle. *)
Variable isoformat : Z -> string.

(** An entry of [sensors_data]. *)
Record SensorData : Type := {
  entity_id : string;
  name : string;
  state : PyVal float;
  unit_of_measurement : option string;
  device_class : option string;
  category : string;
  sensor_key : string;
  hardware_id : option string;
  raw_value : string;
  attributes : gmap string string;
}.

Record ProcessedData : Type := {
  sensors : odict SensorData;
  gateway_info : gmap string string;
  last_update : Z;
}.

(** [{"id": k, "val": v}] *)
Definition reading (k v : string) : Item := {[ "id" := k; "val" := v ]}.

(** [str(int(battery) * 20) if battery.isdigit() else battery] *)
Definition battery_pct (battery : string) : result string :=
  if isdigit battery then n ← py_int battery; Ok (of_Z (n * 20)) else Ok battery.

(** One item of [ch_soil]. *)
Definition soil_items (item : Item) : result (list Item) :=
  let channel := item !! "channel" in
  let humidity := replace "%" "" (default "" (item !! "humidity")) in
  let battery := item !! "battery" in
  if present channel && nonempty humidity then
    let ch := default "" channel in
    let soil := [reading ("soilmoisture" +:+ ch) humidity] in
    if present battery then
      battery_pct ← battery_pct (default "" battery);
      Ok (soil ++ [reading ("soilbatt" +:+ ch) battery_pct])
    else Ok soil
  else Ok [].

(** The first item of [wh25]. *)
Definition wh25_items (wh25_data : list Item) : list Item :=
  match wh25_data with
  | [] => []
  | wh25_item :: _ =>
      (match wh25_item !! "intemp" with
       | Some temp_val => [reading "tempinf" temp_val]
       | None => []
       end)
      ++ (match wh25_item !! "inhumi" with
          | Some v => [reading "humidityin" (replace "%" "" v)]
          | None => []
          end)
      ++ (match wh25_item !! "abs" with
          | Some v => [reading "baromabsin" (replace " hPa" "" v)]
          | None => []
          end)
      ++ (match wh25_item !! "rel" with
          | Some v => [reading "baromrelin" (replace " hPa" "" v)]
          | None => []
          end)
  end.

(** One item of [piezoRain]: the readings it adds and the WS90 metadata it
    carries, if any. *)
Definition piezo_item (item : Item) : result (list Item * option Ws90Metadata) :=
  match item !! "id", item !! "val" with
  | Some sensor_id, Some sensor_val =>
      let rain := [reading sensor_id sensor_val] in
      if present (item !! "battery") && present (item !! "ws90_ver") then
        let battery := default "" (item !! "battery") in
        battery_val ← battery_pct battery;
        Ok (rain ++ [reading "ws90batt" battery_val],
            Some {| ws90_battery := battery;
                    ws90_voltage := item !! "voltage";
                    ws90_cap_volt := item !! "ws90cap_volt";
                    ws90_ver := default "" (item !! "ws90_ver") |})
      else Ok (rain, None)
  | _, _ => Ok ([], None)
  end.

Fixpoint piezo_items (piezo_rain : list Item) (ws90_metadata : option Ws90Metadata)
  : result (list Item * option Ws90Metadata) :=
  match piezo_rain with
  | [] => Ok ([], ws90_metadata)
  | item :: rest =>
      '(added, md) ← piezo_item item;
      '(more, md') ← piezo_items rest (match md with Some _ => md | None => ws90_metadata end);
      Ok (added ++ more, md')
  end.

Definition not_None (s : string) : bool := negb (String.eqb s "None").

(** One item of [ch_aisle]. *)
Definition aisle_items (item : Item) : result (list Item) :=
  let channel := item !! "channel" in
  let temp := item !! "temp" in
  let humidity := item !! "humidity" in
  let battery := item !! "battery" in
  if present channel then
    let ch := default "" channel in
    let temps :=
      if present temp && not_None (default "" temp)
      then [reading ("temp" +:+ ch +:+ "f") (default "" temp)] else [] in
    let humidities :=
      if present humidity && not_None (default "" humidity)
      then [reading ("humidity" +:+ ch) (replace "%" "" (default "" humidity))] else [] in
    if present battery && not_None (default "" battery) then
      battery_pct ← battery_pct (default "" battery);
      Ok (temps ++ humidities ++ [reading ("batt" +:+ ch) battery_pct])
    else Ok (temps ++ humidities)
  else Ok [].

(** [for item in section: ...] for a section whose items add readings. *)
Fixpoint concat_items (f : Item -> result (list Item)) (section : list Item)
  : result (list Item) :=
  match section with
  | [] => Ok []
  | item :: rest =>
      added ← f item;
      more ← concat_items f rest;
      Ok (added ++ more)
  end.

(** The first part of [_process_live_data]: [all_sensor_items] and
    [ws90_metadata]. *)
Definition collect_sensor_items (raw_data : RawData)
  : result (list Item * option Ws90Metadata) :=
  soil ← concat_items soil_items (ch_soil raw_data);
  '(rain, ws90_metadata) ← piezo_items (piezoRain raw_data) None;
  aisle ← concat_items aisle_items (ch_aisle raw_data);
  Ok (common_list raw_data ++ soil ++ wh25_items (wh25 raw_data) ++ rain ++ aisle,
      ws90_metadata).

Definition dynamic_sensors : list string := ["3"; "5"].

(** [_is_gateway_sensor(self, sensor_key, ws90_present)] *)
Definition _is_gateway_sensor (sensor_key : string) (ws90_present : bool) : bool :=
  if bool_decide (sensor_key ∈ GATEWAY_SENSORS C) then true
  else if bool_decide (sensor_key ∈ dynamic_sensors) && negb ws90_present then true
  else if bool_decide (sensor_key ∈ WS90_HEX_SENSORS C) && ws90_present then false
  else true.

(** A table entry is truthy when it is a non-empty dict. *)
Definition table_get (t : gmap string (gmap string string)) (k : string)
  : gmap string string := default ∅ (t !! k).

Definition nonempty_dict (d : gmap string string) : bool := bool_decide (d ≠ ∅).

(** [d.get(k) or ""] *)
Definition get_or_empty (d : gmap string string) (k : string) : string :=
  default "" (d !! k).

(** The body of the loop of [_process_live_data] on one item. *)
Definition process_item (m : SensorMapper) (include_inactive ws90_present : bool)
    (now : Z) (sensors_data : odict SensorData) (item : Item)
  : result (odict SensorData) :=
  let sensor_key := get_or_empty item "id" in
  let sensor_value := get_or_empty item "val" in
  if is_empty sensor_key then Ok sensors_data
  else if is_empty sensor_value && negb include_inactive then Ok sensors_data
  else
    hardware_id ←
      (if _is_gateway_sensor sensor_key ws90_present then Ok None
       else get_hardware_id ops m sensor_key);
    '(entity_id, friendly_name) ← generate_entity_id ops m sensor_key hardware_id;
    let sensor_info := table_get (SENSOR_TYPES C) sensor_key in
    let battery_info := table_get (BATTERY_SENSORS C) sensor_key in
    let system_info := table_get (SYSTEM_SENSORS C) sensor_key in
    let '(category, device_class, unit) :=
      if nonempty_dict battery_info then ("diagnostic", "battery", "%")
      else if nonempty_dict system_info
      then ("system", get_or_empty system_info "device_class", get_or_empty system_info "unit")
      else ("sensor", get_or_empty sensor_info "device_class", get_or_empty sensor_info "unit") in
    sensor_details ←
      (if present hardware_id then
         hardware_info ← get_sensor_info ops m (default "" hardware_id);
         match hardware_info with
         | Some info =>
             Ok ({[ "hardware_id" := default "" hardware_id;
                    "channel" := info_channel info;
                    "device_model" := info_device_model info;
                    "battery" := info_battery info;
                    "signal" := info_signal info ]} : gmap string string)
         | None => Ok ∅
         end
       else Ok ∅);
    converted_value ←
      (if nonempty_dict battery_info && nonempty sensor_value && isdigit sensor_value then
         int_value ← py_int sensor_value;
         if (int_value <=? 5)%Z then Ok (PyStr (of_Z (int_value * 20)))
         else Ok (PyStr sensor_value)
       else _convert_sensor_value (PyStr sensor_value) (Some unit));
    Ok (ODict.set entity_id
          {| entity_id := entity_id;
             name := friendly_name;
             state := converted_value;
             unit_of_measurement := Some unit;
             device_class := Some device_class;
             category := category;
             sensor_key := sensor_key;
             hardware_id := hardware_id;
             raw_value := sensor_value;
             attributes :=
               sensor_details ∪ {[ "sensor_key" := sensor_key;
                                   "last_update" := isoformat now ]} |}
          sensors_data).

(** [for item in all_sensor_items: ...] *)
Fixpoint process_items (m : SensorMapper) (include_inactive ws90_present : bool)
    (now : Z) (sensors_data : odict SensorData) (items : list Item)
  : result (odict SensorData) :=
  match items with
  | [] => Ok sensors_data
  | item :: rest =>
      sensors_data' ← process_item m include_inactive ws90_present now sensors_data item;
      process_items m include_inactive ws90_present now sensors_data' rest
  end.

(** The three diagnostic entities of a hardware unit. *)
Definition signal_entity_id (hardware_id : string) : string :=
  "sensor.ecowitt_signal_strength_" +:+ lower hardware_id.
Definition hardware_id_entity_id (hardware_id : string) : string :=
  "sensor.ecowitt_hardware_id_" +:+ lower hardware_id.
Definition channel_entity_id (hardware_id : string) : string :=
  "sensor.ecowitt_channel_" +:+ lower hardware_id.

Definition signal_sensor (hardware_id signal signal_pct : string) (now : Z) : SensorData :=
  {| entity_id := signal_entity_id hardware_id;
     name := "Signal Strength";
     state := PyStr signal_pct;
     unit_of_measurement := Some "%";
     device_class := Some "signal_strength";
     category := "diagnostic";
     sensor_key := "signal_" +:+ hardware_id;
     hardware_id := Some hardware_id;
     raw_value := signal;
     attributes := {[ "sensor_key" := "signal_" +:+ hardware_id;
                      "last_update" := isoformat now;
                      "hardware_id" := hardware_id;
                      "signal" := signal;
                      "signal_percentage" := signal_pct ]} |}.

Definition hardware_id_sensor (hardware_id : string) (now : Z) : SensorData :=
  {| entity_id := hardware_id_entity_id hardware_id;
     name := "Hardware ID";
     state := PyStr hardware_id;
     unit_of_measurement := None;
     device_class := None;
     category := "diagnostic";
     sensor_key := "hardware_id_" +:+ hardware_id;
     hardware_id := Some hardware_id;
     raw_value := hardware_id;
     attributes := {[ "sensor_key" := "hardware_id_" +:+ hardware_id;
                      "last_update" := isoformat now;
                      "hardware_id" := hardware_id;
                      "entity_category" := "diagnostic" ]} |}.

Definition channel_sensor (hardware_id channel : string) (now : Z) : SensorData :=
  {| entity_id := channel_entity_id hardware_id;
     name := "Channel";
     state := PyStr channel;
     unit_of_measurement := None;
     device_class := None;
     category := "diagnostic";
     sensor_key := "channel_" +:+ hardware_id;
     hardware_id := Some hardware_id;
     raw_value := channel;
     attributes := {[ "sensor_key" := "channel_" +:+ hardware_id;
                      "last_update" := isoformat now;
                      "hardware_id" := hardware_id;
                      "channel" := channel;
                      "entity_category" := "diagnostic" ]} |}.

(** [signal and signal not in ("--", "")] *)
Definition usable_signal (signal : string) : bool :=
  nonempty signal && negb (bool_decide (signal ∈ ["--"; ""])).

(** [str(int(signal) * 25) if signal.isdigit() else signal] *)
Definition signal_pct (signal : string) : result string :=
  if isdigit signal then n ← py_int signal; Ok (of_Z (n * 25)) else Ok signal.

(** The body of the loop of [_add_diagnostic_and_signal_sensors] on one
    value of the snapshot; [added] is [added_hardware_ids]. *)
Definition add_diagnostics (m : SensorMapper) (now : Z)
    (acc : odict SensorData * gset string) (sensor_info : SensorData)
  : result (odict SensorData * gset string) :=
  let '(sensors_data, added) := acc in
  let hardware_id := hardware_id sensor_info in
  if negb (present hardware_id) || bool_decide (default "" hardware_id ∈ added) then Ok acc
  else
    let hardware_id := default "" hardware_id in
    hardware_info ← get_sensor_info ops m hardware_id;
    match hardware_info with
    | None => Ok acc
    | Some hardware_info =>
        let channel := info_channel hardware_info in
        let signal := info_signal hardware_info in
        if is_empty channel then Ok acc
        else
          sensors_data ←
            (if usable_signal signal then
               pct ← signal_pct signal;
               Ok (ODict.set (signal_entity_id hardware_id)
                     (signal_sensor hardware_id signal pct now) sensors_data)
             else Ok sensors_data);
          let sensors_data :=
            ODict.set (hardware_id_entity_id hardware_id)
              (hardware_id_sensor hardware_id now) sensors_data in
          let sensors_data :=
            ODict.set (channel_entity_id hardware_id)
              (channel_sensor hardware_id channel now) sensors_data in
          Ok (sensors_data, {[ hardware_id ]} ∪ added)
    end.

Fixpoint add_diagnostics_loop (m : SensorMapper) (now : Z)
    (acc : odict SensorData * gset string) (snapshot : list SensorData)
  : result (odict SensorData * gset string) :=
  match snapshot with
  | [] => Ok acc
  | sensor_info :: rest =>
      acc' ← add_diagnostics m now acc sensor_info;
      add_diagnostics_loop m now acc' rest
  end.

(** [_add_diagnostic_and_signal_sensors(self, sensors_data)]: the loop runs
    over [list(sensors_data.values())], taken before the first insertion. *)
Definition _add_diagnostic_and_signal_sensors (m : SensorMapper) (now : Z)
    (sensors_data : odict SensorData) : result (odict SensorData) :=
  fst <$> add_diagnostics_loop m now (sensors_data, ∅) (ODict.values sensors_data).

(** The first entry of [_sensor_info] whose device model names a WH90. *)
Definition is_wh90 (info : HardwareInfo) : bool :=
  let device_model := lower (info_device_model info) in
  String.eqb device_model "wh90" || contains "wh90" device_model.

Fixpoint find_wh90 (sensor_info : odict HardwareInfo) : option string :=
  match sensor_info with
  | [] => None
  | (hardware_id, info) :: rest =>
      if is_wh90 info then Some hardware_id else find_wh90 rest
  end.

(** [sensor_info["device_model"] = "ws90"; sensor_info["sensor_type"] = "WS90"] *)
Definition as_ws90 (info : HardwareInfo) : HardwareInfo :=
  {| info_hardware_id := info_hardware_id info;
     info_sensor_type := "WS90";
     info_channel := info_channel info;
     info_device_model := "ws90";
     info_battery := info_battery info;
     info_signal := info_signal info;
     info_raw_data := info_raw_data info |}.

Fixpoint mark_ws90 (sensor_info : odict HardwareInfo) : odict HardwareInfo :=
  match sensor_info with
  | [] => []
  | (hardware_id, info) :: rest =>
      if is_wh90 info then (hardware_id, as_ws90 info) :: rest
      else (hardware_id, info) :: mark_ws90 rest
  end.

(** [_get_or_generate_ws90_hardware_id(self, ws90_metadata)] *)
Definition _get_or_generate_ws90_hardware_id (m : SensorMapper) (ws90_metadata : Ws90Metadata)
  : SensorMapper * option string :=
  match find_wh90 (_sensor_info m) with
  | Some hardware_id =>
      ({| _sensor_info := mark_ws90 (_sensor_info m);
          _hardware_mapping := _hardware_mapping m |}, Some hardware_id)
  | None =>
      let ws90_version := ws90_ver ws90_metadata in
      if nonempty ws90_version then (m, Some ("D" +:+ last_n 3 ws90_version))
      else (m, Some "WS90_DEFAULT")
  end.

Definition hex_id_sensors : list string :=
  ["0x02"; "0x03"; "0x07"; "0x0B"; "0x0C"; "0x19"; "0x0A"; "0x6D";
   "0x15"; "0x17"; "0x0D"; "0x0E"; "0x7C"; "0x10"; "0x11"; "0x12";
   "0x13"; "0x14"; "3"; "5"; "srain_piezo"; "ws90batt"].

Definition ws90_sensor_info (ws90_hardware_id : string) (ws90_metadata : Ws90Metadata)
  : gmap string string :=
  {[ "id" := ws90_hardware_id; "img" := "ws90"; "name" := "WS90 Weather Station";
     "type" := "90"; "batt" := ws90_battery ws90_metadata; "rssi" := "--";
     "signal" := "4"; "idst" := "1" ]}.

Definition ws90_info (ws90_hardware_id : string) (ws90_metadata : Ws90Metadata)
  : HardwareInfo :=
  {| info_hardware_id := ws90_hardware_id;
     info_sensor_type := "WS90";
     info_channel := "";
     info_device_model := "ws90";
     info_battery := ws90_battery ws90_metadata;
     info_signal := "4";
     info_raw_data := ws90_sensor_info ws90_hardware_id ws90_metadata |}.

(** [for sensor_key in keys: self.sensor_mapper._hardware_mapping[sensor_key] = hardware_id] *)
Definition map_keys (keys : list string) (hardware_id : string)
    (mapping : gmap string string) : gmap string string :=
  foldl (fun acc sensor_key => <[ sensor_key := hardware_id ]> acc) mapping keys.

(** [_handle_ws90_device(self, ws90_metadata)] *)
Definition _handle_ws90_device (m : SensorMapper) (ws90_metadata : Ws90Metadata)
  : SensorMapper :=
  let '(m, ws90_hardware_id) := _get_or_generate_ws90_hardware_id m ws90_metadata in
  if negb (present ws90_hardware_id) then m
  else
    let ws90_hardware_id := default "" ws90_hardware_id in
    {| _sensor_info :=
         ODict.set ws90_hardware_id (ws90_info ws90_hardware_id ws90_metadata)
           (_sensor_info m);
       _hardware_mapping := map_keys hex_id_sensors ws90_hardware_id (_hardware_mapping m) |}.

Fixpoint span_word (s : string) : string :=
  match s with
  | EmptyString => EmptyString
  | String c s' => if isword_c c then String c (span_word s') else EmptyString
  end.

(** [re.match(r'^(GW\w+)', s)]: group 1 of the match, if there is one. *)
Definition gw_match (s : string) : option string :=
  match s with
  | String "G" (String "W" rest) =>
      let w := span_word rest in
      if is_empty w then None else Some ("GW" +:+ w)
  | _ => None
  end.

(** [_extract_model_from_firmware(self, firmware_version)] *)
Definition _extract_model_from_firmware (firmware_version : string) : string :=
  if is_empty firmware_version || String.eqb firmware_version "Unknown" then "Unknown"
  else
    let model := strip (before_first "_" firmware_version) in
    if contains "_" firmware_version && nonempty model && startswith "GW" (upper model)
    then model
    else if startswith "GW" (upper firmware_version) && negb (contains "." firmware_version)
    then strip firmware_version
    else default "Unknown" (gw_match firmware_version).

Definition unknown_gateway (c : Coordinator) : gmap string string :=
  {[ "model" := "Unknown"; "firmware_version" := "Unknown";
     "host" := host c; "gateway_id" := "unknown" ]}.

(** [_process_gateway_info(self)] *)
Definition _process_gateway_info (c : Coordinator) : Coordinator * gmap string string :=
  if bool_decide (_gateway_info c = ∅) then
    let answer := get_version api (length (api_calls c)) in
    let c := record_call GetVersion c in
    let info :=
      match answer with
      | Ok version_info =>
          let firmware_version := default "Unknown" (version_info !! "version") in
          let model := _extract_model_from_firmware firmware_version in
          let model :=
            if is_empty model || String.eqb model "Unknown"
            then default "Unknown" (version_info !! "stationtype")
            else model in
          {[ "model" := model; "firmware_version" := firmware_version;
             "host" := host c;
             "gateway_id" := default "unknown" (version_info !! "stationtype") ]}
      | Raise err => unknown_gateway c
      end in
    (set_gateway_info info c, info)
  else (c, _gateway_info c).

(** [_update_sensor_mapping(self)]: whatever is raised inside is logged and
    dropped. *)
Definition _update_sensor_mapping (c : Coordinator) : Coordinator :=
  let answer := get_all_sensor_mappings api (length (api_calls c)) in
  let c := record_call GetAllSensorMappings c in
  match answer with
  | Raise err => c
  | Ok sensor_mappings =>
      let '(m, updated) := update_mapping ops (sensor_mapper c) sensor_mappings in
      let c := set_sensor_mapper m c in
      match updated with
      | Raise err => c
      | Ok _ =>
          match get_mapping_stats ops m with
          | Raise err => c
          | Ok stats => c
          end
      end
  end.

(** [_update_sensor_mapping_if_needed(self)], at time [now]. *)
Definition _update_sensor_mapping_if_needed (c : Coordinator) (now : Z) : Coordinator :=
  let due :=
    match _last_mapping_update c with
    | None => true
    | Some last => (mapping_interval c * 1000000 <=? now - last)%Z
    end in
  if due then set_last_mapping_update now (_update_sensor_mapping c) else c.

(** [_process_live_data(self, raw_data)] *)
Definition _process_live_data (c : Coordinator) (raw_data : RawData) (now : Z)
  : Coordinator * result ProcessedData :=
  match collect_sensor_items raw_data with
  | Raise err => (c, Raise err)
  | Ok (all_sensor_items, ws90_metadata) =>
      let c :=
        match ws90_metadata with
        | Some md => set_sensor_mapper (_handle_ws90_device (sensor_mapper c) md) c
        | None => c
        end in
      let ws90_present := bool_decide (ws90_metadata ≠ None) in
      match
        sensors_data ← process_items (sensor_mapper c) (_include_inactive c)
                         ws90_present now [] all_sensor_items;
        _add_diagnostic_and_signal_sensors (sensor_mapper c) now sensors_data
      with
      | Raise err => (c, Raise err)
      | Ok sensors_data =>
          let '(c, info) := _process_gateway_info c in
          (c, Ok {| sensors := sensors_data; gateway_info := info; last_update := now |})
      end
  end.

(** [_async_update_data(self)], at time [now]. *)
Definition _async_update_data (c : Coordinator) (now : Z)
  : Coordinator * outcome ProcessedData :=
  let c := _update_sensor_mapping_if_needed c now in
  let answer := get_live_data api (length (api_calls c)) in
  let c := record_call GetLiveData c in
  let '(c, processed) :=
    match answer with
    | Raise err => (c, Raise err)
    | Ok live_data => _process_live_data c live_data now
    end in
  match processed with
  | Ok processed_data => (c, Returned processed_data)
  | Raise AuthenticationError => (c, ConfigEntryAuthFailed AuthenticationError)
  | Raise err => (c, UpdateFailed err)
  end.

End Coordinator.

(** ** The sensor platform (sensor.py) *)

(** [_attr_unique_id] as [EcowittLocalSensor.__init__] sets it; [entry_id] is
    [coordinator.config_entry.entry_id]. *)
Definition unique_id (C : Const) (entry_id : string) (hardware_id : option string)
    (sensor_key : string) : string :=
  if present hardware_id
  then DOMAIN C +:+ "_" +:+ default "" hardware_id +:+ "_" +:+ sensor_key
  else DOMAIN C +:+ "_" +:+ entry_id +:+ "_" +:+ sensor_key.

(** [get_all_sensors(self)] and [get_sensor_data(self, entity_id)] of the
    coordinator; [data] is [self.data], [None] until a cycle has returned. *)
Definition get_all_sensors {float : Type} (data : option (ProcessedData (float := float)))
  : odict (SensorData (float := float)) :=
  match data with
  | Some processed_data => sensors processed_data
  | None => []
  end.

Definition get_sensor_data {float : Type} (data : option (ProcessedData (float := float)))
    (entity_id : string) : option (SensorData (float := float)) :=
  match data with
  | Some processed_data => ODict.get entity_id (sensors processed_data)
  | None => None
  end.

(** The constants of Home Assistant sensor.py names: the units, and the
    device classes, each standing for its value; [is_device_class] tells
    the values of [SensorDeviceClass] from the other strings. *)
Record Hass : Type := {
  FAHRENHEIT : string;
  CELSIUS : string;
  INHG : string;
  HPA : string;
  MILES_PER_HOUR : string;
  KILOMETERS_PER_HOUR : string;
  INCHES : string;
  MILLIMETERS : string;
  INCHES_PER_HOUR : string;
  MILLIMETERS_PER_HOUR : string;
  WATTS_PER_SQUARE_METER : string;
  PERCENTAGE : string;
  is_device_class : string -> bool;
  BATTERY : string;
}.

Inductive SensorStateClass : Type :=
| MEASUREMENT
| TOTAL_INCREASING.

(** An entity of the platform: the attributes [__init__] and
    [_update_attributes] assign.  [Some "diagnostic"] in
    [_attr_entity_category] stands for [EntityCategory.DIAGNOSTIC], and a
    device class for its value. *)
Record EcowittLocalSensor {float : Type} : Type := {
  sensor_entity_id : string;
  _sensor_key : string;
  _hardware_id : option string;
  _category : string;
  _attr_unique_id : string;
  _attr_entity_category : option string;
  _attr_name : string;
  _attr_native_value : PyVal float;
  _attr_native_unit_of_measurement : option string;
  _attr_device_class : option string;
  _attr_state_class : option SensorStateClass;
}.

(** What [device_info] returns and what the device registry is given. *)
Record DeviceInfo : Type := {
  dev_identifiers : string * string;
  dev_name : string;
  dev_manufacturer : string;
  dev_model : string;
  dev_sw_version : option string;
  dev_configuration_url : option string;
  dev_via_device : option (string * string);
  dev_suggested_area : option string;
}.

(** [("FFFFFFFE", "FFFFFFFF", "00000000")] *)
Definition invalid_hardware_ids : list string := ["FFFFFFFE"; "FFFFFFFF"; "00000000"].

Module SensorPy.

(** The keys of [UNIT_CONVERSIONS] with a degree sign or a superscript
    two. *)
Definition degrees_F : string := String (ascii_of_N 176) "F".
Definition degrees_C : string := String (ascii_of_N 176) "C".
Definition W_per_m2 : string := "W/m" +:+ String (ascii_of_N 178) EmptyString.

Definition UNIT_CONVERSIONS (H : Hass) : gmap string string :=
  {[ degrees_F := FAHRENHEIT H;
     degrees_C := CELSIUS H;
     "inHg" := INHG H;
     "hPa" := HPA H;
     "mph" := MILES_PER_HOUR H;
     "km/h" := KILOMETERS_PER_HOUR H;
     "in" := INCHES H;
     "mm" := MILLIMETERS H;
     "in/hr" := INCHES_PER_HOUR H;
     "mm/hr" := MILLIMETERS_PER_HOUR H;
     W_per_m2 := WATTS_PER_SQUARE_METER H ]}.

Definition measurement_classes : list string :=
  ["temperature"; "humidity"; "pressure"; "wind_speed"; "precipitation";
   "precipitation_intensity"; "irradiance"; "pm25"; "moisture"].

(** [isinstance(value, (int, float))]: [bool] is a subclass of [int]. *)
Definition is_number {float : Type} (value : PyVal float) : bool :=
  match value with
  | PyInt _ | PyFloat _ | PyBool _ => true
  | PyNone | PyStr _ => false
  end.

(** [_update_attributes(self, sensor_info)] *)
Definition _update_attributes {float : Type} (H : Hass)
    (self : EcowittLocalSensor (float := float)) (sensor_info : SensorData (float := float))
  : EcowittLocalSensor (float := float) :=
  let native_value := state sensor_info in
  let unit := unit_of_measurement sensor_info in
  let native_unit :=
    if present unit
    then Some (default (default "" unit) (UNIT_CONVERSIONS H !! default "" unit))
    else None in
  let device_class_str := device_class sensor_info in
  let attr_device_class :=
    if present device_class_str then
      if is_device_class H (default "" device_class_str)
      then Some (default "" device_class_str) else None
    else _attr_device_class self in
  let state_class :=
    if is_number native_value then
      if String.eqb (_category self) "battery" then Some MEASUREMENT
      else if match device_class_str with
              | Some s => bool_decide (s ∈ measurement_classes)
              | None => false
              end
      then Some MEASUREMENT
      else if contains "total" (_sensor_key self) || contains "yearly" (_sensor_key self)
      then Some TOTAL_INCREASING
      else _attr_state_class self
    else _attr_state_class self in
  let is_battery := bool_decide (device_class_str = Some "battery") in
  {| sensor_entity_id := sensor_entity_id self;
     _sensor_key := _sensor_key self;
     _hardware_id := _hardware_id self;
     _category := _category self;
     _attr_unique_id := _attr_unique_id self;
     _attr_entity_category := _attr_entity_category self;
     _attr_name := name sensor_info;
     _attr_native_value := native_value;
     _attr_native_unit_of_measurement :=
       if is_battery then Some (PERCENTAGE H) else native_unit;
     _attr_device_class := if is_battery then Some (BATTERY H) else attr_device_class;
     _attr_state_class := if is_battery then Some MEASUREMENT else state_class |}.

(** [EcowittLocalSensor.__init__(self, coordinator, entity_id, sensor_info)];
    [entry_id] is [coordinator.config_entry.entry_id].  The attributes that
    [_update_attributes] assigns in every case start empty, the device and
    state class start as the class default [None]. *)
Definition __init__ {float : Type} (C : Const) (H : Hass) (entry_id entity_id : string)
    (sensor_info : SensorData (float := float)) : EcowittLocalSensor (float := float) :=
  _update_attributes H
    {| sensor_entity_id := entity_id;
       _sensor_key := sensor_key sensor_info;
       _hardware_id := hardware_id sensor_info;
       _category := category sensor_info;
       _attr_unique_id :=
         unique_id C entry_id (hardware_id sensor_info) (sensor_key sensor_info);
       _attr_entity_category :=
         if String.eqb (category sensor_info) "diagnostic" then Some "diagnostic" else None;
       _attr_name := "";
       _attr_native_value := PyNone;
       _attr_native_unit_of_measurement := None;
       _attr_device_class := None;
       _attr_state_class := None |}
    sensor_info.

(** [async_setup_entry(hass, config_entry, async_add_entities)]: the
    entities handed to [async_add_entities]; [data] is the coordinator's
    data after the first refresh. *)
Fixpoint entities_of {float : Type} (C : Const) (H : Hass) (entry_id : string)
    (sensor_data : odict (SensorData (float := float)))
  : list (EcowittLocalSensor (float := float)) :=
  match sensor_data with
  | [] => []
  | (entity_id, sensor_info) :: rest =>
      if bool_decide (category sensor_info ∈ ["sensor"; "battery"; "system"; "diagnostic"])
      then __init__ C H entry_id entity_id sensor_info :: entities_of C H entry_id rest
      else entities_of C H entry_id rest
  end.

Definition async_setup_entry {float : Type} (C : Const) (H : Hass) (entry_id : string)
    (data : option (ProcessedData (float := float)))
  : list (EcowittLocalSensor (float := float)) :=
  entities_of C H entry_id (get_all_sensors data).

Definition type_names : gmap string string :=
  list_to_map
    [("wh51", "Soil Moisture Sensor");
     ("wh31", "Temperature/Humidity Sensor");
     ("wh41", "PM2.5 Air Quality Sensor");
     ("wh55", "Leak Sensor");
     ("wh57", "Lightning Sensor");
     ("wh40", "Rain Sensor");
     ("wh68", "Weather Station");
     ("ws90", "WS90 Weather Station");
     ("wh90", "WS90 Weather Station");
     ("soil", "Soil Moisture Sensor");
     ("temp_hum", "Temperature/Humidity Sensor");
     ("pm25", "PM2.5 Air Quality Sensor");
     ("leak", "Leak Sensor");
     ("lightning", "Lightning Sensor");
     ("rain", "Rain Sensor");
     ("weather_station", "Weather Station")].

(** [_get_sensor_type_display_name(self, sensor_info)] *)
Definition _get_sensor_type_display_name (sensor_info : HardwareInfo) : string :=
  let sensor_type := lower (info_sensor_type sensor_info) in
  default "Sensor" (type_names !! sensor_type).

Definition outdoor_types : list string :=
  ["wh51"; "wh41"; "wh55"; "wh57"; "wh40"; "wh68"; "ws90"; "wh90";
   "soil"; "pm25"; "leak"; "lightning"; "rain"; "weather_station"].

(** [_is_outdoor_sensor(self, sensor_info)] *)
Definition _is_outdoor_sensor (sensor_info : HardwareInfo) : bool :=
  let sensor_type := lower (info_sensor_type sensor_info) in
  bool_decide (sensor_type ∈ outdoor_types).

(** [device_info(self)]; [MANUFACTURER] is the constant of const.py,
    [gateway_info] and [m] are the coordinator's gateway info and mapper. *)
Definition device_info {float : Type} (C : Const) (MANUFACTURER : string) (ops : MapperOps)
    (gateway_info : gmap string string) (m : SensorMapper)
    (self : EcowittLocalSensor (float := float)) : result DeviceInfo :=
  let gateway_id := default "unknown" (gateway_info !! "gateway_id") in
  let gateway_device :=
    {| dev_identifiers := (DOMAIN C, gateway_id);
       dev_name := "Ecowitt Gateway " +:+ default "" (gateway_info !! "host");
       dev_manufacturer := MANUFACTURER;
       dev_model := default "Unknown" (gateway_info !! "model");
       dev_sw_version := Some (default "Unknown" (gateway_info !! "firmware_version"));
       dev_configuration_url := Some ("http://" +:+ default "" (gateway_info !! "host"));
       dev_via_device := None;
       dev_suggested_area := None |} in
  let hardware_id := default "" (_hardware_id self) in
  if present (_hardware_id self)
     && negb (bool_decide (upper hardware_id ∈ invalid_hardware_ids))
  then
    sensor_info ← get_sensor_info ops m hardware_id;
    match sensor_info with
    | Some sensor_info =>
        let device_model :=
          if nonempty (info_device_model sensor_info) then info_device_model sensor_info
          else info_sensor_type sensor_info in
        let sensor_type_name := _get_sensor_type_display_name sensor_info in
        Ok {| dev_identifiers := (DOMAIN C, hardware_id);
              dev_name := "Ecowitt " +:+ sensor_type_name +:+ " " +:+ hardware_id;
              dev_manufacturer := MANUFACTURER;
              dev_model := device_model;
              dev_sw_version := None;
              dev_configuration_url := None;
              dev_via_device := Some (DOMAIN C, gateway_id);
              dev_suggested_area :=
                if _is_outdoor_sensor sensor_info then Some "Outdoor" else None |}
    | None => Ok gateway_device
    end
  else Ok gateway_device.

(** [available(self)]; [last_update_success] is the coordinator's flag,
    [include_inactive] the entry of the configuration. *)
Definition available {float : Type} (last_update_success include_inactive : bool)
    (data : option (ProcessedData (float := float)))
    (self : EcowittLocalSensor (float := float)) : bool :=
  if negb last_update_success then false
  else
    match get_sensor_data data (sensor_entity_id self) with
    | None => false
    | Some sensor_info =>
        if present (_hardware_id self)
           && match state sensor_info with PyNone => true | _ => false end
        then include_inactive
        else true
    end.

End SensorPy.

(** ** Setting up the integration (__init__.py) *)

(** How setting up ends: set up, or with [ConfigEntryAuthFailed]
    ([SetupAuthFailed]), with [ConfigEntryNotReady], or with another
    exception left to the caller. *)
Inductive setup_outcome (A : Type) : Type :=
| SetUp (a : A)
| SetupAuthFailed (cause : exn)
| ConfigEntryNotReady (cause : exn)
| SetupRaised (err : exn).
Arguments SetUp {A} a.
Arguments SetupAuthFailed {A} cause.
Arguments ConfigEntryNotReady {A} cause.
Arguments SetupRaised {A} err.

(** [EcowittLocalDataUpdateCoordinator.__init__]: [new_mapper] is
    [SensorMapper()], the other arguments are read from the configuration
    entry. *)
Definition new_coordinator (new_mapper : SensorMapper) (conf_host : string)
    (conf_mapping_interval : Z) (conf_include_inactive : bool) : Coordinator :=
  {| host := conf_host;
     mapping_interval := conf_mapping_interval;
     sensor_mapper := new_mapper;
     _gateway_info := ∅;
     _last_mapping_update := None;
     _include_inactive := conf_include_inactive;
     api_calls := [] |}.

(** [async_setup(self)] of the coordinator; [test_connection] is what
    [self.api.test_connection()] answers, a call that is not counted among
    the three data calls. *)
Definition async_setup (ops : MapperOps) (api : Api) (test_connection : result bool)
    (c : Coordinator) : Coordinator * setup_outcome unit :=
  match test_connection with
  | Ok _ => (_update_sensor_mapping ops api c, SetUp tt)
  | Raise AuthenticationError => (c, SetupAuthFailed AuthenticationError)
  | Raise err => (c, ConfigEntryNotReady err)
  end.

Module InitPy.

Definition type_names : gmap string string :=
  list_to_map
    [("wh51", "Soil Moisture Sensor");
     ("wh31", "Temperature/Humidity Sensor");
     ("wh41", "PM2.5 Air Quality Sensor");
     ("wh55", "Leak Sensor");
     ("wh57", "Lightning Sensor");
     ("wh40", "Rain Sensor");
     ("wh68", "Weather Station");
     ("ws90", "WS90 Weather Station");
     ("wh90", "WS90 Weather Station");
     ("soil", "Soil Moisture Sensor");
     ("temp_hum", "Temperature/Humidity Sensor");
     ("pm25", "PM2.5 Air Quality Sensor");
     ("leak", "Leak Sensor");
     ("lightning", "Lightning Sensor");
     ("rain", "Rain Sensor");
     ("weather_station", "Weather Station")].

(** [_get_sensor_type_display_name(sensor_type)] *)
Definition _get_sensor_type_display_name (sensor_type : string) : string :=
  let sensor_type_lower := lower sensor_type in
  default "Sensor" (type_names !! sensor_type_lower).

Definition outdoor_types : list string :=
  ["wh51"; "wh41"; "wh55"; "wh57"; "wh40"; "wh68"; "ws90"; "wh90";
   "soil"; "pm25"; "leak"; "lightning"; "rain"; "weather_station"].

(** [_is_outdoor_sensor(sensor_type)] *)
Definition _is_outdoor_sensor (sensor_type : string) : bool :=
  let sensor_type_lower := lower sensor_type in
  bool_decide (sensor_type_lower ∈ outdoor_types).

Section Registry.
Variable C : Const.
Variable ops : MapperOps.
(** [SensorMapper.get_all_hardware_ids()] (sensor_mapper.py) *)
Variable get_all_hardware_ids : SensorMapper -> result (list string).

(** The gateway device [_async_setup_device_registry] creates. *)
Definition gateway_device (gateway_info : gmap string string) : DeviceInfo :=
  let gateway_id := default "unknown" (gateway_info !! "gateway_id") in
  let host := default "" (gateway_info !! "host") in
  let config_url := if nonempty host then Some ("http://" +:+ host) else None in
  {| dev_identifiers := (DOMAIN C, gateway_id);
     dev_name := "Ecowitt Gateway " +:+ host;
     dev_manufacturer := "Ecowitt";
     dev_model := default "Unknown" (gateway_info !! "model");
     dev_sw_version := Some (default "Unknown" (gateway_info !! "firmware_version"));
     dev_configuration_url := config_url;
     dev_via_device := None;
     dev_suggested_area := None |}.

(** The body of the loop over the hardware ids: the device created for
    one id, if any. *)
Definition sensor_device (gateway_info : gmap string string) (m : SensorMapper)
    (hardware_id : string) : result (option DeviceInfo) :=
  let gateway_id := default "unknown" (gateway_info !! "gateway_id") in
  if is_empty hardware_id || bool_decide (upper hardware_id ∈ invalid_hardware_ids)
  then Ok None
  else
    sensor_info ← get_sensor_info ops m hardware_id;
    match sensor_info with
    | Some sensor_info =>
        let sensor_type := info_sensor_type sensor_info in
        let device_model :=
          if nonempty (info_device_model sensor_info) then info_device_model sensor_info
          else sensor_type in
        let sensor_type_name := _get_sensor_type_display_name sensor_type in
        let is_outdoor := _is_outdoor_sensor sensor_type in
        Ok (Some {| dev_identifiers := (DOMAIN C, hardware_id);
                    dev_name := "Ecowitt " +:+ sensor_type_name +:+ " " +:+ hardware_id;
                    dev_manufacturer := "Ecowitt";
                    dev_model := device_model;
                    dev_sw_version := None;
                    dev_configuration_url := None;
                    dev_via_device := Some (DOMAIN C, gateway_id);
                    dev_suggested_area := if is_outdoor then Some "Outdoor" else None |})
    | None => Ok None
    end.

Fixpoint sensor_devices (gateway_info : gmap string string) (m : SensorMapper)
    (hardware_ids : list string) : result (list DeviceInfo) :=
  match hardware_ids with
  | [] => Ok []
  | hardware_id :: rest =>
      device ← sensor_device gateway_info m hardware_id;
      devices ← sensor_devices gateway_info m rest;
      Ok (match device with Some d => d :: devices | None => devices end)
  end.

(** [_async_setup_device_registry(hass, entry, coordinator)]: the devices
    given to [device_registry.async_get_or_create], in order, all for the
    entry's [entry_id]. *)
Definition _async_setup_device_registry (gateway_info : gmap string string)
    (m : SensorMapper) : result (list DeviceInfo) :=
  hardware_ids ← get_all_hardware_ids m;
  devices ← sensor_devices gateway_info m hardware_ids;
  Ok (gateway_device gateway_info :: devices).

(** [async_setup_entry(hass, entry)] up to the device registry: the
    coordinator stored in [hass.data] and the devices registered. *)
Definition async_setup_entry (api : Api) (test_connection : result bool)
    (new_mapper : SensorMapper) (conf_host : string) (conf_mapping_interval : Z)
    (conf_include_inactive : bool) : Coordinator * setup_outcome (list DeviceInfo) :=
  let coordinator :=
    new_coordinator new_mapper conf_host conf_mapping_interval conf_include_inactive in
  let '(coordinator, set_up) := async_setup ops api test_connection coordinator in
  match set_up with
  | SetUp _ =>
      match _async_setup_device_registry (_gateway_info coordinator)
              (sensor_mapper coordinator) with
      | Ok devices => (coordinator, SetUp devices)
      | Raise err => (coordinator, SetupRaised err)
      end
  | SetupAuthFailed err => (coordinator, ConfigEntryNotReady err)
  | ConfigEntryNotReady err => (coordinator, ConfigEntryNotReady err)
  | SetupRaised err => (coordinator, ConfigEntryNotReady err)
  end.

End Registry.

(** [s.split(sep)] for a one-character separator. *)
Fixpoint split (sep : ascii) (s : string) : list string :=
  match s with
  | EmptyString => [EmptyString]
  | String c s' =>
      if Ascii.eqb c sep then EmptyString :: split sep s'
      else match split sep s' with
           | part :: parts => String c part :: parts
           | [] => [String c EmptyString]
           end
  end.


End InitPy.

(** ** The sensor mapper, from its specification *)

Definition empty_mapper : SensorMapper :=
  {| _sensor_info := []; _hardware_mapping := ∅ |}.

(** Modelled from the spec: the reserved hardware ids that mean "no unit
    paired", [FFFFFFFE], [FFFFFFFF] and [00000000], in any case. *)
Definition sentinel_ids : list string := ["FFFFFFFE"; "FFFFFFFF"; "00000000"].

(** Modelled from the spec: an entry [update_mapping] keeps has a hardware
    id that is neither empty nor reserved. *)
Definition valid_entry (entry : Item) : bool :=
  match entry !! "id" with
  | Some id => nonempty id && negb (bool_decide (upper id ∈ sentinel_ids))
  | None => false
  end.

Section SpecMapper.
(** The wire keys a mapping entry owns, and the classification of a model
    code: the specification leaves both to the mapper. *)
Variable wire_keys : Item -> list string.
Variable classify : string -> string.

(** Modelled from the spec: the unit an entry of the snapshot describes. *)
Definition entry_info (entry : Item) : HardwareInfo :=
  {| info_hardware_id := default "" (entry !! "id");
     info_sensor_type := classify (default "" (entry !! "type"));
     info_channel := default "" (entry !! "channel");
     info_device_model := default "" (entry !! "img");
     info_battery := default "" (entry !! "batt");
     info_signal := default "" (entry !! "signal");
     info_raw_data := entry |}.

(** Modelled from the spec: an entry overwrites the unit of its hardware id
    and takes its wire keys. *)
Definition add_entry (m : SensorMapper) (entry : Item) : SensorMapper :=
  let id := default "" (entry !! "id") in
  {| _sensor_info := ODict.set id (entry_info entry) (_sensor_info m);
     _hardware_mapping := map_keys (wire_keys entry) id (_hardware_mapping m) |}.

(** Modelled from the spec: [SensorMapper.update_mapping] (sensor_mapper.py is
    not among the sources) "replaces the entire hardware-unit table and
    wire-key mapping in one atomic step from a freshly fetched snapshot.
    Entries with a sentinel or empty hardware id are discarded." *)
Definition spec_update_mapping (m : SensorMapper) (snapshot : list Item)
  : SensorMapper * result unit :=
  (foldl add_entry empty_mapper (filter (fun e => valid_entry e = true) snapshot), Ok tt).

(** Modelled from the spec: [SensorMapper.get_hardware_id], a "pure lookup;
    null means no physical unit owns this key". *)
Definition spec_get_hardware_id (m : SensorMapper) (wire_key : string)
  : result (option string) := Ok (_hardware_mapping m !! wire_key).

(** Modelled from the spec: [SensorMapper.get_sensor_info], the unit of a
    hardware id or null. *)
Definition spec_get_sensor_info (m : SensorMapper) (hardware_id : string)
  : result (option HardwareInfo) := Ok (ODict.get hardware_id (_sensor_info m)).

(** Modelled from the spec: [SensorMapper.generate_entity_id], "derived
    deterministically from (wire_key, hardware_id | config_instance)".  The
    specification fixes no format; this one serves the examples. *)
Definition spec_generate_entity_id (m : SensorMapper) (wire_key : string)
    (hardware_id : option string) : result (string * string) :=
  Ok (if present hardware_id
      then "sensor.ecowitt_" +:+ wire_key +:+ "_" +:+ lower (default "" hardware_id)
      else "sensor.ecowitt_" +:+ wire_key,
      wire_key).

(** Modelled from the spec: the mapping-stats query, "counts (unit count,
    mapped-key count, distinct type count)". *)
Definition spec_get_mapping_stats (m : SensorMapper) : result (Z * Z * Z) :=
  Ok (Z.of_nat (length (_sensor_info m)),
      Z.of_nat (size (_hardware_mapping m)),
      Z.of_nat (length (remove_dups (map (fun e => info_sensor_type (snd e)) (_sensor_info m))))).

Definition spec_mapper : MapperOps :=
  {| get_hardware_id := spec_get_hardware_id;
     generate_entity_id := spec_generate_entity_id;
     get_sensor_info := spec_get_sensor_info;
     update_mapping := spec_update_mapping;
     get_mapping_stats := spec_get_mapping_stats |}.

End SpecMapper.

(** ** Instances for the examples *)

(** Floats kept as the literal they were read from. *)
#[global] Instance literal_float : PyFloatOps float_literal :=
  {| float_of_literal := fun l => l;
     float_is_zero := fun l =>
       match l with
       | LitFinite _ m _ => (m =? 0)%N
       | _ => false
       end;
     float_repr := fun l =>
       match l with
       | LitFinite neg m e =>
           (if neg then "-" else "") +:+ of_Z (Z.of_N m) +:+ "e" +:+ of_Z e
       | LitInf neg => if neg then "-inf" else "inf"
       | LitNan _ => "nan"
       end |}.

(** A small instance of the tables of const.py. *)
Definition example_const : Const :=
  {| DOMAIN := "ecowitt_local";
     SENSOR_TYPES :=
       {[ "tempf" := {[ "name" := "Outdoor Temperature"; "unit" := "F";
                        "device_class" := "temperature" ]} ]};
     BATTERY_SENSORS := {[ "soilbatt1" := {[ "name" := "Soil Battery CH1" ]} ]};
     SYSTEM_SENSORS := {[ "runtime" := {[ "name" := "Gateway Runtime"; "unit" := "s" ]} ]};
     GATEWAY_SENSORS := {[ "tempinf"; "humidityin"; "baromrelin"; "baromabsin"; "runtime" ]};
     WS90_HEX_SENSORS := list_to_set hex_id_sensors |}.

Definition example_mapper : MapperOps := spec_mapper (fun _ => []) (fun code => code).

Definition example_isoformat (t : Z) : string := of_Z t.

(** A gateway that answers every call with the same data. *)
Definition example_api (live : RawData) : Api :=
  {| get_all_sensor_mappings := fun _ => Ok [];
     get_live_data := fun _ => Ok live;
     get_version := fun _ => Ok {[ "version" := "GW1100A_V2.4.3"; "stationtype" := "GW1100A" ]} |}.

Definition example_coordinator : Coordinator :=
  {| host := "192.168.1.50";
     mapping_interval := 600;
     sensor_mapper := empty_mapper;
     _gateway_info := ∅;
     _last_mapping_update := None;
     _include_inactive := false;
     api_calls := [] |}.

Definition common_only (items : list Item) : RawData :=
  {| common_list := items; ch_soil := []; wh25 := []; piezoRain := []; ch_aisle := [] |}.

Definition paired_info : HardwareInfo :=
  {| info_hardware_id := "A1B2"; info_sensor_type := "WH51";
     info_channel := "1"; info_device_model := "wh51";
     info_battery := "4"; info_signal := "3"; info_raw_data := ∅ |}.

Definition paired_mapper : SensorMapper :=
  {| _sensor_info := [("A1B2", paired_info)];
     _hardware_mapping := {[ "soilmoisture1" := "A1B2"; "soilbatt1" := "A1B2" ]} |}.

Definition paired_coordinator : Coordinator :=
  {| host := "192.168.1.50"; mapping_interval := 600; sensor_mapper := paired_mapper;
     _gateway_info := ∅; _last_mapping_update := Some 0%Z; _include_inactive := false;
     api_calls := [] |}.

Definition offline_api (live : RawData) : Api :=
  {| get_all_sensor_mappings := fun _ => Raise APIConnectionError;
     get_live_data := fun _ => Ok live;
     get_version := fun _ => Raise APIConnectionError |}.

(** The superscript two: [isdigit] accepts it, [int] does not. *)
Definition superscript_two : string := String (ascii_of_N 178) EmptyString.

(** A mapper whose [generate_entity_id] raises for one wire key. *)
Definition raising_mapper (bad : string) : MapperOps :=
  {| get_hardware_id := get_hardware_id example_mapper;
     generate_entity_id := fun m key h =>
       if String.eqb key bad then Raise (OtherError "KeyError")
       else generate_entity_id example_mapper m key h;
     get_sensor_info := get_sensor_info example_mapper;
     update_mapping := update_mapping example_mapper;
     get_mapping_stats := get_mapping_stats example_mapper |}.

Definition example_cycle (ops : MapperOps) (items : list Item)
  : outcome (ProcessedData (float := float_literal)) :=
  snd (_async_update_data example_const ops (example_api (common_only items))
         example_isoformat example_coordinator 1000).

(** The readings a cycle returned, if it returned, and the one stored under
    an entity id. *)
Definition returned_sensors {float : Type} (o : outcome (ProcessedData (float := float)))
  : option (odict (SensorData (float := float))) :=
  match o with
  | Returned d => Some (sensors d)
  | _ => None
  end.

Definition returned_reading {float : Type} (o : outcome (ProcessedData (float := float)))
    (entity : string) : option (SensorData (float := float)) :=
  sensors ← returned_sensors o; ODict.get entity sensors.

Definition ws90_cycle (live : RawData)
  : Coordinator * outcome (ProcessedData (float := float_literal)) :=
  _async_update_data example_const example_mapper (example_api live)
    example_isoformat example_coordinator 1000.

Definition ws90_example_metadata : Ws90Metadata :=
  {| ws90_battery := "5"; ws90_voltage := None; ws90_cap_volt := None; ws90_ver := "158" |}.

Definition ws90_rain_item : Item :=
  {[ "id" := "0x0D"; "val" := "0.00 in"; "battery" := "5"; "ws90_ver" := "158" ]}.

Definition ws90_live : RawData :=
  {| common_list := [reading "0x02" "70.5"; reading "3" "68.0"];
     ch_soil := []; wh25 := []; piezoRain := [ws90_rain_item]; ch_aisle := [] |}.

(** A unit with a channel whose signal is not known. *)
Definition silent_mapper : SensorMapper :=
  {| _sensor_info :=
       [("A1B2", {| info_hardware_id := "A1B2"; info_sensor_type := "WH51";
                    info_channel := "1"; info_device_model := "wh51";
                    info_battery := "4"; info_signal := "--"; info_raw_data := ∅ |})];
     _hardware_mapping := {[ "soilmoisture1" := "A1B2" ]} |}.

Definition soil_reading : SensorData (float := float_literal) :=
  {| entity_id := "sensor.ecowitt_soilmoisture1_a1b2"; name := "soilmoisture1";
     state := PyInt 41; unit_of_measurement := Some "%"; device_class := Some "moisture";
     category := "sensor"; sensor_key := "soilmoisture1"; hardware_id := Some "A1B2";
     raw_value := "41"; attributes := ∅ |}.

Definition bare_rain_item : Item := {[ "battery" := "5"; "ws90_ver" := "158" ]}.

Definition bare_live : RawData :=
  {| common_list := [reading "0x02" "70.5"; reading "3" "68.0"];
     ch_soil := []; wh25 := []; piezoRain := [bare_rain_item]; ch_aisle := [] |}.

(** * Properties *)

(** ** The primitives on examples *)

Example py_int_ex :
  py_int "007" = Ok 7%Z /\ py_int "-12" = Ok (-12)%Z /\ py_int "1_000" = Ok 1000%Z
  /\ py_int "12.5" = Raise ValueError /\ py_int "" = Raise ValueError
  /\ py_int "5_" = Raise ValueError.
Proof. repeat split; reflexivity. Qed.

Example float_literal_ex :
  float_literal_of "29.40" = Ok (LitFinite false 2940 (-2))
  /\ float_literal_of "-.5" = Ok (LitFinite true 5 (-1))
  /\ float_literal_of "5." = Ok (LitFinite false 5 0)
  /\ float_literal_of "1.5e-3" = Ok (LitFinite false 15 (-4))
  /\ float_literal_of "1_0.2_5E+2" = Ok (LitFinite false 1025 0)
  /\ float_literal_of "-Infinity" = Ok (LitInf true)
  /\ float_literal_of "." = Raise ValueError
  /\ float_literal_of "1e" = Raise ValueError
  /\ float_literal_of "abc" = Raise ValueError.
Proof. repeat split; reflexivity. Qed.

Example str_ex :
  strip "  29.40 inHg " = "29.40 inHg"
  /\ lower "N/A" = "n/a"
  /\ upper "gw1100a" = "GW1100A"
  /\ replace " hPa" "" "1013.2 hPa" = "1013.2"
  /\ replace "%" "" "45%" = "45"
  /\ before_first "_" "GW1100A_V2.4.3" = "GW1100A"
  /\ last_n 3 "WS90v158" = "158" /\ last_n 3 "13" = "13"
  /\ of_Z 60 = "60" /\ of_Z 0 = "0"
  /\ isdigit "80" = true /\ isdigit "" = false /\ isdigit "-3" = false.
Proof. repeat split; reflexivity. Qed.

Example firmware_ex :
  _extract_model_from_firmware "GW1100A_V2.4.3" = "GW1100A"
  /\ _extract_model_from_firmware "GW2000" = "GW2000"
  /\ _extract_model_from_firmware "GW1100A V2.4.3" = "GW1100A"
  /\ _extract_model_from_firmware "V2.4.3" = "Unknown"
  /\ _extract_model_from_firmware "" = "Unknown".
Proof. repeat split; reflexivity. Qed.

Section NormalizerExamples.
Context {float : Type} `{!PyFloatOps float}.
Example convert_ex :
  _convert_sensor_value (PyStr "89%") None = Ok (PyInt 89)
  /\ _convert_sensor_value (PyStr "29.40 inHg") None
     = Ok (PyFloat (float_of_literal (LitFinite false 2940 (-2))))
  /\ _convert_sensor_value (PyStr "--") None = Ok PyNone
  /\ _convert_sensor_value (PyStr "--x") None = Ok PyNone
  /\ _convert_sensor_value (PyStr "abc") None = Ok (PyStr "abc")
  /\ _convert_sensor_value (PyStr " N/A ") None = Ok PyNone
  /\ _convert_sensor_value (PyStr "1e5") None = Ok (PyInt 1)
  /\ _convert_sensor_value (PyStr "5.") None
     = Ok (PyFloat (float_of_literal (LitFinite false 5 0)))
  /\ _convert_sensor_value (PyStr "1_000") None = Ok (PyInt 1000)
  /\ _convert_sensor_value (PyStr "- . -") None = Ok PyNone
  /\ _convert_sensor_value (PyStr "12 mm/hr") None = Ok (PyInt 12)
  /\ _convert_sensor_value (PyStr "1.5.3") None = Ok (PyStr "1.5.3")
  /\ _convert_sensor_value (PyInt 0) None = Ok PyNone
  /\ _convert_sensor_value (PyInt 7) None = Ok (PyInt 7).
Proof. repeat split; vm_compute; reflexivity. Qed.
End NormalizerExamples.

(** ** Characters *)

Ltac ascii_cases c :=
  destruct c as [[] [] [] [] [] [] [] []]; vm_compute in *;
  try discriminate; try reflexivity; try congruence.

Lemma decimal_not_space c : isdecimal_c c = true -> isspace_c c = false.
Proof. ascii_cases c. Qed.

Lemma decimal_not_unit c : isdecimal_c c = true -> isunit_c c = false.
Proof. ascii_cases c. Qed.

Lemma unit_not_decimal c : isunit_c c = true -> isdecimal_c c = false.
Proof. ascii_cases c. Qed.

Lemma unit_not_space c : isunit_c c = true -> isspace_c c = false.
Proof. ascii_cases c. Qed.

Lemma unit_not_dot c : isunit_c c = true -> code_is 46 c = false.
Proof. ascii_cases c. Qed.

Lemma space_not_decimal c : isspace_c c = true -> isdecimal_c c = false.
Proof. ascii_cases c. Qed.

Lemma space_not_dot c : isspace_c c = true -> code_is 46 c = false.
Proof. ascii_cases c. Qed.

Lemma decimal_not_dot c : isdecimal_c c = true -> code_is 46 c = false.
Proof. ascii_cases c. Qed.

Lemma decimal_not_sign c :
  isdecimal_c c = true -> code_is 45 c = false /\ code_is 43 c = false.
Proof. ascii_cases c; split; reflexivity. Qed.

Lemma decimal_not_underscore c : isdecimal_c c = true -> underscore c = false.
Proof. ascii_cases c. Qed.

Lemma decimal_is_digit c : isdecimal_c c = true -> isdigit_c c = true.
Proof. ascii_cases c. Qed.

Lemma decimal_lower c : isdecimal_c c = true -> lower_c c = c.
Proof. ascii_cases c. Qed.

Lemma code_is_eq n c : code_is n c = true -> c = ascii_of_N n.
Proof.
  unfold code_is, code. intros E. apply N.eqb_eq in E. subst n.
  symmetry. apply ascii_N_embedding.
Qed.

Lemma code_is_ascii (a c : ascii) : code_is (N_of_ascii a) c = Ascii.eqb c a.
Proof.
  unfold code_is, code. destruct (Ascii.eqb_spec c a) as [->|Hne].
  - apply N.eqb_refl.
  - apply N.eqb_neq. intros E. apply Hne.
    rewrite <- (ascii_N_embedding c), <- (ascii_N_embedding a). now f_equal.
Qed.

(** ** Strings *)

Lemma forallb_app p a b : forallb p (a +:+ b) = forallb p a && forallb p b.
Proof. induction a as [|c a IH]; simpl; [reflexivity|]. now rewrite IH, andb_assoc. Qed.

Lemma app_empty_r (s : string) : s +:+ "" = s.
Proof. induction s as [|c s IH]; simpl; congruence. Qed.

Lemma app_assoc_str (a b c : string) : (a +:+ b) +:+ c = a +:+ (b +:+ c).
Proof. induction a as [|x a IH]; simpl; congruence. Qed.

Lemma lstrip_spaces sp r : forallb isspace_c sp = true -> lstrip (sp +:+ r) = lstrip r.
Proof.
  induction sp as [|c sp IH]; simpl; [reflexivity|].
  intros [Hc Hsp]%andb_true_iff. rewrite Hc. auto.
Qed.

Lemma is_empty_lstrip s : is_empty (lstrip s) = forallb isspace_c s.
Proof.
  induction s as [|c s IH]; simpl; [reflexivity|].
  destruct (isspace_c c); simpl; auto.
Qed.

Lemma forallb_space_lstrip s : forallb isspace_c (lstrip s) = forallb isspace_c s.
Proof.
  induction s as [|c s IH]; simpl; [reflexivity|].
  destruct (isspace_c c) eqn:E; simpl; [auto|now rewrite E].
Qed.

Lemma is_empty_rstrip s : is_empty (rstrip s) = forallb isspace_c s.
Proof.
  induction s as [|c s IH]; simpl; [reflexivity|].
  destruct (rstrip s) eqn:E; simpl in *.
  - rewrite <- IH, andb_true_r. now destruct (isspace_c c).
  - rewrite <- IH. now rewrite andb_false_r.
Qed.

Lemma is_empty_strip s : is_empty (strip s) = forallb isspace_c s.
Proof. unfold strip. now rewrite is_empty_rstrip, forallb_space_lstrip. Qed.

Lemma is_empty_true s : is_empty s = true <-> s = "".
Proof. destruct s; simpl; split; congruence. Qed.

Lemma strip_empty_inv s : strip s <> "" -> s <> "".
Proof. intros H ->. now apply H. Qed.

Definition no_space (s : string) : bool := forallb (fun c => negb (isspace_c c)) s.

Lemma rstrip_no_space s : no_space s = true -> rstrip s = s.
Proof.
  induction s as [|c s IH]; simpl; [reflexivity|].
  intros [Hc Hs]%andb_true_iff. rewrite (IH Hs).
  destruct s; [|reflexivity]. apply negb_true_iff in Hc. now rewrite Hc.
Qed.

Lemma strip_no_space s : no_space s = true -> strip s = s.
Proof.
  intros H. unfold strip.
  assert (lstrip s = s) as ->; [|now apply rstrip_no_space].
  destruct s as [|c s]; simpl in *; [reflexivity|].
  apply andb_true_iff in H as [Hc _]. apply negb_true_iff in Hc. now rewrite Hc.
Qed.

(** [s.replace(c, "")] for one character removes its occurrences. *)
Fixpoint remove_char (c : ascii) (s : string) : string :=
  match s with
  | EmptyString => EmptyString
  | String x s' => if Ascii.eqb x c then remove_char c s' else String x (remove_char c s')
  end.

Lemma replace_char c s : replace (String c "") "" s = remove_char c s.
Proof.
  unfold replace. induction s as [|x s IH]; simpl; [reflexivity|].
  destruct (Ascii.eqb_spec x c) as [->|Hne].
  - destruct (ascii_dec c c); [|congruence]. destruct s; simpl; exact IH.
  - destruct (ascii_dec c x); [congruence|]. now rewrite IH.
Qed.

Lemma forallb_remove_char p c s :
  forallb p (remove_char c s) = forallb (fun x => Ascii.eqb x c || p x) s.
Proof.
  induction s as [|x s IH]; simpl; [reflexivity|].
  destruct (Ascii.eqb x c); simpl; now rewrite IH.
Qed.

Lemma forallb_ext p q s : (forall c, p c = q c) -> forallb p s = forallb q s.
Proof. intros E. induction s as [|x s IH]; simpl; [reflexivity|]. now rewrite E, IH. Qed.

(** A dash, a dot or white space. *)
Definition blank_c (c : ascii) : bool := code_is 45 c || code_is 46 c || isspace_c c.

Lemma only_blank_spec t :
  is_empty (strip (replace "." "" (replace "-" "" t))) = forallb blank_c t.
Proof.
  rewrite is_empty_strip, !replace_char, !forallb_remove_char.
  apply forallb_ext. intros c. unfold blank_c.
  pose proof (code_is_ascii "-" c) as E1. pose proof (code_is_ascii "." c) as E2.
  change (N_of_ascii "-") with 45%N in E1. change (N_of_ascii ".") with 46%N in E2.
  rewrite E1, E2.
  destruct (Ascii.eqb c "-"), (Ascii.eqb c "."); reflexivity.
Qed.

Lemma forallb_false_mid p a c b : p c = false -> forallb p (a +:+ String c b) = false.
Proof. intros H. rewrite forallb_app. simpl. rewrite H. now rewrite andb_false_r. Qed.

Lemma contains_char c s :
  contains (String c "") s = negb (forallb (fun x => negb (Ascii.eqb x c)) s).
Proof.
  induction s as [|x s IH]; simpl; [reflexivity|].
  rewrite IH. destruct (ascii_dec c x) as [->|Hne].
  - rewrite Ascii.eqb_refl. now destruct s.
  - destruct (Ascii.eqb_spec x c); [congruence|]. reflexivity.
Qed.

(** ** The parsers raise nothing but [ValueError] *)

Lemma py_int_raises s e : py_int s = Raise e -> e = ValueError.
Proof.
  unfold py_int. destruct (sign (strip s)) as [neg body].
  destruct (int_digits body 0 false); congruence.
Qed.

Lemma float_literal_raises s e : float_literal_of s = Raise e -> e = ValueError.
Proof.
  unfold float_literal_of. destruct (sign (strip s)) as [neg body].
  repeat match goal with |- context [if ?b then _ else _] => destruct b end;
    try congruence.
  destruct (floatnumber neg body); congruence.
Qed.

(** ** Decimal digits *)

Fixpoint digits_value_from (acc : N) (ds : string) : N :=
  match ds with
  | EmptyString => acc
  | String c r => digits_value_from (acc * 10 + digit_val c)%N r
  end.

(** The number a string of decimal digits denotes. *)
Definition digits_value (ds : string) : N := digits_value_from 0 ds.

Definition signed (neg : bool) (n : N) : Z := if neg then (- Z.of_N n)%Z else Z.of_N n.

(** A non-empty string of decimal digits. *)
Definition digits (ds : string) : Prop := ds <> "" /\ forallb isdecimal_c ds = true.

(** An optional sign and what it stands for. *)
Definition sign_text (neg : bool) (sg : string) : Prop :=
  (sg = "" /\ neg = false) \/ (sg = "+" /\ neg = false) \/ (sg = "-" /\ neg = true).

(** A unit suffix: nothing, or a token that starts with a letter, a percent
    sign or a slash and runs to the end of the line. *)
Definition unit_suffix (u : string) : Prop :=
  match u with
  | EmptyString => True
  | String c r => isunit_c c = true /\ forallb (fun x => negb (code_is 10 x)) r = true
  end.

(** Where a run of digits ends. *)
Definition stops (r : string) : Prop :=
  match r with
  | EmptyString => True
  | String c _ => isdecimal_c c = false /\ underscore c = false
  end.

Lemma digits_value_from_app acc a b :
  digits_value_from acc (a +:+ b) = digits_value_from (digits_value_from acc a) b.
Proof. revert acc. induction a as [|c a IH]; simpl; intros; [reflexivity|apply IH]. Qed.

Lemma span_decimal_app ds r :
  forallb isdecimal_c ds = true ->
  match r with String c _ => isdecimal_c c = false | EmptyString => True end ->
  span_decimal (ds +:+ r) = (ds, r).
Proof.
  intros Hd Hr. induction ds as [|c ds IH]; simpl in *.
  - destruct r as [|c r]; [reflexivity|]. simpl. now rewrite Hr.
  - apply andb_true_iff in Hd as [Hc Hd]. rewrite Hc, (IH Hd). reflexivity.
Qed.

Lemma int_digits_decimal ds acc b :
  forallb isdecimal_c ds = true -> (ds = "" -> b = true) ->
  int_digits ds acc b = Some (digits_value_from acc ds).
Proof.
  revert acc b. induction ds as [|c ds IH]; simpl; intros acc b Hd Hb.
  - now rewrite Hb.
  - apply andb_true_iff in Hd as [Hc Hd]. rewrite Hc. now apply IH.
Qed.

Lemma digitpart_go_app ds r acc cnt :
  forallb isdecimal_c ds = true -> stops r ->
  digitpart_go (ds +:+ r) acc cnt = (digits_value_from acc ds, (cnt + String.length ds)%nat, r).
Proof.
  revert acc cnt. induction ds as [|c ds IH]; simpl; intros acc cnt Hd Hr.
  - rewrite Nat.add_0_r. destruct r as [|c r]; [reflexivity|].
    destruct Hr as [H1 H2]. simpl. now rewrite H1, H2.
  - apply andb_true_iff in Hd as [Hc Hd]. rewrite Hc, (IH _ _ Hd Hr).
    f_equal. f_equal. lia.
Qed.

Lemma digitpart_digits ds r acc :
  digits ds -> stops r ->
  digitpart (ds +:+ r) acc = Some (digits_value_from acc ds, String.length ds, r).
Proof.
  intros [Hne Hd] Hr. destruct ds as [|c ds]; [congruence|]. simpl in *.
  apply andb_true_iff in Hd as [Hc Hd]. rewrite Hc, (digitpart_go_app _ _ _ _ Hd Hr).
  reflexivity.
Qed.

Lemma forallb_impl (p q : ascii -> bool) s :
  (forall c, p c = true -> q c = true) -> forallb p s = true -> forallb q s = true.
Proof.
  intros Hpq. induction s as [|c s IH]; [reflexivity|].
  change (p c && forallb p s = true -> q c && forallb q s = true).
  intros [Hc Hs]%andb_true_iff. now rewrite (Hpq _ Hc), (IH Hs).
Qed.

Lemma decimal_no_space ds : forallb isdecimal_c ds = true -> no_space ds = true.
Proof.
  apply forallb_impl. intros c Hc. now rewrite (decimal_not_space _ Hc).
Qed.

Lemma no_space_app a b : no_space (a +:+ b) = no_space a && no_space b.
Proof. apply forallb_app. Qed.

Lemma sign_text_no_space neg sg : sign_text neg sg -> no_space sg = true.
Proof. intros [[-> _]|[[-> _]|[-> _]]]; reflexivity. Qed.

Lemma sign_of_text neg sg body :
  sign_text neg sg ->
  match body with String c _ => code_is 45 c = false /\ code_is 43 c = false | EmptyString => True end ->
  sign (sg +:+ body) = (neg, body).
Proof.
  intros [[-> ->]|[[-> ->]|[-> ->]]] Hb; try reflexivity.
  simpl. destruct body as [|c r]; [reflexivity|]. simpl. destruct Hb as [-> ->]. reflexivity.
Qed.

Lemma py_int_digits neg sg ds :
  sign_text neg sg -> digits ds -> py_int (sg +:+ ds) = Ok (signed neg (digits_value ds)).
Proof.
  intros Hs [Hne Hd]. unfold py_int.
  rewrite strip_no_space.
  2:{ rewrite no_space_app, (sign_text_no_space _ _ Hs), (decimal_no_space _ Hd). reflexivity. }
  rewrite (sign_of_text neg sg ds Hs).
  2:{ destruct ds as [|c r]; [exact I|]. simpl in Hd. apply andb_true_iff in Hd as [Hc _].
      now apply decimal_not_sign. }
  rewrite (int_digits_decimal ds 0 false Hd); [|congruence]. reflexivity.
Qed.

Lemma dot_star_end_no_newline r :
  forallb (fun x => negb (code_is 10 x)) r = true -> dot_star_end r = true.
Proof.
  induction r as [|c r IH]; simpl; [reflexivity|].
  intros [Hc Hr]%andb_true_iff. apply negb_true_iff in Hc. rewrite Hc. auto.
Qed.

Lemma unit_tail_suffix sp u :
  forallb isspace_c sp = true -> unit_suffix u -> unit_tail (sp +:+ u) = true.
Proof.
  intros Hsp Hu. unfold unit_tail. rewrite (lstrip_spaces _ _ Hsp).
  destruct u as [|c r]; [reflexivity|]. destruct Hu as [Hc Hr]. simpl.
  rewrite (unit_not_space _ Hc), Hc. simpl. now apply dot_star_end_no_newline.
Qed.

(** What follows the number: a space, a unit character or the end. *)
Lemma after_number sp u :
  forallb isspace_c sp = true -> unit_suffix u ->
  match sp +:+ u with
  | String c _ => isdecimal_c c = false /\ code_is 46 c = false
  | EmptyString => True
  end.
Proof.
  intros Hsp Hu. destruct sp as [|c sp]; simpl in *.
  - destruct u as [|c r]; [exact I|]. destruct Hu as [Hc _].
    split; [now apply unit_not_decimal|now apply unit_not_dot].
  - apply andb_true_iff in Hsp as [Hc _].
    split; [now apply space_not_decimal|now apply space_not_dot].
Qed.

Lemma unit_match_int neg sg ds sp u :
  sign_text neg sg -> digits ds -> forallb isspace_c sp = true -> unit_suffix u ->
  unit_match (sg +:+ ds +:+ sp +:+ u) = Some (sg +:+ ds).
Proof.
  intros Hs [Hne Hd] Hsp Hu. pose proof (after_number sp u Hsp Hu) as Hafter.
  assert (Hspan : span_decimal (ds +:+ sp +:+ u) = (ds, sp +:+ u)).
  { apply span_decimal_app; [exact Hd|]. destruct (sp +:+ u); [exact I|apply Hafter]. }
  assert (Hrest : forall sg',
    (let '(d1, s2) := span_decimal (ds +:+ sp +:+ u) in
     match s2 with
     | String c s3 =>
         if code_is 46 c then
           let '(d2, s4) := span_decimal s3 in
           if is_empty d2 then None
           else if unit_tail s4 then Some (sg' +:+ d1 +:+ "." +:+ d2) else None
         else if is_empty d1 then None
         else if unit_tail s2 then Some (sg' +:+ d1) else None
     | EmptyString => if is_empty d1 then None else Some (sg' +:+ d1)
     end) = Some (sg' +:+ ds)).
  { intros sg'. rewrite Hspan.
    assert (is_empty ds = false) as Hds by (destruct ds; [congruence|reflexivity]).
    pose proof (unit_tail_suffix sp u Hsp Hu) as Htail.
    destruct (sp +:+ u) as [|c r] eqn:E; rewrite Hds; [reflexivity|].
    destruct Hafter as [_ ->]. now rewrite Htail. }
  destruct ds as [|d ds']; [congruence|].
  pose proof Hd as Hd'. simpl in Hd'. apply andb_true_iff in Hd' as [Hc _].
  destruct (decimal_not_sign _ Hc) as [H45 H43].
  unfold unit_match.
  destruct Hs as [[-> ->]|[[-> ->]|[-> ->]]].
  - change ("" +:+ String d ds' +:+ sp +:+ u) with (String d (ds' +:+ sp +:+ u)).
    cbv beta iota. rewrite H45, H43. cbv beta iota zeta.
    change (String d (ds' +:+ sp +:+ u)) with (String d ds' +:+ sp +:+ u).
    apply (Hrest "").
  - apply (Hrest "+").
  - apply (Hrest "-").
Qed.

Lemma unit_match_float neg sg d1 d2 sp u :
  sign_text neg sg -> forallb isdecimal_c d1 = true -> digits d2 ->
  forallb isspace_c sp = true -> unit_suffix u ->
  unit_match (sg +:+ d1 +:+ "." +:+ d2 +:+ sp +:+ u) = Some (sg +:+ d1 +:+ "." +:+ d2).
Proof.
  intros Hs Hd1 [Hne Hd2] Hsp Hu. pose proof (after_number sp u Hsp Hu) as Hafter.
  assert (Hspan2 : span_decimal (d2 +:+ sp +:+ u) = (d2, sp +:+ u)).
  { apply span_decimal_app; [exact Hd2|]. destruct (sp +:+ u); [exact I|apply Hafter]. }
  assert (Hspan1 : span_decimal (d1 +:+ "." +:+ d2 +:+ sp +:+ u)
                   = (d1, "." +:+ d2 +:+ sp +:+ u)).
  { apply span_decimal_app; [exact Hd1|]. reflexivity. }
  assert (Hrest : forall sg',
    (let '(d1', s2) := span_decimal (d1 +:+ "." +:+ d2 +:+ sp +:+ u) in
     match s2 with
     | String c s3 =>
         if code_is 46 c then
           let '(d2', s4) := span_decimal s3 in
           if is_empty d2' then None
           else if unit_tail s4 then Some (sg' +:+ d1' +:+ "." +:+ d2') else None
         else if is_empty d1' then None
         else if unit_tail s2 then Some (sg' +:+ d1')
         else None
     | EmptyString => if is_empty d1' then None else Some (sg' +:+ d1')
     end) = Some (sg' +:+ d1 +:+ "." +:+ d2)).
  { intros sg'. rewrite Hspan1.
    change ("." +:+ d2 +:+ sp +:+ u) with (String "." (d2 +:+ sp +:+ u)).
    cbv beta iota. change (code_is 46 ".") with true. cbv iota. rewrite Hspan2.
    assert (is_empty d2 = false) as -> by (destruct d2; [congruence|reflexivity]).
    now rewrite (unit_tail_suffix sp u Hsp Hu). }
  unfold unit_match.
  destruct Hs as [[-> ->]|[[-> ->]|[-> ->]]]; [|apply (Hrest "+")|apply (Hrest "-")].
  destruct d1 as [|d d1'].
  - apply (Hrest "").
  - pose proof Hd1 as Hd'. simpl in Hd'. apply andb_true_iff in Hd' as [Hc _].
    destruct (decimal_not_sign _ Hc) as [H45 H43].
    change ("" +:+ String d d1' +:+ "." +:+ d2 +:+ sp +:+ u)
      with (String d (d1' +:+ "." +:+ d2 +:+ sp +:+ u)).
    cbv beta iota. rewrite H45, H43. cbv beta iota zeta.
    change (String d (d1' +:+ "." +:+ d2 +:+ sp +:+ u))
      with (String d d1' +:+ "." +:+ d2 +:+ sp +:+ u).
    apply (Hrest "").
Qed.

(** A string that starts like a number is not an invalid-reading token. *)
Definition starts_number (t : string) : bool :=
  match t with
  | String c r =>
      isdecimal_c c || code_is 46 c
      || ((code_is 43 c || code_is 45 c)
          && match r with
             | String c2 _ => isdecimal_c c2 || code_is 46 c2
             | EmptyString => false
             end)
  | EmptyString => false
  end.

Lemma number_start_lower c :
  isdecimal_c c || code_is 46 c = true ->
  lower_c c <> "-"%char /\ lower_c c <> "n"%char /\ lower_c c <> "i"%char /\ c <> "-"%char.
Proof. ascii_cases c; repeat split; congruence. Qed.

Lemma sign_lower c :
  code_is 43 c || code_is 45 c = true -> lower_c c <> "n"%char /\ lower_c c <> "i"%char.
Proof. ascii_cases c; split; congruence. Qed.

Lemma starts_number_not_token t :
  starts_number t = true -> bool_decide (lower t ∈ invalid_readings) = false.
Proof.
  intros H. apply bool_decide_eq_false. unfold invalid_readings. intros Hin.
  destruct t as [|c r]; [discriminate|]. simpl in H, Hin.
  apply orb_true_iff in H as [H|H].
  - destruct (number_start_lower c H) as (H1 & H2 & _).
    repeat (apply elem_of_cons in Hin as [Hin|Hin]; [congruence|]).
    now apply elem_of_nil in Hin.
  - apply andb_true_iff in H as [Hs Hr]. destruct (sign_lower c Hs) as [Hn _].
    destruct r as [|c2 r2]; [discriminate|]. simpl in Hin.
    destruct (number_start_lower c2 Hr) as (H1 & _).
    repeat (apply elem_of_cons in Hin as [Hin|Hin]; [congruence|]).
    now apply elem_of_nil in Hin.
Qed.

Lemma prefix_cons a p b s :
  String.prefix (String a p) (String b s) = Ascii.eqb a b && String.prefix p s.
Proof.
  change (String.prefix (String a p) (String b s))
    with (if ascii_dec a b then String.prefix p s else false).
  destruct (ascii_dec a b) as [->|Hne].
  - now rewrite Ascii.eqb_refl.
  - destruct (Ascii.eqb_spec a b); [congruence|reflexivity].
Qed.

Lemma startswith_dashes t :
  startswith "--" t
  = match t with
    | String c (String c2 _) => Ascii.eqb "-" c && Ascii.eqb "-" c2
    | _ => false
    end.
Proof.
  unfold startswith. destruct t as [|c [|c2 r]]; try reflexivity.
  - rewrite prefix_cons. now rewrite andb_false_r.
  - rewrite !prefix_cons. destruct r; now rewrite andb_true_r.
Qed.

Lemma starts_number_not_dashes t : starts_number t = true -> startswith "--" t = false.
Proof.
  intros H. rewrite startswith_dashes. destruct t as [|c [|c2 r]]; try reflexivity.
  destruct (Ascii.eqb_spec "-" c) as [<-|]; [|reflexivity].
  destruct (Ascii.eqb_spec "-" c2) as [<-|]; [|reflexivity]. discriminate.
Qed.

Lemma decimal_not_blank c : isdecimal_c c = true -> blank_c c = false.
Proof. ascii_cases c. Qed.

Lemma digits_split ds : digits ds -> exists c r, ds = String c r /\ isdecimal_c c = true.
Proof.
  intros [Hne Hd]. destruct ds as [|c r]; [congruence|]. simpl in Hd.
  apply andb_true_iff in Hd as [Hc _]. eauto.
Qed.

Lemma not_invalid_with_digit t a ds b :
  t = a +:+ ds +:+ b -> digits ds -> starts_number t = true ->
  is_invalid_reading t = false.
Proof.
  intros -> Hd Hstart. unfold is_invalid_reading.
  rewrite (starts_number_not_token _ Hstart), (starts_number_not_dashes _ Hstart).
  rewrite only_blank_spec. destruct (digits_split _ Hd) as (c & r & -> & Hc).
  simpl. change (a +:+ String c r +:+ b) with (a +:+ String c (r +:+ b)).
  now rewrite forallb_false_mid by now apply decimal_not_blank.
Qed.

Lemma starts_number_int neg sg ds rest :
  sign_text neg sg -> digits ds -> starts_number (sg +:+ ds +:+ rest) = true.
Proof.
  intros Hs Hd. destruct (digits_split _ Hd) as (c & r & -> & Hc).
  destruct Hs as [[-> _]|[[-> _]|[-> _]]]; simpl; rewrite Hc; reflexivity.
Qed.

Lemma starts_number_float neg sg d1 rest :
  sign_text neg sg -> forallb isdecimal_c d1 = true ->
  starts_number (sg +:+ d1 +:+ "." +:+ rest) = true.
Proof.
  intros Hs Hd. destruct d1 as [|c r].
  - destruct Hs as [[-> _]|[[-> _]|[-> _]]]; reflexivity.
  - simpl in Hd. apply andb_true_iff in Hd as [Hc _].
    destruct Hs as [[-> _]|[[-> _]|[-> _]]]; simpl; rewrite Hc; reflexivity.
Qed.

Lemma no_dot_in_int neg sg ds :
  sign_text neg sg -> forallb isdecimal_c ds = true -> contains "." (sg +:+ ds) = false.
Proof.
  intros Hs Hd. rewrite contains_char. apply negb_false_iff.
  rewrite forallb_app. apply andb_true_iff. split.
  - destruct Hs as [[-> _]|[[-> _]|[-> _]]]; reflexivity.
  - revert Hd. apply forallb_impl. intros c Hc. ascii_cases c.
Qed.

Lemma dot_in_float sg d1 d2 : contains "." (sg +:+ d1 +:+ "." +:+ d2) = true.
Proof.
  rewrite contains_char. apply negb_true_iff.
  rewrite !forallb_app. simpl. now rewrite !andb_false_r.
Qed.

Lemma float_literal_digits neg sg d1 d2 :
  sign_text neg sg -> forallb isdecimal_c d1 = true -> digits d2 ->
  float_literal_of (sg +:+ d1 +:+ "." +:+ d2)
  = Ok (LitFinite neg (digits_value (d1 +:+ d2)) (- Z.of_nat (String.length d2))).
Proof.
  intros Hs Hd1 Hd2. unfold float_literal_of.
  rewrite strip_no_space.
  2:{ rewrite !no_space_app, (sign_text_no_space _ _ Hs), (decimal_no_space _ Hd1),
        (decimal_no_space _ (proj2 Hd2)). reflexivity. }
  rewrite (sign_of_text neg sg _ Hs).
  2:{ destruct d1 as [|c r]; [split; reflexivity|]. simpl in Hd1.
      apply andb_true_iff in Hd1 as [Hc _]. now apply decimal_not_sign. }
  assert (Hlow : forall w, (w = "inf" \/ w = "infinity" \/ w = "nan") ->
            String.eqb (lower (d1 +:+ "." +:+ d2)) w = false).
  { intros w Hw. apply String.eqb_neq. intros E.
    assert (exists c r, d1 +:+ "." +:+ d2 = String c r /\ isdecimal_c c || code_is 46 c = true)
      as (c & r & Ec & Hc).
    { destruct d1 as [|c r]; [now exists "."%char, d2|].
      simpl in Hd1. apply andb_true_iff in Hd1 as [Hc _].
      exists c, (r +:+ "." +:+ d2). split; [reflexivity|]. now rewrite Hc. }
    rewrite Ec in E. simpl in E. destruct (number_start_lower c Hc) as (_ & Hn & Hi & _).
    destruct Hw as [-> | [-> | ->]]; congruence. }
  rewrite !Hlow by auto. cbv beta iota. simpl orb. cbv iota.
  assert (Hnum : floatnumber neg (d1 +:+ "." +:+ d2)
                 = Some (LitFinite neg (digits_value (d1 +:+ d2)) (- Z.of_nat (String.length d2)))).
  { destruct d1 as [|c r].
    - change ("" +:+ "." +:+ d2) with (String "." d2). unfold floatnumber.
      change (code_is 46 ".") with true. cbv iota.
      rewrite <- (app_empty_r d2) at 1.
      rewrite (digitpart_digits d2 "" 0%N Hd2 I). reflexivity.
    - pose proof Hd1 as Hd1'. simpl in Hd1'. apply andb_true_iff in Hd1' as [Hc _].
      unfold floatnumber.
      change (String c r +:+ "." +:+ d2) with (String c (r +:+ "." +:+ d2)).
      cbv beta iota. rewrite (decimal_not_dot _ Hc).
      change (String c (r +:+ "." +:+ d2)) with (String c r +:+ String "." d2).
      rewrite (digitpart_digits (String c r) (String "." d2) 0%N).
      2:{ split; [congruence|exact Hd1]. }
      2:{ split; reflexivity. }
      cbv beta iota. change (code_is 46 ".") with true. cbv iota.
      rewrite <- (app_empty_r d2) at 1.
      rewrite (digitpart_digits d2 "" _ Hd2 I). cbv beta iota. simpl exponent.
      unfold digits_value. rewrite digits_value_from_app. reflexivity. }
  now rewrite Hnum.
Qed.

(** ** The value normalizer *)

Section Normalizer.
Context {float : Type} `{!PyFloatOps float}.
Implicit Types (value : PyVal float) (unit : option string).

Lemma py_float_raises s e : py_float s = Raise e -> e = ValueError.
Proof.
  unfold py_float, fmap, result_fmap.
  destruct (float_literal_of s) eqn:E; [discriminate|].
  intros [= <-]. now apply float_literal_raises in E.
Qed.

Lemma py_float_digits neg sg d1 d2 :
  sign_text neg sg -> forallb isdecimal_c d1 = true -> digits d2 ->
  py_float (sg +:+ d1 +:+ "." +:+ d2)
  = Ok (float_of_literal
          (LitFinite neg (digits_value (d1 +:+ d2)) (- Z.of_nat (String.length d2)))).
Proof.
  intros Hs Hd1 Hd2. unfold py_float.
  now rewrite (float_literal_digits neg sg d1 d2 Hs Hd1 Hd2).
Qed.

(** What the normalizer makes of a string once every form has been tried:
    the integer, else the float, else the text itself. *)
Definition pure_numeric (t : string) : PyVal float :=
  match py_int t with
  | Ok z => PyInt z
  | Raise _ =>
      match py_float t with
      | Ok f => PyFloat f
      | Raise _ => PyStr t
      end
  end.

Definition with_unit (t : string) : PyVal float :=
  match unit_match t with
  | Some numeric_part =>
      match (if negb (contains "." numeric_part)
             then PyInt <$> py_int numeric_part
             else PyFloat <$> py_float numeric_part) with
      | Ok v => v
      | Raise _ => pure_numeric t
      end
  | None => pure_numeric t
  end.

Lemma convert_string s unit :
  _convert_sensor_value (PyStr s) unit
  = Ok (if is_empty s || is_invalid_reading (strip s) then PyNone else with_unit (strip s)).
Proof.
  unfold _convert_sensor_value. destruct s as [|c s]; [reflexivity|].
  change (negb (truthy (PyStr (String c s))) || eq_str (PyStr (String c s)) "") with false.
  cbv iota. change (is_empty (String c s)) with false. rewrite orb_false_l.
  change (py_str (PyStr (String c s))) with (String c s).
  generalize (strip (String c s)) as t. intros t.
  destruct (is_invalid_reading t); [reflexivity|].
  assert (Hpure :
    except_ValueError (PyInt <$> py_int t)
      (except_ValueError (PyFloat <$> py_float t) (Ok (PyStr t)))
    = Ok (pure_numeric t)).
  { unfold pure_numeric, fmap, result_fmap.
    destruct (py_int t) as [z|e] eqn:Ei; [reflexivity|].
    rewrite (py_int_raises _ _ Ei). simpl.
    destruct (py_float t) as [f|e'] eqn:Ef; [reflexivity|].
    rewrite (py_float_raises _ _ Ef). reflexivity. }
  unfold with_unit. rewrite Hpure.
  destruct (unit_match t) as [num|]; [|reflexivity].
  destruct (negb (contains "." num)); unfold fmap, result_fmap.
  - destruct (py_int num) as [z|e] eqn:Ei; [reflexivity|].
    now rewrite (py_int_raises _ _ Ei).
  - destruct (py_float num) as [f|e] eqn:Ef; [reflexivity|].
    now rewrite (py_float_raises _ _ Ef).
Qed.

Lemma pure_numeric_cases t :
  (exists z, pure_numeric t = PyInt z) \/ (exists f, pure_numeric t = PyFloat f)
  \/ pure_numeric t = PyStr t.
Proof.
  unfold pure_numeric. destruct (py_int t); [eauto|]. destruct (py_float t); eauto.
Qed.

Lemma with_unit_cases t :
  (exists z, with_unit t = PyInt z) \/ (exists f, with_unit t = PyFloat f)
  \/ with_unit t = PyStr t.
Proof.
  unfold with_unit. destruct (unit_match t) as [num|]; [|apply pure_numeric_cases].
  destruct (negb (contains "." num)); unfold fmap, result_fmap.
  - destruct (py_int num); [eauto|apply pure_numeric_cases].
  - destruct (py_float num); [eauto|apply pure_numeric_cases].
Qed.

Lemma convert_returns value unit : exists v, _convert_sensor_value value unit = Ok v.
Proof.
  unfold _convert_sensor_value.
  destruct (negb (truthy value) || eq_str value ""); [eauto|].
  unfold except_Exception.
  match goal with |- context [match ?b with Ok _ => _ | Raise _ => _ end] => destruct b end;
    eauto.
Qed.

Lemma convert_number value unit :
  (forall s, value <> PyStr s) -> truthy value = true ->
  _convert_sensor_value value unit = Ok value.
Proof.
  intros Hns Ht. unfold _convert_sensor_value. rewrite Ht.
  destruct value; try discriminate; try reflexivity. now destruct (Hns s).
Qed.

(** The strings that read as "no reading", as the specification lists them,
    and with the prefix rule the code adds. *)
Definition spec_no_reading (t : string) : Prop :=
  t = "" \/ lower t ∈ invalid_readings \/ forallb blank_c t = true.

Lemma invalid_reading_spec t :
  is_invalid_reading t = true <->
  lower t ∈ invalid_readings \/ forallb blank_c t = true \/ startswith "--" t = true.
Proof.
  unfold is_invalid_reading. rewrite only_blank_spec, !orb_true_iff, bool_decide_eq_true.
  tauto.
Qed.

Lemma convert_string_none s unit :
  _convert_sensor_value (PyStr s) unit = Ok PyNone <->
  spec_no_reading (strip s) \/ startswith "--" (strip s) = true.
Proof.
  rewrite convert_string. unfold spec_no_reading. split.
  - destruct (is_empty s) eqn:Es.
    + apply is_empty_true in Es as ->. intros _. left. now left.
    + destruct (is_invalid_reading (strip s)) eqn:Ei.
      * apply invalid_reading_spec in Ei. tauto.
      * simpl. intros [= E].
        destruct (with_unit_cases (strip s)) as [[z Hz]|[[f Hf]|Hs]]; congruence.
  - intros Hn. assert (is_empty s || is_invalid_reading (strip s) = true) as ->; [|reflexivity].
    apply orb_true_iff. destruct (is_empty s) eqn:Es; [now left|right].
    apply invalid_reading_spec.
    destruct Hn as [[E|[E|E]]|E]; auto.
    right; left. rewrite E. reflexivity.
Qed.

Lemma convert_int_with_unit s unit neg sg ds sp u :
  strip s = sg +:+ ds +:+ sp +:+ u ->
  sign_text neg sg -> digits ds -> forallb isspace_c sp = true -> unit_suffix u ->
  _convert_sensor_value (PyStr s) unit = Ok (PyInt (signed neg (digits_value ds))).
Proof.
  intros Et Hs Hd Hsp Hu. rewrite convert_string.
  assert (is_empty s = false) as ->.
  { destruct s; [|reflexivity]. destruct (digits_split _ Hd) as (c & r & -> & _).
    destruct Hs as [[-> _]|[[-> _]|[-> _]]]; discriminate. }
  rewrite Et.
  rewrite (not_invalid_with_digit _ sg ds (sp +:+ u) eq_refl Hd
             (starts_number_int neg sg ds _ Hs Hd)).
  simpl orb. cbv iota. unfold with_unit.
  rewrite (unit_match_int neg sg ds sp u Hs Hd Hsp Hu).
  rewrite (no_dot_in_int neg sg ds Hs (proj2 Hd)). simpl negb. cbv iota.
  now rewrite (py_int_digits neg sg ds Hs Hd).
Qed.

Lemma convert_float_with_unit s unit neg sg d1 d2 sp u :
  strip s = sg +:+ d1 +:+ "." +:+ d2 +:+ sp +:+ u ->
  sign_text neg sg -> forallb isdecimal_c d1 = true -> digits d2 ->
  forallb isspace_c sp = true -> unit_suffix u ->
  _convert_sensor_value (PyStr s) unit
  = Ok (PyFloat (float_of_literal
          (LitFinite neg (digits_value (d1 +:+ d2)) (- Z.of_nat (String.length d2))))).
Proof.
  intros Et Hs Hd1 Hd2 Hsp Hu. rewrite convert_string.
  assert (is_empty s = false) as ->.
  { destruct s; [|reflexivity].
    destruct Hs as [[-> _]|[[-> _]|[-> _]]]; destruct d1; discriminate. }
  rewrite Et.
  rewrite (not_invalid_with_digit _ (sg +:+ d1 +:+ ".") d2 (sp +:+ u)).
  2:{ now rewrite !app_assoc_str. }
  2:{ exact Hd2. }
  2:{ apply (starts_number_float neg sg d1 _ Hs Hd1). }
  simpl orb. cbv iota. unfold with_unit.
  rewrite (unit_match_float neg sg d1 d2 sp u Hs Hd1 Hd2 Hsp Hu).
  rewrite dot_in_float. simpl negb. cbv iota.
  now rewrite (py_float_digits neg sg d1 d2 Hs Hd1 Hd2).
Qed.

End Normalizer.

(** ** What the specification says of the normalizer *)

(** C4, as stated, fails: on ["abc"] the integer parse and the float parse
    both raise [ValueError] inside the normalizer, and the normalizer returns
    the text, not [None]. *)
Lemma C4_counterexample :
  py_int (strip "abc") = Raise ValueError
  /\ py_float (float := float_literal) (strip "abc") = Raise ValueError
  /\ _convert_sensor_value (float := float_literal) (PyStr "abc") None = Ok (PyStr "abc")
  /\ _convert_sensor_value (float := float_literal) (PyStr "abc") None <> Ok PyNone.
Proof. repeat split; try (vm_compute; reflexivity). vm_compute. discriminate. Qed.

(** C4, amended.  For every raw input value the value normalizer returns a
    value and never raises.  It returns [None] exactly for a falsy value and
    for a string that reads as "no reading".  A parse exception inside it is
    caught and the next form is tried: when the text matches no number with a
    unit and both [int] and [float] raise, the trimmed text is returned. *)
Theorem C4_convert_never_raises {float : Type} `{!PyFloatOps float}
    (value : PyVal float) (unit : option string) :
  (exists v, _convert_sensor_value value unit = Ok v)
  /\ (_convert_sensor_value value unit = Ok PyNone <->
      truthy value = false
      \/ exists s, value = PyStr s /\ is_invalid_reading (strip s) = true)
  /\ (forall s, value = PyStr s -> s <> "" ->
      is_invalid_reading (strip s) = false -> unit_match (strip s) = None ->
      py_int (strip s) = Raise ValueError ->
      py_float (float := float) (strip s) = Raise ValueError ->
      _convert_sensor_value value unit = Ok (PyStr (strip s))).
Proof.
  split; [apply convert_returns|]. split.
  - destruct (truthy value) eqn:Ht.
    + destruct value as [| b | z | f | s];
        try (rewrite convert_number by (congruence || exact Ht);
             split; [discriminate|intros [?|(s & ? & _)]; discriminate]).
      rewrite convert_string. simpl in Ht. apply negb_true_iff in Ht. rewrite Ht.
      simpl orb. split.
      * destruct (is_invalid_reading (strip s)) eqn:Ei; [intros _; right; eauto|].
        intros [= E].
        destruct (with_unit_cases (strip s)) as [[z Hz]|[[f Hf]|Hs]]; congruence.
      * intros [?|(s' & [= <-] & ->)]; [discriminate|reflexivity].
    + split; [auto|]. intros _. unfold _convert_sensor_value. now rewrite Ht.
  - intros s -> Hne Hinv Hm Hi Hf. rewrite convert_string, Hinv.
    assert (is_empty s = false) as -> by (destruct s; [congruence|reflexivity]).
    simpl. unfold with_unit, pure_numeric. now rewrite Hm, Hi, Hf.
Qed.

Lemma C4_witness :
  _convert_sensor_value (float := float_literal) (PyStr " wet ") (Some "%") = Ok (PyStr "wet").
Proof.
  apply (proj2 (proj2 (C4_convert_never_raises (PyStr " wet ") (Some "%"))) " wet ");
    vm_compute; congruence.
Defined.

(** C8, as stated, fails: ["--5"] is not empty, is none of the tokens and is
    not made of dashes, dots and white space only, yet the normalizer reads
    it as "no reading" and does not return the text. *)
Lemma C8_counterexample :
  ~ spec_no_reading (strip "--5")
  /\ _convert_sensor_value (float := float_literal) (PyStr "--5") None = Ok PyNone.
Proof.
  split; [|vm_compute; reflexivity].
  intros [H|[H|H]]; [discriminate| |discriminate].
  apply list_elem_of_In in H. vm_compute in H. intuition discriminate.
Qed.

(** C8, amended.  For every raw string the normalizer returns [None] exactly
    when the trimmed string is empty, is one of the tokens "--", "null",
    "none", "n/a" in any case, is made of dashes, dots and white space only,
    or starts with "--".  Otherwise a number followed by optional white
    space and an optional unit suffix is read without the suffix, as an
    integer when it has no dot and as a float when it has one; when no
    numeric form exists the trimmed string is returned, and any string
    returned is the trimmed input. *)
Theorem C8_normalize_string {float : Type} `{!PyFloatOps float}
    (s : string) (unit : option string) :
  (_convert_sensor_value (float := float) (PyStr s) unit = Ok PyNone <->
   spec_no_reading (strip s) \/ startswith "--" (strip s) = true)
  /\ (forall neg sg ds sp u,
      strip s = sg +:+ ds +:+ sp +:+ u ->
      sign_text neg sg -> digits ds -> forallb isspace_c sp = true -> unit_suffix u ->
      _convert_sensor_value (float := float) (PyStr s) unit
      = Ok (PyInt (signed neg (digits_value ds))))
  /\ (forall neg sg d1 d2 sp u,
      strip s = sg +:+ d1 +:+ "." +:+ d2 +:+ sp +:+ u ->
      sign_text neg sg -> forallb isdecimal_c d1 = true -> digits d2 ->
      forallb isspace_c sp = true -> unit_suffix u ->
      _convert_sensor_value (PyStr s) unit
      = Ok (PyFloat (float_of_literal
              (LitFinite neg (digits_value (d1 +:+ d2)) (- Z.of_nat (String.length d2))))))
  /\ (~ (spec_no_reading (strip s) \/ startswith "--" (strip s) = true) ->
      unit_match (strip s) = None ->
      py_int (strip s) = Raise ValueError ->
      py_float (float := float) (strip s) = Raise ValueError ->
      _convert_sensor_value (PyStr s) unit = Ok (PyStr (strip s)))
  /\ (forall v, _convert_sensor_value (float := float) (PyStr s) unit = Ok (PyStr v) ->
      v = strip s).
Proof.
  split; [apply convert_string_none|].
  split; [intros; eapply convert_int_with_unit; eauto|].
  split; [intros; eapply convert_float_with_unit; eauto|].
  split.
  - intros Hn Hm Hi Hf. rewrite convert_string.
    destruct (is_empty s || is_invalid_reading (strip s)) eqn:E.
    + exfalso. apply Hn. apply (convert_string_none s unit). rewrite convert_string.
      now rewrite E.
    + unfold with_unit, pure_numeric. now rewrite Hm, Hi, Hf.
  - intros v. rewrite convert_string.
    destruct (is_empty s || is_invalid_reading (strip s)); [discriminate|].
    intros [= E].
    destruct (with_unit_cases (strip s)) as [[z Hz]|[[f Hf]|Hs]]; congruence.
Qed.

Lemma C8_witness :
  _convert_sensor_value (float := float_literal) (PyStr "89%") None = Ok (PyInt 89)
  /\ _convert_sensor_value (float := float_literal) (PyStr "29.40 inHg") None
     = Ok (PyFloat (LitFinite false 2940 (-2)))
  /\ _convert_sensor_value (float := float_literal) (PyStr " NW ") None = Ok (PyStr "NW").
Proof.
  assert (Hsign : sign_text false "") by (left; split; reflexivity).
  split; [|split].
  - assert (Hd : digits "89") by (split; [discriminate|reflexivity]).
    assert (Hu : unit_suffix "%") by (split; reflexivity).
    exact (proj1 (proj2 (C8_normalize_string (float := float_literal) "89%" None))
             false "" "89" "" "%" eq_refl Hsign Hd eq_refl Hu).
  - assert (Hd : digits "40") by (split; [discriminate|reflexivity]).
    assert (Hu : unit_suffix "inHg") by (split; reflexivity).
    exact (proj1 (proj2 (proj2 (C8_normalize_string (float := float_literal) "29.40 inHg" None)))
             false "" "29" "40" " " "inHg" eq_refl Hsign eq_refl Hd eq_refl Hu).
  - apply (proj1 (proj2 (proj2 (proj2 (C8_normalize_string " NW " None)))));
      try (vm_compute; reflexivity).
    intros [[H|[H|H]]|H]; try discriminate.
    apply list_elem_of_In in H. vm_compute in H. intuition discriminate.
Defined.

(** ** Unique ids *)

Lemma length_app_str (a b : string) :
  String.length (a +:+ b) = (String.length a + String.length b)%nat.
Proof. induction a as [|c a IH]; simpl; [reflexivity|now rewrite IH]. Qed.

Lemma app_inv_head_str (a b c : string) : a +:+ b = a +:+ c -> b = c.
Proof. induction a as [|x a IH]; simpl; [auto|]. intros [= E]. auto. Qed.

Lemma app_inv_tail_str (a b c : string) : a +:+ c = b +:+ c -> a = b.
Proof.
  revert b. induction a as [|x a IH]; intros [|y b] E; simpl in E.
  - reflexivity.
  - apply (f_equal String.length) in E. simpl in E. rewrite length_app_str in E. lia.
  - apply (f_equal String.length) in E. simpl in E. rewrite length_app_str in E. lia.
  - injection E as -> E. f_equal. auto.
Qed.

Lemma unique_id_known C entry_id h sensor_key :
  h <> "" -> unique_id C entry_id (Some h) sensor_key
             = DOMAIN C +:+ "_" +:+ h +:+ "_" +:+ sensor_key.
Proof. intros Hne. unfold unique_id. destruct h; [congruence|reflexivity]. Qed.

Lemma scoped_id_inj (d a b k : string) :
  d +:+ "_" +:+ a +:+ "_" +:+ k = d +:+ "_" +:+ b +:+ "_" +:+ k -> a = b.
Proof.
  intros E. apply app_inv_head_str in E. apply (app_inv_head_str "_") in E.
  now apply app_inv_tail_str in E.
Qed.

(** C6, as stated, fails: a hardware id equal to the config entry id gives
    the key of the fallback. *)
Lemma C6_counterexample :
  Some "01J8ZK" <> (None : option string)
  /\ unique_id example_const "01J8ZK" (Some "01J8ZK") "tempf"
     = unique_id example_const "01J8ZK" None "tempf".
Proof. split; [discriminate|reflexivity]. Qed.

(** C6, amended.  The unique id is a function of (wire key, hardware id,
    config entry): equal inputs give equal ids.  For one wire key, two
    unequal non-empty hardware ids give unequal ids, and a non-empty hardware
    id gives an id unequal to the fallback id of the config entry whenever it
    differs from the entry id. *)
Theorem C6_unique_id_injective (C : Const) (entry_id sensor_key : string) :
  (forall h1 h2 k1 k2, h1 = h2 -> k1 = k2 ->
     unique_id C entry_id h1 k1 = unique_id C entry_id h2 k2)
  /\ (forall h1 h2, h1 <> "" -> h2 <> "" -> h1 <> h2 ->
     unique_id C entry_id (Some h1) sensor_key <> unique_id C entry_id (Some h2) sensor_key)
  /\ (forall h, h <> "" -> h <> entry_id ->
     unique_id C entry_id (Some h) sensor_key <> unique_id C entry_id None sensor_key).
Proof.
  split; [intros; congruence|]. split.
  - intros h1 h2 H1 H2 Hne E. rewrite !unique_id_known in E by assumption.
    now apply scoped_id_inj in E.
  - intros h H1 Hne E. rewrite unique_id_known in E by assumption.
    now apply scoped_id_inj in E.
Qed.

Lemma C6_witness :
  unique_id example_const "01J8ZK" (Some "A1B2") "tempf"
  <> unique_id example_const "01J8ZK" (Some "C3D4") "tempf"
  /\ unique_id example_const "01J8ZK" (Some "A1B2") "tempf"
     <> unique_id example_const "01J8ZK" None "tempf".
Proof.
  split.
  - apply (proj1 (proj2 (C6_unique_id_injective example_const "01J8ZK" "tempf")));
      discriminate.
  - apply (proj2 (proj2 (C6_unique_id_injective example_const "01J8ZK" "tempf")));
      discriminate.
Defined.

(** ** Mapping refresh *)

Lemma spec_update_mapping_nil wire_keys classify m :
  spec_update_mapping wire_keys classify m [] = (empty_mapper, Ok tt).
Proof. reflexivity. Qed.

(** C9.  If the mapping fetch raises, [_update_sensor_mapping] returns
    normally and the mapper is what it was.  If the fetch returns the empty
    list, [update_mapping] is called with it and the mapper is what that call
    leaves; for the [update_mapping] of the specification, which rebuilds
    both tables from the snapshot, that is the empty mapper. *)
Theorem C9_mapping_refresh (ops : MapperOps) (api : Api) (c : Coordinator) :
  (forall e, get_all_sensor_mappings api (length (api_calls c)) = Raise e ->
     sensor_mapper (_update_sensor_mapping ops api c) = sensor_mapper c)
  /\ (get_all_sensor_mappings api (length (api_calls c)) = Ok [] ->
     sensor_mapper (_update_sensor_mapping ops api c)
     = fst (update_mapping ops (sensor_mapper c) []))
  /\ (forall wire_keys classify,
     update_mapping ops = spec_update_mapping wire_keys classify ->
     get_all_sensor_mappings api (length (api_calls c)) = Ok [] ->
     sensor_mapper (_update_sensor_mapping ops api c) = empty_mapper).
Proof.
  assert (Hnil : get_all_sensor_mappings api (length (api_calls c)) = Ok [] ->
     sensor_mapper (_update_sensor_mapping ops api c)
     = fst (update_mapping ops (sensor_mapper c) [])).
  { intros E. unfold _update_sensor_mapping. rewrite E. simpl.
    destruct (update_mapping ops (sensor_mapper c) []) as [m [u|e]]; simpl;
      [|reflexivity].
    destruct (get_mapping_stats ops m); reflexivity. }
  split; [|split].
  - intros e E. unfold _update_sensor_mapping. now rewrite E.
  - exact Hnil.
  - intros wk cl Hspec E. rewrite (Hnil E), Hspec. reflexivity.
Qed.

Lemma C9_witness :
  sensor_mapper
    (_update_sensor_mapping example_mapper (offline_api (common_only [])) paired_coordinator)
  = paired_mapper
  /\ sensor_mapper
       (_update_sensor_mapping example_mapper (example_api (common_only [])) paired_coordinator)
     = empty_mapper
  /\ paired_mapper <> empty_mapper.
Proof.
  split; [|split; [|discriminate]].
  - apply (proj1 (C9_mapping_refresh example_mapper (offline_api (common_only []))
                    paired_coordinator) APIConnectionError).
    reflexivity.
  - apply (proj2 (proj2 (C9_mapping_refresh example_mapper (example_api (common_only []))
                           paired_coordinator)) (fun _ => []) (fun code => code));
      reflexivity.
Defined.

(** ** The gateway info cache *)

(** The number of [get_version] calls among the calls issued. *)
Fixpoint version_fetches (calls : list ApiCall) : nat :=
  match calls with
  | [] => 0
  | GetVersion :: rest => S (version_fetches rest)
  | _ :: rest => version_fetches rest
  end.

Lemma version_fetches_app a b :
  version_fetches (a ++ b) = (version_fetches a + version_fetches b)%nat.
Proof. induction a as [|[] a IH]; simpl; auto. Qed.

Section Session.
Context {float : Type} `{!PyFloatOps float}.
Variable C : Const.
Variable ops : MapperOps.
Variable api : Api.
Variable isoformat : Z -> string.

(** What a coordinator does in a session: look the gateway info up, run an
    update cycle, refresh the mapping. *)
Inductive session_step : Coordinator -> Coordinator -> Prop :=
| step_lookup c :
    session_step c (fst (_process_gateway_info api c))
| step_update c now :
    session_step c (fst (_async_update_data (float := float) C ops api isoformat c now))
| step_refresh c :
    session_step c (_update_sensor_mapping ops api c).

(** The cache is set and no version fetch was issued since [c0]. *)
Definition cached (info : gmap string string) (c0 c : Coordinator) : Prop :=
  _gateway_info c = info
  /\ version_fetches (api_calls c) = version_fetches (api_calls c0).

Lemma lookup_cached c :
  _gateway_info c <> ∅ -> _process_gateway_info api c = (c, _gateway_info c).
Proof.
  intros Hne. unfold _process_gateway_info.
  now rewrite bool_decide_eq_false_2.
Qed.

Lemma first_lookup c :
  snd (_process_gateway_info api c) <> ∅
  /\ _gateway_info (fst (_process_gateway_info api c)) = snd (_process_gateway_info api c).
Proof.
  unfold _process_gateway_info. case_bool_decide as Hc; simpl; [|auto].
  split; [|reflexivity].
  destruct (get_version api (length (api_calls c))); apply insert_non_empty.
Qed.

Lemma refresh_keeps c :
  _gateway_info (_update_sensor_mapping ops api c) = _gateway_info c
  /\ version_fetches (api_calls (_update_sensor_mapping ops api c))
     = version_fetches (api_calls c).
Proof.
  assert (Hlog : version_fetches (api_calls c ++ [GetAllSensorMappings])
                 = version_fetches (api_calls c)).
  { rewrite version_fetches_app. simpl. lia. }
  unfold _update_sensor_mapping.
  destruct (get_all_sensor_mappings api (length (api_calls c))) as [l|e]; simpl; [|auto].
  destruct (update_mapping ops (sensor_mapper c) l) as [m [u|e]]; simpl; [|auto].
  destruct (get_mapping_stats ops m); simpl; auto.
Qed.

Lemma refresh_if_needed_keeps c now :
  _gateway_info (_update_sensor_mapping_if_needed ops api c now) = _gateway_info c
  /\ version_fetches (api_calls (_update_sensor_mapping_if_needed ops api c now))
     = version_fetches (api_calls c).
Proof.
  unfold _update_sensor_mapping_if_needed.
  match goal with |- context [if ?b then _ else _] => destruct b end; [|auto].
  simpl. apply refresh_keeps.
Qed.

Lemma process_keeps c raw now :
  _gateway_info c <> ∅ ->
  let r := _process_live_data (float := float) C ops api isoformat c raw now in
  _gateway_info (fst r) = _gateway_info c
  /\ api_calls (fst r) = api_calls c
  /\ (forall d, snd r = Ok d -> gateway_info d = _gateway_info c).
Proof.
  intros Hne. unfold _process_live_data.
  destruct (collect_sensor_items raw) as [[items md]|e]; simpl;
    [|repeat split; intros; discriminate].
  set (c1 := match md with
             | Some md0 => set_sensor_mapper (_handle_ws90_device (sensor_mapper c) md0) c
             | None => c
             end).
  assert (Hg : _gateway_info c1 = _gateway_info c) by (subst c1; now destruct md).
  assert (Hl : api_calls c1 = api_calls c) by (subst c1; now destruct md).
  match goal with |- context [match ?b with Ok _ => _ | Raise _ => _ end] => destruct b end;
    simpl; [|repeat split; auto; intros; discriminate].
  rewrite lookup_cached by congruence. simpl.
  repeat split; auto. intros d [= <-]. simpl. exact Hg.
Qed.

Lemma update_keeps c now :
  _gateway_info c <> ∅ ->
  let r := _async_update_data (float := float) C ops api isoformat c now in
  _gateway_info (fst r) = _gateway_info c
  /\ version_fetches (api_calls (fst r)) = version_fetches (api_calls c)
  /\ (forall d, snd r = Returned d -> gateway_info d = _gateway_info c).
Proof.
  intros Hne. unfold _async_update_data.
  destruct (refresh_if_needed_keeps c now) as [Hg Hv].
  set (c1 := _update_sensor_mapping_if_needed ops api c now) in *.
  assert (Hv' : version_fetches (api_calls (record_call GetLiveData c1))
                = version_fetches (api_calls c)).
  { simpl. rewrite version_fetches_app, Hv. simpl. lia. }
  destruct (get_live_data api (length (api_calls c1))) as [raw|e].
  - assert (Hne' : _gateway_info (record_call GetLiveData c1) <> ∅) by (simpl; congruence).
    pose proof (process_keeps (record_call GetLiveData c1) raw now Hne') as (H1 & H2 & H3).
    destruct (_process_live_data C ops api isoformat (record_call GetLiveData c1) raw now)
      as [c2 [d|e]]; simpl in *.
    + rewrite H1, H2. repeat split; auto. intros d' [= <-]. rewrite (H3 d eq_refl). exact Hg.
    + destruct e; simpl; rewrite H1, H2; repeat split; auto; intros; discriminate.
  - destruct e; simpl; repeat split; auto; intros; discriminate.
Qed.

Lemma step_keeps info c0 c c' :
  info <> ∅ -> cached info c0 c -> session_step c c' -> cached info c0 c'.
Proof.
  intros Hne [Hg Hv] Hstep. destruct Hstep as [c|c now|c].
  - rewrite lookup_cached by congruence. split; assumption.
  - destruct (update_keeps c now) as (H1 & H2 & _); [congruence|].
    split; congruence.
  - destruct (refresh_keeps c) as [H1 H2]. split; congruence.
Qed.

End Session.

(** C10.  After the first lookup of the gateway info, whether the version
    fetch succeeded or produced the "Unknown" placeholder, the dictionary it
    returned is cached: through any further lookups, update cycles and
    mapping refreshes, no version fetch is issued, every lookup returns that
    same dictionary, and so does every update cycle that returns. *)
Theorem C10_gateway_info_cached {float : Type} `{!PyFloatOps float}
    (C : Const) (ops : MapperOps) (api : Api) (isoformat : Z -> string)
    (c c' : Coordinator) :
  let c1 := fst (_process_gateway_info api c) in
  let info := snd (_process_gateway_info api c) in
  rtc (session_step (float := float) C ops api isoformat) c1 c' ->
  version_fetches (api_calls c') = version_fetches (api_calls c1)
  /\ _process_gateway_info api c' = (c', info)
  /\ (forall now d,
        snd (_async_update_data (float := float) C ops api isoformat c' now) = Returned d ->
        gateway_info d = info).
Proof.
  intros c1 info Hrtc.
  destruct (first_lookup api c) as [Hne Hset]. fold c1 info in Hne, Hset.
  assert (Hc : cached info c1 c').
  { induction Hrtc as [x|x y z Hstep _ IH].
    - split; [exact Hset|reflexivity].
    - assert (cached info x y) as [Hy1 Hy2]
        by (eapply step_keeps; eauto; split; [exact Hset|reflexivity]).
      destruct (IH Hy1) as [Hz1 Hz2]. split; congruence. }
  destruct Hc as [Hg Hv]. split; [exact Hv|]. split.
  - rewrite lookup_cached by congruence. now rewrite Hg.
  - intros now d Hd.
    destruct (update_keeps C ops api isoformat c' now) as (_ & _ & H3); [congruence|].
    rewrite (H3 d Hd). exact Hg.
Qed.

Lemma C10_witness :
  let api := offline_api (common_only [reading "tempf" "70.5"]) in
  let c1 := fst (_process_gateway_info api example_coordinator) in
  let info := snd (_process_gateway_info api example_coordinator) in
  let c' :=
    fst (_async_update_data (float := float_literal) example_const example_mapper api
           example_isoformat c1 1000) in
  info = unknown_gateway example_coordinator
  /\ version_fetches (api_calls c') = 1%nat
  /\ _process_gateway_info api c' = (c', info).
Proof.
  intros api c1 info c'.
  assert (Hrtc : rtc (session_step (float := float_literal) example_const example_mapper api
                        example_isoformat) c1 c').
  { apply rtc_once. apply step_update. }
  destruct (C10_gateway_info_cached example_const example_mapper api example_isoformat
              example_coordinator c' Hrtc) as (Hv & Hl & _).
  split; [reflexivity|]. split; [exact Hv|exact Hl].
Defined.

(** ** Ordered dictionaries *)

Lemma get_set_eq {V} k (v : V) d : ODict.get k (ODict.set k v d) = Some v.
Proof.
  induction d as [|[k' v'] d IH]; simpl.
  - now rewrite String.eqb_refl.
  - destruct (String.eqb k' k) eqn:E; simpl; rewrite E; auto.
Qed.

Lemma get_set_ne {V} k k' (v : V) d :
  k <> k' -> ODict.get k' (ODict.set k v d) = ODict.get k' d.
Proof.
  intros Hne. induction d as [|[k0 v0] d IH]; simpl.
  - destruct (String.eqb_spec k k'); [congruence|reflexivity].
  - destruct (String.eqb_spec k0 k) as [->|]; simpl.
    + destruct (String.eqb_spec k k'); [congruence|reflexivity].
    + destruct (String.eqb k0 k'); auto.
Qed.

Lemma get_None_keys {V} k (d : odict V) : ODict.get k d = None <-> k ∉ ODict.keys d.
Proof.
  induction d as [|[k0 v0] d IH]; simpl.
  - split; [intros _; apply not_elem_of_nil|reflexivity].
  - rewrite not_elem_of_cons. destruct (String.eqb_spec k0 k) as [->|Hne].
    + split; [discriminate|intros [? _]; congruence].
    + rewrite IH. split; [intros ?; split; congruence|tauto].
Qed.

Lemma get_Some_keys {V} k (v : V) d : ODict.get k d = Some v -> k ∈ ODict.keys d.
Proof.
  intros E. destruct (decide (k ∈ ODict.keys d)) as [|Hn]; [assumption|].
  apply get_None_keys in Hn. congruence.
Qed.

Lemma keys_set {V} k (v : V) d :
  ODict.keys (ODict.set k v d)
  = if bool_decide (k ∈ ODict.keys d) then ODict.keys d else ODict.keys d ++ [k].
Proof.
  induction d as [|[k0 v0] d IH]; simpl; [reflexivity|].
  destruct (String.eqb_spec k0 k) as [->|Hne]; simpl.
  - rewrite bool_decide_eq_true_2 by (apply elem_of_cons; now left). reflexivity.
  - rewrite IH. case_bool_decide as Hin.
    + rewrite bool_decide_eq_true_2 by (apply elem_of_cons; now right). reflexivity.
    + rewrite bool_decide_eq_false_2; [reflexivity|].
      rewrite elem_of_cons. intros [?|?]; congruence.
Qed.

Lemma keys_set_elem {V} k (v : V) d k' :
  k' ∈ ODict.keys (ODict.set k v d) <-> k' = k \/ k' ∈ ODict.keys d.
Proof.
  rewrite keys_set. case_bool_decide as Hin.
  - split; [auto|]. intros [->|]; assumption.
  - rewrite elem_of_app, list_elem_of_singleton. tauto.
Qed.

Lemma keys_set_NoDup {V} k (v : V) d :
  NoDup (ODict.keys d) -> NoDup (ODict.keys (ODict.set k v d)).
Proof.
  intros Hnd. rewrite keys_set. case_bool_decide as Hin; [assumption|].
  apply NoDup_app. split; [assumption|]. split.
  - intros x Hx Hx'. apply list_elem_of_singleton in Hx'. congruence.
  - apply NoDup_singleton.
Qed.

(** ** The loop over the readings *)

Section Loop.
Context {float : Type} `{!PyFloatOps float}.
Variable C : Const.
Variable ops : MapperOps.
Variable isoformat : Z -> string.

(** Membership in the static battery and system tables. *)
Definition is_battery (key : string) : bool :=
  nonempty_dict (table_get (BATTERY_SENSORS C) key).
Definition is_system (key : string) : bool :=
  nonempty_dict (table_get (SYSTEM_SENSORS C) key).

(** The category the loop gives a wire key. *)
Definition category_of (key : string) : string :=
  if is_battery key then "diagnostic"
  else if is_system key then "system"
  else "sensor".

Definition unit_of (key : string) : string :=
  if is_battery key then "%"
  else if is_system key then get_or_empty (table_get (SYSTEM_SENSORS C) key) "unit"
  else get_or_empty (table_get (SENSOR_TYPES C) key) "unit".

(** Identity resolution of a wire key. *)
Definition resolve (m : SensorMapper) (key : string) (ws90_present : bool)
  : result (option string) :=
  if _is_gateway_sensor C key ws90_present then Ok None else get_hardware_id ops m key.

(** The attributes of the unit of a reading. *)
Definition details (m : SensorMapper) (h : option string) : result (gmap string string) :=
  if present h then
    hardware_info ← get_sensor_info ops m (default "" h);
    match hardware_info with
    | Some info =>
        Ok ({[ "hardware_id" := default "" h;
               "channel" := info_channel info;
               "device_model" := info_device_model info;
               "battery" := info_battery info;
               "signal" := info_signal info ]} : gmap string string)
    | None => Ok ∅
    end
  else Ok ∅.

(** The state of a reading: the battery rule for a battery key with a value
    made of digits, the value normalizer otherwise. *)
Definition converted (key value : string) : result (PyVal float) :=
  if is_battery key && nonempty value && isdigit value then
    int_value ← py_int value;
    if (int_value <=? 5)%Z then Ok (PyStr (of_Z (int_value * 20)))
    else Ok (PyStr value)
  else _convert_sensor_value (PyStr value) (Some (unit_of key)).

(** A pair the loop does not skip. *)
Definition processed (include_inactive : bool) (item : Item) : Prop :=
  get_or_empty item "id" <> ""
  /\ (get_or_empty item "val" <> "" \/ include_inactive = true).

Lemma classic_processed inc item : processed inc item \/ ~ processed inc item.
Proof.
  unfold processed.
  destruct (decide (get_or_empty item "id" = "")) as [E|E]; [right; tauto|].
  destruct (decide (get_or_empty item "val" = "")) as [E'|E']; [|left; tauto].
  destruct inc; [left; tauto|right]. intros [_ [?|?]]; congruence.
Qed.

Lemma process_item_skipped m inc ws now sd item :
  ~ processed inc item -> process_item C ops isoformat m inc ws now sd item = Ok sd.
Proof.
  intros Hn. unfold process_item.
  destruct (get_or_empty item "id") as [|c k] eqn:Ek; [reflexivity|].
  change (is_empty (String c k)) with false. cbv iota.
  destruct (get_or_empty item "val") as [|c' v] eqn:Ev.
  - destruct inc; [|reflexivity]. exfalso. apply Hn. split; [now rewrite Ek|auto].
  - exfalso. apply Hn. split; [now rewrite Ek|left; now rewrite Ev].
Qed.

(** The loop body on a pair it does not skip, step by step. *)
Lemma process_item_steps m inc ws now sd item :
  processed inc item ->
  let key := get_or_empty item "id" in
  let value := get_or_empty item "val" in
  process_item C ops isoformat m inc ws now sd item
  = (h ← resolve m key ws;
     names ← generate_entity_id ops m key h;
     sensor_details ← details m h;
     converted_value ← converted key value;
     Ok (ODict.set names.1
           {| entity_id := names.1;
              name := names.2;
              state := converted_value;
              unit_of_measurement := Some (unit_of key);
              device_class :=
                Some (if is_battery key then "battery"
                      else if is_system key
                      then get_or_empty (table_get (SYSTEM_SENSORS C) key) "device_class"
                      else get_or_empty (table_get (SENSOR_TYPES C) key) "device_class");
              category := category_of key;
              sensor_key := key;
              hardware_id := h;
              raw_value := value;
              attributes :=
                sensor_details ∪ {[ "sensor_key" := key; "last_update" := isoformat now ]} |}
           sd)).
Proof.
  intros [Hk Hv]. cbv zeta. unfold process_item.
  revert Hk Hv. generalize (get_or_empty item "id") (get_or_empty item "val").
  intros key value Hk Hv.
  assert (is_empty key = false) as -> by (destruct key; [congruence|reflexivity]).
  assert (is_empty value && negb inc = false) as ->.
  { destruct Hv as [Hv| ->]; [|apply andb_false_r].
    destruct value; [congruence|reflexivity]. }
  unfold resolve, details, converted, category_of, unit_of, is_battery, is_system.
  destruct (if _is_gateway_sensor C key ws then Ok None else get_hardware_id ops m key)
    as [h|e]; [|reflexivity]. simpl.
  destruct (generate_entity_id ops m key h) as [[eid fname]|e]; [|reflexivity]. simpl.
  destruct (nonempty_dict (table_get (BATTERY_SENSORS C) key));
    [|destruct (nonempty_dict (table_get (SYSTEM_SENSORS C) key))]; reflexivity.
Qed.

Lemma process_items_app m inc ws now sd pre post :
  process_items C ops isoformat m inc ws now sd (pre ++ post)
  = (sd1 ← process_items C ops isoformat m inc ws now sd pre;
     process_items C ops isoformat m inc ws now sd1 post).
Proof.
  revert sd. induction pre as [|item pre IH]; intros sd; simpl; [reflexivity|].
  destruct (process_item C ops isoformat m inc ws now sd item); simpl; auto.
Qed.

(** An exception raised for one pair ends the loop. *)
Lemma process_items_raise m inc ws now sd pre item post sd1 e :
  process_items C ops isoformat m inc ws now sd pre = Ok sd1 ->
  process_item C ops isoformat m inc ws now sd1 item = Raise e ->
  process_items C ops isoformat m inc ws now sd (pre ++ item :: post) = Raise e.
Proof.
  intros Hpre Hitem. rewrite process_items_app, Hpre. simpl. now rewrite Hitem.
Qed.

End Loop.

Section LoopExceptions.
Context {float : Type} `{!PyFloatOps float}.
Variable C : Const.
Variable ops : MapperOps.
Variable isoformat : Z -> string.

Lemma converted_raises key value e :
  converted (float := float) C key value = Raise e ->
  is_battery C key && nonempty value && isdigit value = true /\ py_int value = Raise e.
Proof.
  unfold converted.
  destruct (is_battery C key && nonempty value && isdigit value).
  - destruct (py_int value) as [n|e'] eqn:E; simpl.
    + destruct (n <=? 5)%Z; discriminate.
    + intros [= <-]. auto.
  - destruct (convert_returns (PyStr value) (Some (unit_of C key))) as [v ->]. discriminate.
Qed.

(** What can end the loop body with an exception: identity resolution, the
    lookup of the unit's attributes, or [int] on a battery value that
    [isdigit] accepts.  The value normalizer is not among them. *)
Lemma process_item_raises m inc ws now sd item e :
  process_item (float := float) C ops isoformat m inc ws now sd item = Raise e ->
  let key := get_or_empty item "id" in
  let value := get_or_empty item "val" in
  processed inc item
  /\ (resolve C ops m key ws = Raise e
      \/ (exists h, resolve C ops m key ws = Ok h
          /\ (generate_entity_id ops m key h = Raise e
              \/ details ops m h = Raise e))
      \/ (is_battery C key && nonempty value && isdigit value = true
          /\ py_int value = Raise e)).
Proof.
  intros E. cbv zeta.
  destruct (classic_processed inc item) as [Hp|Hn].
  2:{ rewrite process_item_skipped in E by assumption. discriminate. }
  split; [assumption|]. rewrite (process_item_steps C ops isoformat) in E by assumption.
  cbv zeta in E.
  destruct (resolve C ops m (get_or_empty item "id") ws) as [h|e1]; simpl in E;
    [|left; congruence].
  destruct (generate_entity_id ops m (get_or_empty item "id") h) as [names|e2] eqn:Eg;
    simpl in E; [|right; left; exists h; split; [reflexivity|left; congruence]].
  destruct (details ops m h) as [d|e3] eqn:Ed; simpl in E;
    [|right; left; exists h; split; [reflexivity|right; congruence]].
  destruct (converted C (get_or_empty item "id") (get_or_empty item "val")) as [v|e4] eqn:Ec;
    simpl in E; [discriminate|].
  right; right. injection E as <-. now apply converted_raises in Ec.
Qed.

End LoopExceptions.

(** ** The update cycle *)

(** How [_async_update_data] reports an exception of the cycle. *)
Definition failure_of {A} (e : exn) : outcome A :=
  match e with
  | AuthenticationError => ConfigEntryAuthFailed AuthenticationError
  | _ => UpdateFailed e
  end.

Lemma refresh_keeps_include_inactive ops api c :
  _include_inactive (_update_sensor_mapping ops api c) = _include_inactive c.
Proof.
  unfold _update_sensor_mapping.
  destruct (get_all_sensor_mappings api (length (api_calls c))) as [l|e]; simpl; [|auto].
  destruct (update_mapping ops (sensor_mapper c) l) as [m [u|e]]; simpl; [|auto].
  destruct (get_mapping_stats ops m); reflexivity.
Qed.

Lemma refresh_if_needed_keeps_include_inactive ops api c now :
  _include_inactive (_update_sensor_mapping_if_needed ops api c now) = _include_inactive c.
Proof.
  unfold _update_sensor_mapping_if_needed.
  match goal with |- context [if ?b then _ else _] => destruct b end; [|auto].
  simpl. apply refresh_keeps_include_inactive.
Qed.

(** The mapper the loop of a cycle works with: the coordinator's after the
    mapping refresh, with the WS90 unit when one was detected. *)
Definition cycle_mapper (ops : MapperOps) (api : Api) (c : Coordinator) (now : Z)
    (md : option Ws90Metadata) : SensorMapper :=
  let m := sensor_mapper (_update_sensor_mapping_if_needed ops api c now) in
  match md with
  | Some md0 => _handle_ws90_device m md0
  | None => m
  end.

Section Cycle.
Context {float : Type} `{!PyFloatOps float}.
Variable C : Const.
Variable ops : MapperOps.
Variable api : Api.
Variable isoformat : Z -> string.

Lemma cycle_loop_raises c now raw items md e :
  get_live_data api (length (api_calls (_update_sensor_mapping_if_needed ops api c now)))
  = Ok raw ->
  collect_sensor_items raw = Ok (items, md) ->
  process_items (float := float) C ops isoformat (cycle_mapper ops api c now md)
    (_include_inactive c) (bool_decide (md <> None)) now [] items = Raise e ->
  snd (_async_update_data (float := float) C ops api isoformat c now) = failure_of e.
Proof.
  intros Hlive Hcollect Hloop. unfold _async_update_data. rewrite Hlive.
  unfold _process_live_data. rewrite Hcollect. unfold cycle_mapper in Hloop.
  rewrite <- (refresh_if_needed_keeps_include_inactive ops api c now) in Hloop.
  set (c1 := _update_sensor_mapping_if_needed ops api c now) in *.
  destruct md as [md0|]; simpl in *; rewrite Hloop; simpl; now destruct e.
Qed.

End Cycle.

(** C1, as stated, fails.  The reading of "tempf" is produced when it is
    alone in the batch.  It is lost, with the whole cycle, when the batch
    also holds a battery value that [isdigit] accepts and [int] rejects, and
    when identity resolution raises for another pair of the batch. *)
Lemma C1_counterexample :
  state <$> returned_reading (example_cycle example_mapper [reading "tempf" "70"])
              "sensor.ecowitt_tempf"
  = Some (PyInt 70)
  /\ isdigit superscript_two = true
  /\ example_cycle example_mapper
       [reading "soilbatt1" superscript_two; reading "tempf" "70"]
     = UpdateFailed ValueError
  /\ example_cycle (raising_mapper "rainratein")
       [reading "rainratein" "0.0"; reading "tempf" "70"]
     = UpdateFailed (OtherError "KeyError").
Proof. repeat split; vm_compute; reflexivity. Qed.

(** C1, amended.  The loop has no handler of its own.  When the body
    raises for one pair, after the pairs before it were processed, the cycle
    ends there: [_async_update_data] fails with [UpdateFailed] (with
    [ConfigEntryAuthFailed] for an authentication error) and returns no
    reading of the batch.  The body raises only from identity resolution
    ([get_hardware_id], [generate_entity_id]), from the lookup of the unit's
    attributes, or from [int] on a battery value; an exception inside the
    value normalizer is contained there. *)
Theorem C1_exception_ends_cycle {float : Type} `{!PyFloatOps float}
    (C : Const) (ops : MapperOps) (api : Api) (isoformat : Z -> string)
    (c : Coordinator) (now : Z) (raw : RawData) (pre post : list Item) (item : Item)
    (md : option Ws90Metadata) (sd1 : odict SensorData) (e : exn) :
  let m := cycle_mapper ops api c now md in
  let inc := _include_inactive c in
  let ws90_present := bool_decide (md <> None) in
  get_live_data api (length (api_calls (_update_sensor_mapping_if_needed ops api c now)))
  = Ok raw ->
  collect_sensor_items raw = Ok (pre ++ item :: post, md) ->
  process_items (float := float) C ops isoformat m inc ws90_present now [] pre = Ok sd1 ->
  process_item C ops isoformat m inc ws90_present now sd1 item = Raise e ->
  snd (_async_update_data (float := float) C ops api isoformat c now) = failure_of e
  /\ (forall d, snd (_async_update_data (float := float) C ops api isoformat c now)
                <> Returned d)
  /\ (let key := get_or_empty item "id" in
      let value := get_or_empty item "val" in
      resolve C ops m key ws90_present = Raise e
      \/ (exists h, resolve C ops m key ws90_present = Ok h
          /\ (generate_entity_id ops m key h = Raise e \/ details ops m h = Raise e))
      \/ (is_battery C key && nonempty value && isdigit value = true
          /\ py_int value = Raise e))
  /\ (forall value unit, exists v, _convert_sensor_value (float := float) value unit = Ok v).
Proof.
  intros m inc ws90_present Hlive Hcollect Hpre Hitem.
  assert (Hfail : snd (_async_update_data (float := float) C ops api isoformat c now)
                  = failure_of e).
  { eapply cycle_loop_raises; eauto. eapply process_items_raise; eauto. }
  split; [exact Hfail|]. split.
  - intros d. rewrite Hfail. destruct e; discriminate.
  - split; [|intros; apply convert_returns].
    apply (process_item_raises C ops isoformat m inc ws90_present now sd1 item e Hitem).
Qed.

Lemma C1_witness :
  example_cycle example_mapper
    [reading "tempf" "70"; reading "soilbatt1" superscript_two; reading "humidity" "41%"]
  = UpdateFailed ValueError.
Proof.
  refine (proj1 (C1_exception_ends_cycle (float := float_literal) example_const
            example_mapper
            (example_api (common_only
               [reading "tempf" "70"; reading "soilbatt1" superscript_two;
                reading "humidity" "41%"]))
            example_isoformat example_coordinator 1000 _
            [reading "tempf" "70"] [reading "humidity" "41%"]
            (reading "soilbatt1" superscript_two) None _ ValueError
            eq_refl _ _ _)).
  - vm_compute. reflexivity.
  - vm_compute. reflexivity.
  - vm_compute. reflexivity.
Defined.

(** ** Categories and the battery rule *)

Section Readings.
Context {float : Type} `{!PyFloatOps float}.
Variable C : Const.
Variable ops : MapperOps.
Variable isoformat : Z -> string.

(** The reading the loop stores for a pair it does not skip, when nothing
    is raised for it. *)
Lemma process_item_stores m inc ws now sd item h names d v :
  processed inc item ->
  let key := get_or_empty item "id" in
  let value := get_or_empty item "val" in
  resolve C ops m key ws = Ok h ->
  generate_entity_id ops m key h = Ok names ->
  details ops m h = Ok d ->
  converted (float := float) C key value = Ok v ->
  exists r,
    process_item C ops isoformat m inc ws now sd item = Ok (ODict.set names.1 r sd)
    /\ entity_id r = names.1 /\ sensor_key r = key /\ raw_value r = value
    /\ hardware_id r = h /\ category r = category_of C key /\ state r = v.
Proof.
  intros Hp key value Hr Hg Hd Hv.
  rewrite (process_item_steps C ops isoformat) by assumption. cbv zeta.
  fold key value. rewrite Hr. simpl. rewrite Hg. simpl. rewrite Hd. simpl. rewrite Hv. simpl.
  eexists. split; [reflexivity|]. simpl. repeat split; reflexivity.
Qed.

Lemma process_item_returned m inc ws now sd item sd' :
  processed inc item ->
  process_item (float := float) C ops isoformat m inc ws now sd item = Ok sd' ->
  let key := get_or_empty item "id" in
  let value := get_or_empty item "val" in
  exists r,
    sd' = ODict.set (entity_id r) r sd
    /\ sensor_key r = key /\ raw_value r = value
    /\ resolve C ops m key ws = Ok (hardware_id r)
    /\ category r = category_of C key
    /\ converted C key value = Ok (state r).
Proof.
  intros Hp E. cbv zeta.
  rewrite (process_item_steps C ops isoformat) in E by assumption. cbv zeta in E.
  destruct (resolve C ops m (get_or_empty item "id") ws) as [h|] eqn:Er; simpl in E;
    [|discriminate].
  destruct (generate_entity_id ops m (get_or_empty item "id") h) as [names|]; simpl in E;
    [|discriminate].
  destruct (details ops m h) as [d|]; simpl in E; [|discriminate].
  destruct (converted C (get_or_empty item "id") (get_or_empty item "val")) as [v|] eqn:Ec;
    simpl in E; [|discriminate].
  injection E as <-.
  match goal with |- context [ODict.set _ ?x sd] => exists x end.
  simpl. repeat split; reflexivity.
Qed.

Lemma digits_isdigit value : digits value -> nonempty value && isdigit value = true.
Proof.
  intros [Hne Hd]. unfold isdigit, nonempty.
  assert (is_empty value = false) as -> by (destruct value; [congruence|reflexivity]).
  simpl. revert Hd. apply forallb_impl. apply decimal_is_digit.
Qed.

Lemma converted_battery_digits key value :
  is_battery C key = true -> digits value ->
  converted (float := float) C key value
  = Ok (PyStr (if (Z.of_N (digits_value value) <=? 5)%Z
               then of_Z (Z.of_N (digits_value value) * 20) else value)).
Proof.
  intros Hb Hd. unfold converted. rewrite Hb. simpl andb at 1.
  rewrite (digits_isdigit _ Hd).
  pose proof (py_int_digits false "" value (or_introl (conj eq_refl eq_refl)) Hd) as Hi.
  change ("" +:+ value) with value in Hi. rewrite Hi. simpl.
  now destruct (Z.of_N (digits_value value) <=? 5)%Z.
Qed.

End Readings.

(** C3, as stated, fails: a key of the battery table gets the category
    "diagnostic", not "battery". *)
Lemma C3_counterexample :
  is_battery example_const "soilbatt1" = true
  /\ exists r,
       process_item (float := float_literal) example_const example_mapper example_isoformat
         empty_mapper false false 1000 [] (reading "soilbatt1" "3")
       = Ok [("sensor.ecowitt_soilbatt1", r)]
       /\ category r = "diagnostic" /\ category r <> "battery".
Proof.
  split; [vm_compute; reflexivity|].
  eexists. split; [vm_compute; reflexivity|]. split; [reflexivity|discriminate].
Qed.

(** C3, amended.  For every pair the loop processes (a non-empty key, and a
    non-empty value unless inactive sensors are included) the stored reading
    has category "diagnostic" when the key has an entry in the battery table,
    else "system" when it has one in the system table, else "sensor"; these
    three and no other are the categories the loop assigns.  The reading is
    stored whenever identity resolution, the attribute lookup and the
    conversion raise nothing. *)
Theorem C3_category {float : Type} `{!PyFloatOps float}
    (C : Const) (ops : MapperOps) (isoformat : Z -> string)
    (m : SensorMapper) (inc ws : bool) (now : Z) (sd : odict SensorData) (item : Item) :
  processed inc item ->
  let key := get_or_empty item "id" in
  let value := get_or_empty item "val" in
  (forall h names d v,
     resolve C ops m key ws = Ok h -> generate_entity_id ops m key h = Ok names ->
     details ops m h = Ok d -> converted (float := float) C key value = Ok v ->
     exists sd', process_item C ops isoformat m inc ws now sd item = Ok sd')
  /\ (forall sd',
     process_item (float := float) C ops isoformat m inc ws now sd item = Ok sd' ->
     exists r,
       ODict.get (entity_id r) sd' = Some r
       /\ sensor_key r = key
       /\ category r = (if is_battery C key then "diagnostic"
                        else if is_system C key then "system" else "sensor")
       /\ category r ∈ ["sensor"; "system"; "diagnostic"]).
Proof.
  intros Hp key value. split.
  - intros h names d v Hr Hg Hd Hv.
    destruct (process_item_stores C ops isoformat m inc ws now sd item h names d v
                Hp Hr Hg Hd Hv) as (r & -> & _). eauto.
  - intros sd' E.
    destruct (process_item_returned C ops isoformat m inc ws now sd item sd' Hp E)
      as (r & -> & Hk & _ & _ & Hc & _).
    exists r. split; [apply get_set_eq|]. split; [exact Hk|]. split; [exact Hc|].
    rewrite Hc. unfold category_of.
    destruct (is_battery C (get_or_empty item "id")); [set_solver|].
    destruct (is_system C (get_or_empty item "id")); set_solver.
Qed.

Lemma C3_witness :
  exists r,
    ODict.get (entity_id r)
      [("sensor.ecowitt_runtime",
        {| entity_id := "sensor.ecowitt_runtime"; name := "runtime";
           state := PyInt (float := float_literal) 86400;
           unit_of_measurement := Some "s"; device_class := Some "";
           category := "system"; sensor_key := "runtime"; hardware_id := None;
           raw_value := "86400";
           attributes := {[ "sensor_key" := "runtime"; "last_update" := "1000" ]} |})]
    = Some r
    /\ sensor_key r = "runtime" /\ category r = "system"
    /\ category r ∈ ["sensor"; "system"; "diagnostic"].
Proof.
  assert (Hp : processed false (reading "runtime" "86400")).
  { split; [discriminate|left; discriminate]. }
  refine (proj2 (C3_category (float := float_literal) example_const example_mapper
            example_isoformat empty_mapper false false 1000 []
            (reading "runtime" "86400") Hp) _ _).
  vm_compute. reflexivity.
Defined.

(** C7.  For a wire key with an entry in the battery table and a raw value
    made of decimal digits, the stored state is the text of [value * 20]
    when the value is at most 5, a percentage between 0 and 100, and the raw
    value unchanged when it is greater than 5: "3" gives "60" and "80" gives
    "80". *)
Theorem C7_battery_scale {float : Type} `{!PyFloatOps float}
    (C : Const) (ops : MapperOps) (isoformat : Z -> string)
    (m : SensorMapper) (inc ws : bool) (now : Z) (sd : odict SensorData) (item : Item)
    (h : option string) (names : string * string) (d : gmap string string) :
  let key := get_or_empty item "id" in
  let value := get_or_empty item "val" in
  let n := Z.of_N (digits_value value) in
  key <> "" -> is_battery C key = true -> digits value ->
  resolve C ops m key ws = Ok h -> generate_entity_id ops m key h = Ok names ->
  details ops m h = Ok d ->
  exists r,
    process_item (float := float) C ops isoformat m inc ws now sd item
    = Ok (ODict.set names.1 r sd)
    /\ ODict.get names.1 (ODict.set names.1 r sd) = Some r
    /\ sensor_key r = key /\ raw_value r = value
    /\ ((n <= 5)%Z -> state r = PyStr (of_Z (n * 20)) /\ (0 <= n * 20 <= 100)%Z)
    /\ ((5 < n)%Z -> state r = PyStr value).
Proof.
  intros key value n Hk Hb Hd Hr Hg Hdet.
  assert (Hp : processed inc item).
  { split; [exact Hk|]. left. destruct Hd as [Hne _]. exact Hne. }
  destruct (process_item_stores C ops isoformat m inc ws now sd item h names d _
              Hp Hr Hg Hdet (converted_battery_digits C key value Hb Hd))
    as (r & E & _ & Hkey & Hraw & _ & _ & Hs).
  exists r. split; [exact E|]. split; [apply get_set_eq|].
  split; [exact Hkey|]. split; [exact Hraw|]. fold n in Hs. split.
  - intros Hle. rewrite Hs. apply Z.leb_le in Hle as Hle'. rewrite Hle'.
    split; [reflexivity|]. unfold n in *. lia.
  - intros Hgt. rewrite Hs. apply Z.leb_gt in Hgt. now rewrite Hgt.
Qed.

Lemma C7_witness :
  (exists r,
     process_item (float := float_literal) example_const example_mapper example_isoformat
       empty_mapper false false 1000 [] (reading "soilbatt1" "3")
     = Ok [("sensor.ecowitt_soilbatt1", r)] /\ state r = PyStr "60")
  /\ (exists r,
     process_item (float := float_literal) example_const example_mapper example_isoformat
       empty_mapper false false 1000 [] (reading "soilbatt1" "80")
     = Ok [("sensor.ecowitt_soilbatt1", r)] /\ state r = PyStr "80").
Proof.
  assert (H3 : digits "3") by (split; [discriminate|reflexivity]).
  assert (H80 : digits "80") by (split; [discriminate|reflexivity]).
  split.
  - destruct (C7_battery_scale (float := float_literal) example_const example_mapper
                example_isoformat empty_mapper false false 1000 []
                (reading "soilbatt1" "3") None ("sensor.ecowitt_soilbatt1", "soilbatt1") ∅
                ltac:(discriminate) eq_refl H3 eq_refl eq_refl eq_refl)
      as (r & E & _ & _ & _ & Hle & _).
    exists r. split; [exact E|]. apply Hle. vm_compute. discriminate.
  - destruct (C7_battery_scale (float := float_literal) example_const example_mapper
                example_isoformat empty_mapper false false 1000 []
                (reading "soilbatt1" "80") None ("sensor.ecowitt_soilbatt1", "soilbatt1") ∅
                ltac:(discriminate) eq_refl H80 eq_refl eq_refl eq_refl)
      as (r & E & _ & _ & _ & _ & Hgt).
    exists r. split; [exact E|]. apply Hgt. vm_compute. reflexivity.
Defined.

(** ** Diagnostic readings *)

Lemma hardware_id_key_inj a b :
  hardware_id_entity_id a = hardware_id_entity_id b -> lower a = lower b.
Proof. apply app_inv_head_str. Qed.

Lemma channel_key_inj a b : channel_entity_id a = channel_entity_id b -> lower a = lower b.
Proof. apply app_inv_head_str. Qed.

Lemma signal_key_inj a b : signal_entity_id a = signal_entity_id b -> lower a = lower b.
Proof. apply app_inv_head_str. Qed.

Lemma hardware_id_key_not_channel a b : hardware_id_entity_id a <> channel_entity_id b.
Proof. unfold hardware_id_entity_id, channel_entity_id. simpl. discriminate. Qed.

Lemma hardware_id_key_not_signal a b : hardware_id_entity_id a <> signal_entity_id b.
Proof. unfold hardware_id_entity_id, signal_entity_id. simpl. discriminate. Qed.

Lemma channel_key_not_signal a b : channel_entity_id a <> signal_entity_id b.
Proof. unfold channel_entity_id, signal_entity_id. simpl. discriminate. Qed.

Section Diagnostics.
Context {float : Type} `{!PyFloatOps float}.
Variable ops : MapperOps.
Variable isoformat : Z -> string.
Variable m : SensorMapper.
Variable now : Z.

(** What the loop body inserts for a unit: the signal reading when [pct] is
    its percentage, then the hardware-id and the channel readings. *)
Definition diag_insert (h : string) (info : HardwareInfo) (pct : option string)
    (sd : odict (SensorData (float := float))) : odict (SensorData (float := float)) :=
  ODict.set (channel_entity_id h) (channel_sensor isoformat h (info_channel info) now)
    (ODict.set (hardware_id_entity_id h) (hardware_id_sensor isoformat h now)
       match pct with
       | Some p =>
           ODict.set (signal_entity_id h)
             (signal_sensor isoformat h (info_signal info) p now) sd
       | None => sd
       end).

(** A unit that gets diagnostic readings: known to the mapper, with a
    channel. *)
Definition diagnosable (h : string) (info : HardwareInfo) : Prop :=
  h <> "" /\ get_sensor_info ops m h = Ok (Some info) /\ info_channel info <> "".

(** The signal percentage inserted for a unit, if any. *)
Definition signal_of (info : HardwareInfo) (pct : option string) : Prop :=
  if usable_signal (info_signal info)
  then exists p, signal_pct (info_signal info) = Ok p /\ pct = Some p
  else pct = None.

Lemma add_diagnostics_step sd added x acc' :
  add_diagnostics (float := float) ops isoformat m now (sd, added) x = Ok acc' ->
  (acc' = (sd, added)
   /\ forall h info, hardware_id x = Some h -> diagnosable h info -> h ∈ added)
  \/ (exists h info pct,
        hardware_id x = Some h /\ diagnosable h info /\ (h ∉ added) /\ signal_of info pct
        /\ acc' = (diag_insert h info pct sd, {[ h ]} ∪ added)).
Proof.
  unfold add_diagnostics.
  destruct (hardware_id x) as [h|] eqn:Eh; simpl.
  2:{ intros [= <-]. left. split; [reflexivity|]. intros; discriminate. }
  destruct (nonempty h) eqn:En; simpl.
  2:{ intros [= <-]. left. split; [reflexivity|]. intros h' info [= <-] [Hne _].
      destruct h; [congruence|discriminate]. }
  case_bool_decide as Hin; simpl.
  { intros [= <-]. left. split; [reflexivity|]. now intros h' info [= <-] _. }
  destruct (get_sensor_info ops m h) as [[info|]|e] eqn:Ei; simpl; [| |discriminate].
  2:{ intros [= <-]. left. split; [reflexivity|]. intros h' info [= <-] (_ & Hi & _).
      congruence. }
  destruct (is_empty (info_channel info)) eqn:Ec.
  { intros [= <-]. left. split; [reflexivity|]. intros h' info' [= <-] (_ & Hi & Hc).
      assert (info' = info) as -> by congruence. apply is_empty_true in Ec. congruence. }
  assert (Hd : diagnosable h info).
  { split; [destruct h; [discriminate|congruence]|]. split; [exact Ei|].
    intros E. rewrite E in Ec. discriminate. }
  intros E. right. exists h, info.
  destruct (usable_signal (info_signal info)) eqn:Eu.
  - destruct (signal_pct (info_signal info)) as [p|e] eqn:Ep; simpl in E; [|discriminate].
    exists (Some p). injection E as <-. repeat split; try apply Hd; try assumption.
    unfold signal_of. rewrite Eu. eauto.
  - simpl in E. exists None. injection E as <-. repeat split; try apply Hd; try assumption.
    unfold signal_of. now rewrite Eu.
Qed.

Lemma add_diagnostics_returns sd added x :
  (forall h, exists r, get_sensor_info ops m h = Ok r) ->
  (forall h info, get_sensor_info ops m h = Ok (Some info) ->
     exists p, signal_pct (info_signal info) = Ok p) ->
  exists acc', add_diagnostics (float := float) ops isoformat m now (sd, added) x = Ok acc'.
Proof.
  intros Hinfo Hsig. unfold add_diagnostics.
  destruct (negb (present (hardware_id x))
            || bool_decide (default "" (hardware_id x) ∈ added)); [eauto|].
  destruct (Hinfo (default "" (hardware_id x))) as [[info|] Ei]; rewrite Ei; simpl; [|eauto].
  destruct (is_empty (info_channel info)); [eauto|].
  destruct (usable_signal (info_signal info)); [|simpl; eauto].
  destruct (Hsig _ _ Ei) as [p ->]. simpl. eauto.
Qed.

Lemma get_diag_insert k h info pct sd :
  ODict.get k (diag_insert h info pct sd)
  = if decide (k = channel_entity_id h)
    then Some (channel_sensor isoformat h (info_channel info) now)
    else if decide (k = hardware_id_entity_id h)
    then Some (hardware_id_sensor isoformat h now)
    else match pct with
         | Some p =>
             if decide (k = signal_entity_id h)
             then Some (signal_sensor isoformat h (info_signal info) p now)
             else ODict.get k sd
         | None => ODict.get k sd
         end.
Proof.
  unfold diag_insert.
  destruct (decide (k = channel_entity_id h)) as [->|H1]; [apply get_set_eq|].
  rewrite get_set_ne by congruence.
  destruct (decide (k = hardware_id_entity_id h)) as [->|H2]; [apply get_set_eq|].
  rewrite get_set_ne by congruence.
  destruct pct as [p|]; [|reflexivity].
  destruct (decide (k = signal_entity_id h)) as [->|H3]; [apply get_set_eq|].
  now rewrite get_set_ne by congruence.
Qed.

Lemma keys_diag_insert k h info pct sd :
  k ∈ ODict.keys (diag_insert h info pct sd) <->
  k = channel_entity_id h \/ k = hardware_id_entity_id h
  \/ (k = signal_entity_id h /\ pct <> None) \/ k ∈ ODict.keys sd.
Proof.
  unfold diag_insert. rewrite !keys_set_elem. destruct pct as [p|].
  - rewrite keys_set_elem. split; [|tauto].
    intros [?|[?|[?|?]]]; [tauto|tauto| |tauto].
    right; right; left. split; [assumption|discriminate].
  - split; [tauto|]. intros [?|[?|[[_ ?]|?]]]; auto. congruence.
Qed.

Lemma diag_insert_NoDup h info pct sd :
  NoDup (ODict.keys sd) -> NoDup (ODict.keys (diag_insert h info pct sd)).
Proof.
  intros Hnd. unfold diag_insert. do 2 apply keys_set_NoDup.
  destruct pct; [now apply keys_set_NoDup|assumption].
Qed.

(** The diagnostic readings of a unit [h], as found in the output: each was
    written for a unit with the same lower-cased id. *)
Definition hardware_id_entry (h : string) (r : SensorData (float := float)) : Prop :=
  exists h', lower h' = lower h /\ r = hardware_id_sensor isoformat h' now.

Definition channel_entry (h : string) (r : SensorData (float := float)) : Prop :=
  exists h' info', lower h' = lower h /\ diagnosable h' info'
    /\ r = channel_sensor isoformat h' (info_channel info') now.

Definition signal_entry (h : string) (r : SensorData (float := float)) : Prop :=
  exists h' info' p, lower h' = lower h /\ diagnosable h' info'
    /\ usable_signal (info_signal info') = true
    /\ signal_pct (info_signal info') = Ok p
    /\ r = signal_sensor isoformat h' (info_signal info') p now.

Definition has_diagnostics (sd : odict (SensorData (float := float))) (h : string) (info : HardwareInfo) : Prop :=
  (exists r, ODict.get (hardware_id_entity_id h) sd = Some r /\ hardware_id_entry h r)
  /\ (exists r, ODict.get (channel_entity_id h) sd = Some r /\ channel_entry h r)
  /\ (usable_signal (info_signal info) = true ->
      exists r, ODict.get (signal_entity_id h) sd = Some r /\ signal_entry h r).

Lemma has_diagnostics_new h info pct sd :
  diagnosable h info -> signal_of info pct ->
  has_diagnostics (diag_insert h info pct sd) h info.
Proof.
  intros Hd Hs. unfold has_diagnostics. rewrite !get_diag_insert.
  split; [|split].
  - destruct (decide (hardware_id_entity_id h = channel_entity_id h)) as [E|_];
      [now apply hardware_id_key_not_channel in E|].
    rewrite decide_True by reflexivity. eexists. split; [reflexivity|]. now exists h.
  - rewrite decide_True by reflexivity. eexists. split; [reflexivity|]. now exists h, info.
  - intros Hu. unfold signal_of in Hs. rewrite Hu in Hs. destruct Hs as (p & Hp & ->).
    destruct (decide (signal_entity_id h = channel_entity_id h)) as [E|_];
      [symmetry in E; now apply channel_key_not_signal in E|].
    destruct (decide (signal_entity_id h = hardware_id_entity_id h)) as [E|_];
      [symmetry in E; now apply hardware_id_key_not_signal in E|].
    rewrite decide_True by reflexivity. eexists. split; [reflexivity|].
    now exists h, info, p.
Qed.

Lemma has_diagnostics_kept h info h2 info2 pct sd :
  diagnosable h2 info2 -> signal_of info2 pct ->
  has_diagnostics sd h info -> has_diagnostics (diag_insert h2 info2 pct sd) h info.
Proof.
  intros Hd2 Hs2 (Hh & Hc & Hs). unfold has_diagnostics. rewrite !get_diag_insert.
  split; [|split].
  - destruct (decide (hardware_id_entity_id h = channel_entity_id h2)) as [E|_];
      [now apply hardware_id_key_not_channel in E|].
    destruct (decide (hardware_id_entity_id h = hardware_id_entity_id h2)) as [E|_].
    { apply hardware_id_key_inj in E. eexists. split; [reflexivity|]. now exists h2. }
    destruct pct as [p|]; [|exact Hh].
    destruct (decide (hardware_id_entity_id h = signal_entity_id h2)) as [E|_];
      [now apply hardware_id_key_not_signal in E|exact Hh].
  - destruct (decide (channel_entity_id h = channel_entity_id h2)) as [E|_].
    { apply channel_key_inj in E. eexists. split; [reflexivity|]. now exists h2, info2. }
    destruct (decide (channel_entity_id h = hardware_id_entity_id h2)) as [E|_];
      [symmetry in E; now apply hardware_id_key_not_channel in E|].
    destruct pct as [p|]; [|exact Hc].
    destruct (decide (channel_entity_id h = signal_entity_id h2)) as [E|_];
      [now apply channel_key_not_signal in E|exact Hc].
  - intros Hu.
    destruct (decide (signal_entity_id h = channel_entity_id h2)) as [E|_];
      [symmetry in E; now apply channel_key_not_signal in E|].
    destruct (decide (signal_entity_id h = hardware_id_entity_id h2)) as [E|_];
      [symmetry in E; now apply hardware_id_key_not_signal in E|].
    destruct pct as [p|]; [|auto].
    destruct (decide (signal_entity_id h = signal_entity_id h2)) as [E|_]; [|auto].
    apply signal_key_inj in E. eexists. split; [reflexivity|].
    unfold signal_of in Hs2. destruct (usable_signal (info_signal info2)) eqn:Eu.
    + destruct Hs2 as (p' & Hp & [= ->]). now exists h2, info2, p'.
    + discriminate.
Qed.

End Diagnostics.

Section DiagnosticsLoop.
Context {float : Type} `{!PyFloatOps float}.
Variable ops : MapperOps.
Variable isoformat : Z -> string.
Variable m : SensorMapper.
Variable now : Z.

(** One of the three entity ids of a unit, the signal one only for a usable
    signal. *)
Definition diagnostic_key (k h : string) (info : HardwareInfo) : Prop :=
  k = hardware_id_entity_id h \/ k = channel_entity_id h
  \/ (k = signal_entity_id h /\ usable_signal (info_signal info) = true).

(** The invariant of the loop of [_add_diagnostic_and_signal_sensors]:
    [sd0] is the dictionary at entry, [seen] the values of the snapshot
    passed so far. *)
Record diag_inv (sd0 : odict (SensorData (float := float)))
    (seen : list (SensorData (float := float)))
    (acc : odict (SensorData (float := float)) * gset string) : Prop := {
  inv_added : forall h, h ∈ acc.2 ->
    exists r info, r ∈ seen /\ hardware_id r = Some h /\ diagnosable ops m h info
      /\ has_diagnostics ops isoformat m now acc.1 h info;
  inv_done : forall r h info,
    r ∈ seen -> hardware_id r = Some h -> diagnosable ops m h info -> h ∈ acc.2;
  inv_keys : forall k, k ∈ ODict.keys acc.1 ->
    k ∈ ODict.keys sd0
    \/ exists h info, h ∈ acc.2 /\ diagnosable ops m h info /\ diagnostic_key k h info;
  inv_nodup : NoDup (ODict.keys sd0) -> NoDup (ODict.keys acc.1);
  inv_orig : forall k, k ∈ ODict.keys sd0 -> k ∈ ODict.keys acc.1;
}.

Lemma diag_inv_init sd0 : diag_inv sd0 [] (sd0, ∅).
Proof.
  split; simpl; auto.
  - intros h Hh. set_solver.
  - intros r h info Hr. now apply elem_of_nil in Hr.
Qed.

Lemma diag_inv_step sd0 seen acc x acc' :
  diag_inv sd0 seen acc ->
  add_diagnostics (float := float) ops isoformat m now acc x = Ok acc' ->
  diag_inv sd0 (seen ++ [x]) acc'.
Proof.
  intros [Ha Hd Hk Hn Ho] E. destruct acc as [sd added].
  apply add_diagnostics_step in E as [[-> Hskip]|(h2 & info2 & pct & Hx & Hd2 & Hnew & Hs & ->)];
    simpl in *.
  - split; simpl; auto.
    + intros h Hh. destruct (Ha h Hh) as (r & info & Hr & H1 & H2 & H3).
      exists r, info. rewrite elem_of_app. auto.
    + intros r h info [Hr| ->%list_elem_of_singleton]%elem_of_app; eauto.
  - split; simpl.
    + intros h [->%elem_of_singleton|Hh]%elem_of_union.
      * exists x, info2. split; [rewrite elem_of_app, list_elem_of_singleton; auto|].
        split; [exact Hx|]. split; [exact Hd2|]. now apply has_diagnostics_new.
      * destruct (Ha h Hh) as (r & info & Hr & H1 & H2 & H3).
        exists r, info. split; [rewrite elem_of_app; auto|].
        split; [exact H1|]. split; [exact H2|]. now apply has_diagnostics_kept.
    + intros r h info [Hr| ->%list_elem_of_singleton]%elem_of_app Hh Hdi.
      * apply elem_of_union. right. eauto.
      * apply elem_of_union. left. apply elem_of_singleton. congruence.
    + intros k [->|[->|[[-> Hp]|Hin]]]%keys_diag_insert.
      * right. exists h2, info2. split; [apply elem_of_union; left; now apply elem_of_singleton|]. split; [exact Hd2|].
        right. now left.
      * right. exists h2, info2. split; [apply elem_of_union; left; now apply elem_of_singleton|]. split; [exact Hd2|]. now left.
      * right. exists h2, info2. split; [apply elem_of_union; left; now apply elem_of_singleton|]. split; [exact Hd2|].
        right. right. split; [reflexivity|].
        unfold signal_of in Hs. destruct (usable_signal (info_signal info2)); congruence.
      * destruct (Hk k Hin) as [?|(h & info & Hh & Hdi & Hkey)]; [now left|].
        right. exists h, info. split; [apply elem_of_union; now right|]. auto.
    + intros Hnd. apply diag_insert_NoDup. auto.
    + intros k Hin. apply keys_diag_insert. right; right; right. auto.
Qed.

Lemma diag_loop sd0 seen acc xs :
  (forall h, exists r, get_sensor_info ops m h = Ok r) ->
  (forall h info, get_sensor_info ops m h = Ok (Some info) ->
     exists p, signal_pct (info_signal info) = Ok p) ->
  diag_inv sd0 seen acc ->
  exists acc',
    add_diagnostics_loop (float := float) ops isoformat m now acc xs = Ok acc'
    /\ diag_inv sd0 (seen ++ xs) acc'.
Proof.
  intros Hinfo Hsig. revert seen acc.
  induction xs as [|x xs IH]; intros seen acc Hinv; simpl.
  - exists acc. now rewrite app_nil_r.
  - destruct acc as [sd added].
    destruct (add_diagnostics_returns ops isoformat m now sd added x Hinfo Hsig) as [acc1 E].
    rewrite E. simpl.
    destruct (IH (seen ++ [x]) acc1 (diag_inv_step _ _ _ _ _ Hinv E)) as (acc' & E' & Hinv').
    exists acc'. split; [exact E'|]. now rewrite <- app_assoc in Hinv'.
Qed.

End DiagnosticsLoop.

(** C2, as stated, fails.  A cycle that detects a WS90 stores a reading with
    the hardware id of the WS90 unit, whose channel is empty: the output has
    none of the three diagnostic readings for it.  A unit with a channel and
    the signal "--" gets the hardware-id and the channel readings and no
    signal reading. *)
Lemma C2_counterexample :
  (hardware_id <$> returned_reading (snd (ws90_cycle ws90_live)) "sensor.ecowitt_0x02_d158"
   = Some (Some "D158")
   /\ info_channel <$> ODict.get "D158" (_sensor_info (sensor_mapper (fst (ws90_cycle ws90_live))))
      = Some ""
   /\ ODict.keys <$> returned_sensors (snd (ws90_cycle ws90_live))
      = Some ["sensor.ecowitt_0x02_d158"; "sensor.ecowitt_3_d158";
              "sensor.ecowitt_0x0D_d158"; "sensor.ecowitt_ws90batt_d158"])
  /\ (ODict.keys <$>
       _add_diagnostic_and_signal_sensors example_mapper example_isoformat silent_mapper 1000
         [("sensor.ecowitt_soilmoisture1_a1b2", soil_reading)]
     = Ok ["sensor.ecowitt_soilmoisture1_a1b2"; "sensor.ecowitt_hardware_id_a1b2";
           "sensor.ecowitt_channel_a1b2"]).
Proof. repeat split; vm_compute; reflexivity. Qed.

(** C2, amended.  When the lookups of the mapper raise nothing, the pass
    returns, and for every hardware id of a reading whose unit the mapper
    knows with a non-empty channel the output holds a "Hardware ID" reading
    and a "Channel" reading, and a "Signal Strength" reading when the unit's
    signal is neither empty nor "--"; each has category "diagnostic" and was
    written for a unit with the same lower-cased id.  Nothing else is added:
    a unit that is unknown or has no channel gets none.  The readings present
    at entry stay, and every entity id occurs once. *)
Theorem C2_diagnostic_readings {float : Type} `{!PyFloatOps float}
    (ops : MapperOps) (isoformat : Z -> string) (m : SensorMapper) (now : Z)
    (sd : odict (SensorData (float := float))) :
  (forall h, exists r, get_sensor_info ops m h = Ok r) ->
  (forall h info, get_sensor_info ops m h = Ok (Some info) ->
     exists p, signal_pct (info_signal info) = Ok p) ->
  exists out,
    _add_diagnostic_and_signal_sensors ops isoformat m now sd = Ok out
    /\ (forall r h info,
          r ∈ ODict.values sd -> hardware_id r = Some h -> diagnosable ops m h info ->
          (exists d, ODict.get (hardware_id_entity_id h) out = Some d
             /\ hardware_id_entry isoformat now h d /\ category d = "diagnostic")
          /\ (exists d, ODict.get (channel_entity_id h) out = Some d
             /\ channel_entry ops isoformat m now h d /\ category d = "diagnostic")
          /\ (usable_signal (info_signal info) = true ->
              exists d, ODict.get (signal_entity_id h) out = Some d
                /\ signal_entry ops isoformat m now h d /\ category d = "diagnostic"))
    /\ (forall k, k ∈ ODict.keys out ->
          k ∈ ODict.keys sd
          \/ exists r h info,
               r ∈ ODict.values sd /\ hardware_id r = Some h /\ diagnosable ops m h info
               /\ diagnostic_key k h info)
    /\ (forall k, k ∈ ODict.keys sd -> k ∈ ODict.keys out)
    /\ (NoDup (ODict.keys sd) -> NoDup (ODict.keys out)).
Proof.
  intros Hinfo Hsig.
  destruct (diag_loop ops isoformat m now sd [] (sd, ∅) (ODict.values sd) Hinfo Hsig
              (diag_inv_init ops isoformat m now sd))
    as ([out added] & E & [Ha Hd Hk Hn Ho]).
  simpl in *. exists out. unfold _add_diagnostic_and_signal_sensors. rewrite E.
  split; [reflexivity|]. split; [|split; [|split; [exact Ho|exact Hn]]].
  - intros r h info Hr Hh Hdi.
    destruct (Ha h (Hd r h info Hr Hh Hdi)) as (r' & info' & _ & _ & Hdi' & H1 & H2 & H3).
    assert (info' = info) as ->.
    { destruct Hdi as (_ & E1 & _), Hdi' as (_ & E2 & _). congruence. }
    split; [|split].
    + destruct H1 as (d & Hget & Hent). exists d. repeat split; auto.
      destruct Hent as (h' & _ & ->). reflexivity.
    + destruct H2 as (d & Hget & Hent). exists d. repeat split; auto.
      destruct Hent as (h' & i' & _ & _ & ->). reflexivity.
    + intros Hu. destruct (H3 Hu) as (d & Hget & Hent). exists d. repeat split; auto.
      destruct Hent as (h' & i' & p & _ & _ & _ & _ & ->). reflexivity.
  - intros k Hin. destruct (Hk k Hin) as [?|(h & info & Hh & Hdi & Hkey)]; [now left|].
    right. destruct (Ha h Hh) as (r & info' & Hr & Hrh & Hdi' & _).
    exists r, h, info. auto.
Qed.

Lemma C2_witness :
  exists out,
    _add_diagnostic_and_signal_sensors example_mapper example_isoformat paired_mapper 1000
      [("sensor.ecowitt_soilmoisture1_a1b2", soil_reading)] = Ok out
    /\ (exists d, ODict.get "sensor.ecowitt_hardware_id_a1b2" out = Some d
          /\ category d = "diagnostic")
    /\ (exists d, ODict.get "sensor.ecowitt_channel_a1b2" out = Some d
          /\ category d = "diagnostic")
    /\ (exists d, ODict.get "sensor.ecowitt_signal_strength_a1b2" out = Some d
          /\ category d = "diagnostic")
    /\ NoDup (ODict.keys out).
Proof.
  assert (Hinfo : forall h, exists r, get_sensor_info example_mapper paired_mapper h = Ok r).
  { intros h. eexists. reflexivity. }
  assert (Hsig : forall h info,
            get_sensor_info example_mapper paired_mapper h = Ok (Some info) ->
            exists p, signal_pct (info_signal info) = Ok p).
  { intros h info E.
    assert (E' : (if String.eqb "A1B2" h then Some paired_info else None) = Some info).
    { change (Ok (if String.eqb "A1B2" h then Some paired_info else None)
              = Ok (Some info)) in E.
      congruence. }
    destruct (String.eqb "A1B2" h); [|discriminate E'].
    injection E' as <-. eexists. reflexivity. }
  destruct (C2_diagnostic_readings (float := float_literal) example_mapper example_isoformat
              paired_mapper 1000 [("sensor.ecowitt_soilmoisture1_a1b2", soil_reading)]
              Hinfo Hsig) as (out & E & Hdiag & _ & _ & Hnd).
  exists out. split; [exact E|].
  destruct (Hdiag soil_reading "A1B2" paired_info)
    as ((d1 & G1 & _ & C1) & (d2 & G2 & _ & C2) & H3).
  - apply elem_of_cons. now left.
  - reflexivity.
  - split; [discriminate|]. split; [reflexivity|discriminate].
  - destruct (H3 eq_refl) as (d3 & G3 & _ & C3).
    split; [eauto|]. split; [eauto|]. split; [eauto|].
    apply Hnd. apply NoDup_singleton.
Defined.

(** ** The WS90 unit *)

(** An item of the rain section that announces a WS90: it has an id and a
    value, and a non-empty battery and version. *)
Definition announces_ws90 (item : Item) : Prop :=
  is_Some (item !! "id") /\ is_Some (item !! "val")
  /\ present (item !! "battery") = true /\ present (item !! "ws90_ver") = true.

Lemma piezo_item_detects item added md :
  piezo_item item = Ok (added, md) -> announces_ws90 item -> is_Some md.
Proof.
  intros E ([id Hid] & [val Hval] & Hb & Hv). unfold piezo_item in E.
  rewrite Hid, Hval, Hb, Hv in E. simpl in E.
  destruct (battery_pct (default "" (item !! "battery"))); simpl in E; [|discriminate].
  injection E as _ <-. eauto.
Qed.

Lemma piezo_items_detects rain acc its md :
  piezo_items rain acc = Ok (its, md) ->
  is_Some acc \/ (exists item, item ∈ rain /\ announces_ws90 item) ->
  is_Some md.
Proof.
  revert acc its md. induction rain as [|item rain IH]; intros acc its md E H; simpl in E.
  - injection E as _ <-. destruct H as [?|(item & Hin & _)]; [assumption|].
    now apply elem_of_nil in Hin.
  - destruct (piezo_item item) as [[added md1]|] eqn:E1; simpl in E; [|discriminate].
    destruct (piezo_items rain (match md1 with Some _ => md1 | None => acc end))
      as [[more md2]|] eqn:E2; simpl in E; [|discriminate].
    injection E as _ <-. apply (IH _ _ _ E2).
    destruct H as [Hacc|(it & Hin & Hann)].
    + left. destruct md1; [eauto|assumption].
    + apply elem_of_cons in Hin as [->|Hin]; [|right; eauto].
      left. destruct (piezo_item_detects _ _ _ E1 Hann) as [md0 ->]. eauto.
Qed.

Lemma collect_detects raw items md :
  collect_sensor_items raw = Ok (items, md) ->
  (exists item, item ∈ piezoRain raw /\ announces_ws90 item) ->
  is_Some md.
Proof.
  intros E H. unfold collect_sensor_items in E.
  destruct (concat_items soil_items (ch_soil raw)); simpl in E; [|discriminate].
  destruct (piezo_items (piezoRain raw) None) as [[rain md']|] eqn:Ep; simpl in E;
    [|discriminate].
  destruct (concat_items aisle_items (ch_aisle raw)); simpl in E; [|discriminate].
  injection E as _ <-. apply (piezo_items_detects _ _ _ _ Ep). now right.
Qed.

(** The hardware id [_get_or_generate_ws90_hardware_id] settles on for a
    metadata record with a version. *)
Definition ws90_hardware_id (m : SensorMapper) (md : Ws90Metadata) : string :=
  match find_wh90 (_sensor_info m) with
  | Some hardware_id => hardware_id
  | None =>
      if nonempty (ws90_ver md) then "D" +:+ last_n 3 (ws90_ver md) else "WS90_DEFAULT"
  end.

Lemma keys_mark_ws90 d : ODict.keys (mark_ws90 d) = ODict.keys d.
Proof.
  induction d as [|[k v] d IH]; simpl; [reflexivity|].
  destruct (is_wh90 v); simpl; congruence.
Qed.

Lemma get_mark_ws90 d hid k :
  find_wh90 d = Some hid -> k <> hid -> ODict.get k (mark_ws90 d) = ODict.get k d.
Proof.
  induction d as [|[k0 v] d IH]; simpl; [reflexivity|].
  destruct (is_wh90 v); simpl.
  - intros [= ->] Hne. destruct (String.eqb_spec hid k); [congruence|reflexivity].
  - intros E Hne. destruct (String.eqb k0 k); auto.
Qed.

Lemma map_keys_elem keys hid mapping k :
  k ∈ keys -> map_keys keys hid mapping !! k = Some hid.
Proof.
  unfold map_keys. revert mapping.
  induction keys as [|k0 keys IH] using rev_ind; intros mapping Hin.
  - now apply elem_of_nil in Hin.
  - rewrite foldl_app. simpl. destruct (decide (k0 = k)) as [->|Hne].
    + apply lookup_insert_eq.
    + rewrite lookup_insert_ne by assumption. apply IH.
      apply elem_of_app in Hin as [?|Hin]; [assumption|].
      apply list_elem_of_singleton in Hin. congruence.
Qed.

Lemma map_keys_other keys hid mapping k :
  k ∉ keys -> map_keys keys hid mapping !! k = mapping !! k.
Proof.
  unfold map_keys. revert mapping.
  induction keys as [|k0 keys IH]; intros mapping Hin; simpl; [reflexivity|].
  apply not_elem_of_cons in Hin as [Hne Hin]. rewrite (IH _ Hin).
  now apply lookup_insert_ne.
Qed.

Lemma handle_ws90_device m md :
  find_wh90 (_sensor_info m) <> Some "" ->
  let hid := ws90_hardware_id m md in
  let m' := _handle_ws90_device m md in
  hid <> ""
  /\ ODict.get hid (_sensor_info m') = Some (ws90_info hid md)
  /\ (forall k, k <> hid -> ODict.get k (_sensor_info m') = ODict.get k (_sensor_info m))
  /\ ODict.keys (_sensor_info m')
     = (if bool_decide (hid ∈ ODict.keys (_sensor_info m))
        then ODict.keys (_sensor_info m)
        else ODict.keys (_sensor_info m) ++ [hid])
  /\ (forall k, k ∈ hex_id_sensors -> _hardware_mapping m' !! k = Some hid)
  /\ (forall k, k ∉ hex_id_sensors -> _hardware_mapping m' !! k = _hardware_mapping m !! k).
Proof.
  intros Hne. cbv zeta.
  unfold _handle_ws90_device, _get_or_generate_ws90_hardware_id, ws90_hardware_id.
  destruct (find_wh90 (_sensor_info m)) as [hid|] eqn:Ef.
  - assert (Hh : present (Some hid) = true).
    { destruct hid; [congruence|reflexivity]. }
    rewrite Hh. cbn [negb default from_option id _sensor_info _hardware_mapping].
    split; [destruct hid; [congruence|discriminate]|].
    split; [apply get_set_eq|]. split.
    { intros k Hk. rewrite get_set_ne by congruence. exact (get_mark_ws90 _ hid k Ef Hk). }
    split; [now rewrite keys_set, keys_mark_ws90|].
    split; [intros; now apply map_keys_elem|intros; now apply map_keys_other].
  - assert (Hid : forall hid, hid <> "" ->
      let m' := {| _sensor_info := ODict.set hid (ws90_info hid md) (_sensor_info m);
                   _hardware_mapping := map_keys hex_id_sensors hid (_hardware_mapping m) |} in
      hid <> ""
      /\ ODict.get hid (_sensor_info m') = Some (ws90_info hid md)
      /\ (forall k, k <> hid -> ODict.get k (_sensor_info m') = ODict.get k (_sensor_info m))
      /\ ODict.keys (_sensor_info m')
         = (if bool_decide (hid ∈ ODict.keys (_sensor_info m))
            then ODict.keys (_sensor_info m)
            else ODict.keys (_sensor_info m) ++ [hid])
      /\ (forall k, k ∈ hex_id_sensors -> _hardware_mapping m' !! k = Some hid)
      /\ (forall k, k ∉ hex_id_sensors -> _hardware_mapping m' !! k = _hardware_mapping m !! k)).
    { intros hid Hh. cbn [_sensor_info _hardware_mapping].
      split; [assumption|]. split; [apply get_set_eq|].
      split; [intros; now rewrite get_set_ne by congruence|].
      split; [apply keys_set|].
      split; [intros; now apply map_keys_elem|intros; now apply map_keys_other]. }
    destruct (nonempty (ws90_ver md)); cbn [present nonempty is_empty negb default from_option id];
      apply Hid; discriminate.
Qed.

Lemma is_gateway_dynamic (C : Const) key :
  key ∈ dynamic_sensors ->
  _is_gateway_sensor C key false = true
  /\ (key ∈ WS90_HEX_SENSORS C -> key ∉ GATEWAY_SENSORS C ->
      _is_gateway_sensor C key true = false).
Proof.
  intros Hd. unfold _is_gateway_sensor. split.
  - case_bool_decide; [reflexivity|]. now rewrite bool_decide_eq_true_2.
  - intros Hw Hg. rewrite (bool_decide_eq_false_2 _ Hg), andb_false_r.
    now rewrite (bool_decide_eq_true_2 _ Hw).
Qed.

(** C5, as stated, fails: a rain item with a battery and a version and no
    id is passed over; no unit is created and "3" stays with the gateway.
    (With the id and the value, the unit "D158" is created and owns "3".) *)
Lemma C5_counterexample :
  present (bare_rain_item !! "battery") = true
  /\ present (bare_rain_item !! "ws90_ver") = true
  /\ (sensor_mapper (fst (ws90_cycle bare_live)) = empty_mapper
      /\ hardware_id <$> returned_reading (snd (ws90_cycle bare_live)) "sensor.ecowitt_3"
         = Some None)
  /\ (ODict.keys (_sensor_info (sensor_mapper (fst (ws90_cycle ws90_live)))) = ["D158"]
      /\ hardware_id <$> returned_reading (snd (ws90_cycle ws90_live)) "sensor.ecowitt_3_d158"
         = Some (Some "D158")).
Proof. repeat split; vm_compute; reflexivity. Qed.

(** C5, amended.  If the rain section holds an item that has an id and a
    value and a non-empty battery and WS90 version, and the sections are read
    without an exception, then the cycle detects a WS90 and
    [_handle_ws90_device] writes one unit to the mapper: under the hardware
    id of the first unit whose model names a WH90 if there is one (and that
    id is not empty), else under "D" followed by the last three characters of
    the version.  The other units are untouched and at most one key is added.
    For "3" and "5", when they are in the WS90 table and not in the gateway
    table and [get_hardware_id] is the lookup of the wire-key mapping, that
    unit's id is what they resolve to in the same cycle, and what the stored
    reading carries; without a WS90 they belong to the gateway. *)
Theorem C5_ws90_unit {float : Type} `{!PyFloatOps float}
    (C : Const) (ops : MapperOps) (isoformat : Z -> string)
    (raw : RawData) (items : list Item) (md : option Ws90Metadata)
    (m : SensorMapper) (key : string) :
  (exists item, item ∈ piezoRain raw /\ announces_ws90 item) ->
  collect_sensor_items raw = Ok (items, md) ->
  find_wh90 (_sensor_info m) <> Some "" ->
  key ∈ dynamic_sensors -> key ∈ WS90_HEX_SENSORS C -> key ∉ GATEWAY_SENSORS C ->
  (forall m' k, get_hardware_id ops m' k = Ok (_hardware_mapping m' !! k)) ->
  exists md0,
    md = Some md0
    /\ let hid := ws90_hardware_id m md0 in
       let m' := _handle_ws90_device m md0 in
       hid <> ""
       /\ ODict.get hid (_sensor_info m') = Some (ws90_info hid md0)
       /\ (forall k, k <> hid ->
             ODict.get k (_sensor_info m') = ODict.get k (_sensor_info m))
       /\ ODict.keys (_sensor_info m')
          = (if bool_decide (hid ∈ ODict.keys (_sensor_info m))
             then ODict.keys (_sensor_info m)
             else ODict.keys (_sensor_info m) ++ [hid])
       /\ resolve C ops m' key (bool_decide (md <> None)) = Ok (Some hid)
       /\ resolve C ops m key false = Ok None
       /\ (forall inc now sd item sd',
             get_or_empty item "id" = key -> processed inc item ->
             process_item (float := float) C ops isoformat m' inc
               (bool_decide (md <> None)) now sd item = Ok sd' ->
             exists r, ODict.get (entity_id r) sd' = Some r
               /\ sensor_key r = key /\ hardware_id r = Some hid).
Proof.
  intros Hitem Hcollect Hfind Hdyn Hws Hgw Hlookup.
  destruct (collect_detects raw items md Hcollect Hitem) as [md0 ->].
  exists md0. split; [reflexivity|]. cbv zeta.
  destruct (handle_ws90_device m md0 Hfind) as (H1 & H2 & H3 & H4 & H5 & _).
  destruct (is_gateway_dynamic C key Hdyn) as [Hgate Hunit].
  assert (Hres : resolve C ops (_handle_ws90_device m md0) key
                   (bool_decide (Some md0 <> None))
                 = Ok (Some (ws90_hardware_id m md0))).
  { unfold resolve. rewrite bool_decide_eq_true_2 by discriminate.
    rewrite (Hunit Hws Hgw), Hlookup. f_equal. apply H5.
    unfold dynamic_sensors in Hdyn. unfold hex_id_sensors.
    apply elem_of_cons in Hdyn as [->|Hdyn];
      [|apply list_elem_of_singleton in Hdyn as ->];
      apply list_elem_of_In; simpl; tauto. }
  repeat (split; [assumption|]). split; [unfold resolve; now rewrite Hgate|].
  intros inc now sd item sd' Hkey Hp E.
  destruct (process_item_returned C ops isoformat _ inc _ now sd item sd' Hp E)
    as (r & -> & Hk & _ & Hr & _).
  exists r. split; [apply get_set_eq|]. split; [congruence|].
  rewrite Hkey, Hres in Hr. congruence.
Qed.

Lemma C5_witness :
  snd <$> collect_sensor_items ws90_live = Ok (Some ws90_example_metadata)
  /\ ws90_hardware_id empty_mapper ws90_example_metadata = "D158"
  /\ ODict.keys (_sensor_info (_handle_ws90_device empty_mapper ws90_example_metadata))
     = ["D158"]
  /\ resolve example_const example_mapper
       (_handle_ws90_device empty_mapper ws90_example_metadata) "3" true
     = Ok (Some "D158")
  /\ resolve example_const example_mapper
       (_handle_ws90_device empty_mapper ws90_example_metadata) "5" true
     = Ok (Some "D158").
Proof.
  assert (Hitem : exists item, item ∈ piezoRain ws90_live /\ announces_ws90 item).
  { exists ws90_rain_item. split; [apply elem_of_cons; now left|].
    repeat split; try reflexivity; eexists; reflexivity. }
  assert (Hfind : find_wh90 (_sensor_info empty_mapper) <> Some "") by discriminate.
  assert (Hws : forall key, key ∈ dynamic_sensors -> key ∈ WS90_HEX_SENSORS example_const).
  { intros key Hin. unfold dynamic_sensors in Hin.
    apply elem_of_cons in Hin as [->|Hin]; [|apply list_elem_of_singleton in Hin as ->];
      apply (bool_decide_eq_true_1 _); vm_compute; reflexivity. }
  assert (Hgw : forall key, key ∈ dynamic_sensors -> key ∉ GATEWAY_SENSORS example_const).
  { intros key Hin. unfold dynamic_sensors in Hin.
    apply elem_of_cons in Hin as [->|Hin]; [|apply list_elem_of_singleton in Hin as ->];
      apply (bool_decide_eq_false_1 _); vm_compute; reflexivity. }
  assert (H3 : "3" ∈ dynamic_sensors) by (apply elem_of_cons; now left).
  assert (H5 : "5" ∈ dynamic_sensors)
    by (apply elem_of_cons; right; apply elem_of_cons; now left).
  assert (Ecollect : collect_sensor_items ws90_live
                     = Ok ([reading "0x02" "70.5"; reading "3" "68.0";
                            reading "0x0D" "0.00 in"; reading "ws90batt" "100"],
                           Some ws90_example_metadata))
    by (vm_compute; reflexivity).
  destruct (C5_ws90_unit (float := float_literal) example_const example_mapper
              example_isoformat ws90_live _ _ empty_mapper "3"
              Hitem Ecollect Hfind H3 (Hws _ H3) (Hgw _ H3) (fun _ _ => eq_refl))
    as (md0 & Emd & _ & _ & _ & Hkeys & Hres3 & _).
  destruct (C5_ws90_unit (float := float_literal) example_const example_mapper
              example_isoformat ws90_live _ _ empty_mapper "5"
              Hitem Ecollect Hfind H5 (Hws _ H5) (Hgw _ H5) (fun _ _ => eq_refl))
    as (md1 & Emd1 & _ & _ & _ & _ & Hres5 & _).
  assert (md0 = ws90_example_metadata) as -> by congruence.
  assert (md1 = ws90_example_metadata) as -> by congruence.
  rewrite bool_decide_eq_true_2 in Hres3, Hres5 by discriminate.
  split; [now rewrite Ecollect|]. split; [reflexivity|].
  split; [exact Hkeys|]. split; assumption.
Defined.

(** * Further properties of the coordinator *)

(** ** Trimming *)

Lemma lstrip_head s :
  match lstrip s with
  | EmptyString => True
  | String c _ => isspace_c c = false
  end.
Proof.
  induction s as [|c s IH]; simpl; [exact I|].
  destruct (isspace_c c) eqn:E; [exact IH|exact E].
Qed.

Lemma rstrip_rstrip s : rstrip (rstrip s) = rstrip s.
Proof.
  induction s as [|c s IH]; simpl; [reflexivity|].
  destruct (rstrip s) as [|c' r] eqn:E.
  - destruct (isspace_c c) eqn:Ec; simpl; [reflexivity|]. now rewrite Ec.
  - change (rstrip (String c (String c' r)))
      with (match rstrip (String c' r) with
            | EmptyString => if isspace_c c then EmptyString else String c EmptyString
            | String a b => String c (String a b)
            end).
    now rewrite IH.
Qed.

Lemma lstrip_rstrip_head s :
  match s with EmptyString => True | String c _ => isspace_c c = false end ->
  lstrip (rstrip s) = rstrip s.
Proof.
  destruct s as [|c s]; [reflexivity|]. intros Hc. simpl.
  destruct (rstrip s); rewrite ?Hc; simpl; now rewrite Hc.
Qed.

Lemma strip_strip s : strip (strip s) = strip s.
Proof.
  unfold strip. rewrite (lstrip_rstrip_head (lstrip s) (lstrip_head s)).
  apply rstrip_rstrip.
Qed.

(** X1.  White space around a raw string never changes what the value
    normalizer reads, and neither does the unit passed to it. *)
Theorem normalizer_ignores_padding {float : Type} `{!PyFloatOps float}
    (s : string) (unit unit' : option string) :
  _convert_sensor_value (float := float) (PyStr s) unit
  = _convert_sensor_value (PyStr (strip s)) unit'.
Proof.
  rewrite !convert_string, strip_strip.
  destruct (is_empty (strip s)) eqn:Es.
  - apply is_empty_true in Es. rewrite Es. now rewrite orb_true_r.
  - assert (is_empty s = false) as ->; [|reflexivity].
    destruct s; [discriminate Es|reflexivity].
Qed.

(** ** Printing and reading integers *)

Lemma uint_text_decimal u : forallb isdecimal_c (NilEmpty.string_of_uint u) = true.
Proof. induction u; [reflexivity|..]; exact IHu. Qed.

Lemma uint_text_value u acc :
  digits_value_from (Npos acc) (NilEmpty.string_of_uint u) = Npos (Pos.of_uint_acc u acc).
Proof.
  revert acc. induction u; intros acc; [reflexivity|..];
    cbn [NilEmpty.string_of_uint digits_value_from Pos.of_uint_acc];
    rewrite <- IHu; f_equal; vm_compute digit_val; lia.
Qed.

Lemma uint_text_value0 u :
  digits_value_from 0 (NilEmpty.string_of_uint u) = Pos.of_uint u.
Proof.
  induction u; [reflexivity|exact IHu|..];
    cbn [NilEmpty.string_of_uint digits_value_from Pos.of_uint];
    rewrite <- uint_text_value; f_equal.
Qed.

(** [str(n)] of a natural number is a non-empty string of decimal digits
    that denotes [n]. *)
Lemma of_Z_digits (n : N) :
  digits (of_Z (Z.of_N n)) /\ digits_value (of_Z (Z.of_N n)) = n.
Proof.
  destruct n as [|p]; [repeat split; reflexivity || discriminate|].
  unfold of_Z. change (Z.to_int (Z.of_N (Npos p))) with (Decimal.Pos (Pos.to_uint p)).
  cbn [NilZero.string_of_int].
  assert (Hnn : Pos.to_uint p <> Decimal.Nil).
  { intros E. pose proof (DecimalPos.Unsigned.of_to p) as H. rewrite E in H. discriminate H. }
  assert (Htext : NilZero.string_of_uint (Pos.to_uint p)
                  = NilEmpty.string_of_uint (Pos.to_uint p)).
  { unfold NilZero.string_of_uint. destruct (Pos.to_uint p); congruence. }
  rewrite Htext. split; [split|].
  - destruct (Pos.to_uint p); [congruence|..]; discriminate.
  - apply uint_text_decimal.
  - unfold digits_value. rewrite uint_text_value0. apply DecimalPos.Unsigned.of_to.
Qed.

(** [int(str(n)) == n] *)
Lemma py_int_of_Z (n : N) : py_int (of_Z (Z.of_N n)) = Ok (Z.of_N n).
Proof.
  destruct (of_Z_digits n) as [Hd Hv].
  pose proof (py_int_digits false "" _ (or_introl (conj eq_refl eq_refl)) Hd) as H.
  change ("" +:+ of_Z (Z.of_N n)) with (of_Z (Z.of_N n)) in H.
  rewrite H, Hv. reflexivity.
Qed.

(** ** Battery levels through the section extraction and the loop *)

(** X2.  A battery level made of digits, as the soil, aisle and rain sections
    carry it, is turned into the percentage [level * 20] when the section is
    read, and the loop does not scale it again: under a key of the battery
    table the reading's state is the text of that percentage, under any
    other key it is the percentage as an integer. *)
Theorem battery_level_scaled_once {float : Type} `{!PyFloatOps float}
    (C : Const) (key battery : string) :
  digits battery ->
  let level := Z.of_N (digits_value battery) in
  battery_pct battery = Ok (of_Z (level * 20))
  /\ converted (float := float) C key (of_Z (level * 20))
     = Ok (if is_battery C key then PyStr (of_Z (level * 20)) else PyInt (level * 20)).
Proof.
  intros Hd level. split.
  - unfold battery_pct.
    destruct (andb_prop _ _ (digits_isdigit _ Hd)) as [_ ->].
    pose proof (py_int_digits false "" battery (or_introl (conj eq_refl eq_refl)) Hd) as Hi.
    change ("" +:+ battery) with battery in Hi. now rewrite Hi.
  - assert (Hpct : (level * 20)%Z = Z.of_N (digits_value battery * 20)) by (unfold level; lia).
    rewrite Hpct. destruct (of_Z_digits (digits_value battery * 20)) as [Hdp Hvp].
    destruct (is_battery C key) eqn:Eb.
    + rewrite (converted_battery_digits C key _ Eb Hdp), Hvp.
      destruct (Z.of_N (digits_value battery * 20) <=? 5)%Z eqn:El; [|reflexivity].
      apply Z.leb_le in El.
      assert (digits_value battery = 0%N) as -> by lia. reflexivity.
    + unfold converted. rewrite Eb. simpl andb.
      set (pct := of_Z (Z.of_N (digits_value battery * 20))) in *.
      rewrite (convert_int_with_unit pct (Some (unit_of C key)) false "" pct "" "");
        [now rewrite Hvp| |now left|exact Hdp|reflexivity|exact I].
      rewrite strip_no_space by (apply decimal_no_space, Hdp).
      simpl. now rewrite !app_empty_r.
Qed.

Lemma battery_level_scaled_once_witness :
  battery_pct "3" = Ok "60"
  /\ converted (float := float_literal) example_const "soilbatt1" "60" = Ok (PyStr "60")
  /\ converted (float := float_literal) example_const "batt3" "60" = Ok (PyInt 60).
Proof.
  assert (Hd : digits "3") by (split; [discriminate|reflexivity]).
  destruct (battery_level_scaled_once (float := float_literal) example_const "soilbatt1" "3" Hd)
    as [H1 H2].
  destruct (battery_level_scaled_once (float := float_literal) example_const "batt3" "3" Hd)
    as [_ H3].
  split; [exact H1|]. split; [exact H2|exact H3].
Defined.

(** ** Who owns a reading *)

Lemma is_gateway_sensor_false (C : Const) key ws :
  _is_gateway_sensor C key ws = false <->
  ws = true /\ key ∈ WS90_HEX_SENSORS C /\ key ∉ GATEWAY_SENSORS C.
Proof.
  unfold _is_gateway_sensor.
  case_bool_decide as Hg; [split; [discriminate|tauto]|].
  destruct ws; simpl.
  - rewrite andb_false_r. case_bool_decide as Hw; simpl; [tauto|].
    split; [discriminate|tauto].
  - destruct (bool_decide (key ∈ dynamic_sensors)); simpl.
    + split; [discriminate|intros [? _]; discriminate].
    + rewrite andb_false_r. split; [discriminate|intros [? _]; discriminate].
Qed.

(** The mapper's lookups are consulted for the keys of the WS90 table in a
    cycle that detected a WS90, and for no other. *)
Definition gateway_owned (C : Const) (key : string) (ws90_present : bool) : Prop :=
  ws90_present = false \/ key ∉ WS90_HEX_SENSORS C \/ key ∈ GATEWAY_SENSORS C.

Lemma gateway_owned_spec C key ws :
  gateway_owned C key ws <-> _is_gateway_sensor C key ws = true.
Proof.
  unfold gateway_owned. destruct (_is_gateway_sensor C key ws) eqn:E.
  - split; [auto|intros _].
    destruct ws; [|now left]. right.
    destruct (decide (key ∈ WS90_HEX_SENSORS C)) as [Hw|]; [|now left].
    destruct (decide (key ∈ GATEWAY_SENSORS C)) as [|Hg]; [now right|].
    assert (_is_gateway_sensor C key true = false) by now apply is_gateway_sensor_false.
    congruence.
  - apply is_gateway_sensor_false in E as (-> & Hw & Hg).
    split; [intros [?|[?|?]]; [discriminate|tauto|tauto]|discriminate].
Qed.

(** X3.  Outside a cycle that detected a WS90, and for every key that is not
    in the WS90 table (or is in the gateway table), the loop never asks the
    mapper who owns the key: whatever [get_hardware_id] and [get_sensor_info]
    would answer, the reading is stored without a hardware id and without
    unit attributes. *)
Theorem gateway_owned_reading {float : Type} `{!PyFloatOps float}
    (C : Const) (ops ops' : MapperOps) (isoformat : Z -> string)
    (m : SensorMapper) (inc ws : bool) (now : Z) (sd : odict SensorData) (item : Item) :
  processed inc item ->
  gateway_owned C (get_or_empty item "id") ws ->
  generate_entity_id ops' = generate_entity_id ops ->
  process_item (float := float) C ops' isoformat m inc ws now sd item
  = process_item C ops isoformat m inc ws now sd item
  /\ (forall sd', process_item (float := float) C ops isoformat m inc ws now sd item = Ok sd' ->
      exists r, sd' = ODict.set (entity_id r) r sd
        /\ sensor_key r = get_or_empty item "id"
        /\ hardware_id r = None
        /\ attributes r
           = {[ "sensor_key" := get_or_empty item "id"; "last_update" := isoformat now ]}).
Proof.
  intros Hp Hg Hgen. apply gateway_owned_spec in Hg.
  rewrite !(process_item_steps _ _ isoformat) by assumption. cbv zeta.
  unfold resolve. rewrite Hg, Hgen. simpl. split; [reflexivity|].
  intros sd' E.
  destruct (generate_entity_id ops m (get_or_empty item "id") None) as [names|];
    simpl in E; [|discriminate].
  destruct (converted C (get_or_empty item "id") (get_or_empty item "val")) as [v|];
    simpl in E; [|discriminate].
  injection E as <-.
  match goal with |- context [ODict.set _ ?x sd] => exists x end.
  simpl. repeat split; reflexivity.
Qed.

Lemma gateway_owned_reading_witness :
  exists r,
    process_item (float := float_literal) example_const example_mapper example_isoformat
      paired_mapper false false 1000 [] (reading "soilmoisture1" "41")
    = Ok (ODict.set (entity_id r) r [])
    /\ _hardware_mapping paired_mapper !! "soilmoisture1" = Some "A1B2"
    /\ hardware_id r = None.
Proof.
  assert (Hp : processed false (reading "soilmoisture1" "41")).
  { split; [discriminate|left; discriminate]. }
  destruct (proj2 (gateway_owned_reading (float := float_literal) example_const example_mapper
              example_mapper example_isoformat paired_mapper false false 1000 []
              (reading "soilmoisture1" "41") Hp (or_introl eq_refl) eq_refl)
              _ eq_refl) as (r & E & _ & Hh & _).
  exists r. split; [|split; [reflexivity|exact Hh]].
  rewrite <- E. reflexivity.
Defined.

(** ** Detection of the WS90 unit in the rain section *)

#[local] Instance announces_ws90_dec (item : Item) : Decision (announces_ws90 item).
Proof. unfold announces_ws90. apply _. Defined.

(** The metadata the loop over the rain section records for an item that
    announces a WS90. *)
Definition ws90_metadata_of (item : Item) : Ws90Metadata :=
  {| ws90_battery := default "" (item !! "battery");
     ws90_voltage := item !! "voltage";
     ws90_cap_volt := item !! "ws90cap_volt";
     ws90_ver := default "" (item !! "ws90_ver") |}.

Lemma piezo_item_metadata item added md :
  piezo_item item = Ok (added, md) ->
  md = if decide (announces_ws90 item) then Some (ws90_metadata_of item) else None.
Proof.
  unfold piezo_item, announces_ws90_dec, announces_ws90. intros E.
  destruct (item !! "id") as [id|] eqn:Eid.
  2:{ injection E as _ <-. rewrite decide_False; [reflexivity|].
      intros ([x Hx] & _). discriminate. }
  destruct (item !! "val") as [val|] eqn:Eval.
  2:{ injection E as _ <-. rewrite decide_False; [reflexivity|].
      intros (_ & [x Hx] & _). discriminate. }
  destruct (present (item !! "battery") && present (item !! "ws90_ver")) eqn:Ep.
  - apply andb_prop in Ep as [Hb Hv].
    destruct (battery_pct (default "" (item !! "battery"))); simpl in E; [|discriminate].
    injection E as _ <-. rewrite decide_True; [reflexivity|].
    repeat split; eauto.
  - injection E as _ <-. rewrite decide_False; [reflexivity|].
    intros (_ & _ & Hb & Hv). rewrite Hb, Hv in Ep. discriminate.
Qed.

Lemma piezo_items_metadata rain acc its md :
  piezo_items rain acc = Ok (its, md) ->
  md = match last (ws90_metadata_of <$> filter announces_ws90 rain) with
       | Some found => Some found
       | None => acc
       end.
Proof.
  revert acc its md. induction rain as [|item rain IH]; intros acc its md E; simpl in E.
  - injection E as _ <-. reflexivity.
  - destruct (piezo_item item) as [[added md1]|] eqn:E1; simpl in E; [|discriminate].
    destruct (piezo_items rain (match md1 with Some _ => md1 | None => acc end))
      as [[more md2]|] eqn:E2; simpl in E; [|discriminate].
    injection E as _ <-. apply IH in E2. apply piezo_item_metadata in E1.
    rewrite filter_cons. destruct (decide (announces_ws90 item)) as [Ha|Hn].
    + rewrite fmap_cons, last_cons. subst md1.
      destruct (last (ws90_metadata_of <$> filter announces_ws90 rain)); assumption.
    + subst md1. exact E2.
Qed.

Lemma collect_metadata (raw : RawData) (items : list Item) (md : option Ws90Metadata) :
  collect_sensor_items raw = Ok (items, md) ->
  md = last (ws90_metadata_of <$> filter announces_ws90 (piezoRain raw)).
Proof.
  intros E. unfold collect_sensor_items in E.
  destruct (concat_items soil_items (ch_soil raw)); simpl in E; [|discriminate].
  destruct (piezo_items (piezoRain raw) None) as [[rain md']|] eqn:Ep; simpl in E;
    [|discriminate].
  destruct (concat_items aisle_items (ch_aisle raw)); simpl in E; [|discriminate].
  injection E as _ <-. apply piezo_items_metadata in Ep.
  rewrite Ep. now destruct (last _).
Qed.

(** X4.  When the sections are read without an exception, the WS90 metadata
    of the cycle is that of the last item of the rain section which has an
    id, a value and a non-empty battery and version; a WS90 is detected
    exactly when there is such an item. *)
Theorem ws90_detected_by_last_item (raw : RawData) (items : list Item)
    (md : option Ws90Metadata) :
  collect_sensor_items raw = Ok (items, md) ->
  md = last (ws90_metadata_of <$> filter announces_ws90 (piezoRain raw))
  /\ (is_Some md <-> exists item, item ∈ piezoRain raw /\ announces_ws90 item).
Proof.
  intros E. pose proof (collect_metadata raw items md E) as Hmd.
  split; [exact Hmd|]. rewrite Hmd, fmap_last, fmap_is_Some. split.
  - intros [item Hl]. exists item. apply last_Some_elem_of in Hl.
    now apply list_elem_of_filter in Hl as [? ?].
  - intros (item & Hin & Ha).
    assert (Hf : item ∈ filter announces_ws90 (piezoRain raw))
      by (apply list_elem_of_filter; auto).
    destruct (filter announces_ws90 (piezoRain raw)) as [|x l] eqn:El using rev_ind.
    + now apply elem_of_nil in Hf.
    + rewrite last_snoc. eauto.
Qed.

(** A rain section with two items that announce a WS90, and two that do
    not. *)
Definition two_versions_live : RawData :=
  {| common_list := []; ch_soil := []; wh25 := [];
     piezoRain := [ {[ "id" := "0x0D"; "val" := "0.00 in";
                       "battery" := "5"; "ws90_ver" := "158" ]};
                    {[ "id" := "0x0E"; "val" := "0.10 in" ]};
                    {[ "id" := "0x7C"; "val" := "0.20 in";
                       "battery" := "4"; "ws90_ver" := "160" ]};
                    {[ "battery" := "3"; "ws90_ver" := "161" ]} ];
     ch_aisle := [] |}.

Lemma ws90_detected_by_last_item_witness :
  match collect_sensor_items two_versions_live with
  | Ok (_, md) =>
      md = Some {| ws90_battery := "4"; ws90_voltage := None; ws90_cap_volt := None;
                   ws90_ver := "160" |}
  | Raise _ => False
  end.
Proof.
  assert (H : match collect_sensor_items two_versions_live with
              | Ok _ => True
              | Raise _ => False
              end) by (vm_compute; exact I).
  destruct (collect_sensor_items two_versions_live) as [[items md]|] eqn:E; [|exact H].
  rewrite (proj1 (ws90_detected_by_last_item two_versions_live items md E)).
  vm_compute. reflexivity.
Defined.

(** ** The readings of a returned cycle *)

Lemma Forall_set {V} (P : string * V -> Prop) k v (d : odict V) :
  Forall P d -> P (k, v) -> Forall P (ODict.set k v d).
Proof.
  intros Hd Hv. induction Hd as [|[k0 v0] d H0 Hd IH]; simpl.
  - now constructor.
  - destruct (String.eqb_spec k0 k) as [->|Hne]; constructor; auto.
Qed.

Section CycleReadings.
Context {float : Type} `{!PyFloatOps float}.
Variable C : Const.
Variable ops : MapperOps.
Variable api : Api.
Variable isoformat : Z -> string.

(** The loop body either leaves the dictionary as it is, or stores one
    reading under the reading's own entity id. *)
Lemma process_item_outcome m inc ws now sd item sd' :
  process_item (float := float) C ops isoformat m inc ws now sd item = Ok sd' ->
  (sd' = sd /\ ~ processed inc item)
  \/ (processed inc item
      /\ exists r, sd' = ODict.set (entity_id r) r sd
           /\ sensor_key r = get_or_empty item "id"
           /\ raw_value r = get_or_empty item "val"
           /\ resolve C ops m (get_or_empty item "id") ws = Ok (hardware_id r)
           /\ category r = category_of C (get_or_empty item "id")
           /\ converted C (get_or_empty item "id") (get_or_empty item "val") = Ok (state r)).
Proof.
  intros E. destruct (classic_processed inc item) as [Hp|Hn].
  - right. split; [assumption|].
    destruct (process_item_returned C ops isoformat m inc ws now sd item sd' Hp E)
      as (r & H1 & H2 & H3 & H4 & H5 & H6).
    exists r. tauto.
  - left. rewrite process_item_skipped in E by assumption. split; congruence.
Qed.

Lemma process_items_Forall (P : string * SensorData (float := float) -> Prop) m inc ws now :
  (forall item r,
     processed inc item ->
     sensor_key r = get_or_empty item "id" ->
     raw_value r = get_or_empty item "val" ->
     resolve C ops m (get_or_empty item "id") ws = Ok (hardware_id r) ->
     category r = category_of C (get_or_empty item "id") ->
     converted C (get_or_empty item "id") (get_or_empty item "val") = Ok (state r) ->
     P (entity_id r, r)) ->
  forall items sd sd',
    Forall P sd ->
    process_items C ops isoformat m inc ws now sd items = Ok sd' ->
    Forall P sd'.
Proof.
  intros HP. induction items as [|item items IH]; intros sd sd' Hsd E; simpl in E.
  - congruence.
  - destruct (process_item C ops isoformat m inc ws now sd item) as [sd1|] eqn:E1;
      simpl in E; [|discriminate].
    apply (IH sd1 sd'); [|exact E].
    apply process_item_outcome in E1
      as [[-> _]|(Hp & r & -> & H1 & H2 & H3 & H4 & H5)]; [assumption|].
    apply Forall_set; eauto.
Qed.

Lemma process_items_NoDup m inc ws now items :
  forall sd sd',
    NoDup (ODict.keys sd) ->
    process_items (float := float) C ops isoformat m inc ws now sd items = Ok sd' ->
    NoDup (ODict.keys sd').
Proof.
  induction items as [|item items IH]; intros sd sd' Hsd E; simpl in E.
  - congruence.
  - destruct (process_item C ops isoformat m inc ws now sd item) as [sd1|] eqn:E1;
      simpl in E; [|discriminate].
    apply (IH sd1 sd'); [|exact E].
    apply process_item_outcome in E1 as [[-> _]|(_ & r & -> & _)]; [assumption|].
    now apply keys_set_NoDup.
Qed.

Lemma diag_insert_Forall (P : string * SensorData (float := float) -> Prop) now h info pct sd :
  (forall signal p, P (signal_entity_id h, signal_sensor isoformat h signal p now)) ->
  P (hardware_id_entity_id h, hardware_id_sensor isoformat h now) ->
  (forall channel, P (channel_entity_id h, channel_sensor isoformat h channel now)) ->
  Forall P sd -> Forall P (diag_insert isoformat now h info pct sd).
Proof.
  intros Hs Hh Hc Hsd. unfold diag_insert.
  apply Forall_set; [|apply Hc]. apply Forall_set; [|apply Hh].
  destruct pct; [|assumption]. apply Forall_set; [assumption|apply Hs].
Qed.

Lemma diag_loop_Forall (P : string * SensorData (float := float) -> Prop) m now :
  (forall h signal p, P (signal_entity_id h, signal_sensor isoformat h signal p now)) ->
  (forall h, P (hardware_id_entity_id h, hardware_id_sensor isoformat h now)) ->
  (forall h channel, P (channel_entity_id h, channel_sensor isoformat h channel now)) ->
  forall xs acc acc',
    Forall P acc.1 ->
    add_diagnostics_loop ops isoformat m now acc xs = Ok acc' ->
    Forall P acc'.1.
Proof.
  intros Hs Hh Hc. induction xs as [|x xs IH]; intros acc acc' Hacc E; simpl in E.
  - now injection E as <-.
  - destruct (add_diagnostics ops isoformat m now acc x) as [acc1|] eqn:E1;
      simpl in E; [|discriminate].
    apply (IH acc1 acc'); [|exact E]. destruct acc as [sd added].
    apply add_diagnostics_step in E1 as [[-> _]|(h & info & pct & _ & _ & _ & _ & ->)];
      [assumption|].
    simpl. apply diag_insert_Forall; auto.
Qed.

Lemma diag_loop_inv m now sd0 xs :
  forall seen acc acc',
    diag_inv ops isoformat m now sd0 seen acc ->
    add_diagnostics_loop (float := float) ops isoformat m now acc xs = Ok acc' ->
    diag_inv ops isoformat m now sd0 (seen ++ xs) acc'.
Proof.
  induction xs as [|x xs IH]; intros seen acc acc' Hinv E; simpl in E.
  - injection E as <-. now rewrite app_nil_r.
  - destruct (add_diagnostics ops isoformat m now acc x) as [acc1|] eqn:E1;
      simpl in E; [|discriminate].
    pose proof (IH (seen ++ [x]) acc1 acc' (diag_inv_step _ _ _ _ _ _ _ _ _ Hinv E1) E) as H.
    now rewrite <- app_assoc in H.
Qed.

(** What a cycle that returned went through. *)
Lemma cycle_returned c now d :
  snd (_async_update_data (float := float) C ops api isoformat c now) = Returned d ->
  exists raw items md sd,
    get_live_data api (length (api_calls (_update_sensor_mapping_if_needed ops api c now)))
    = Ok raw
    /\ collect_sensor_items raw = Ok (items, md)
    /\ process_items C ops isoformat (cycle_mapper ops api c now md) (_include_inactive c)
         (bool_decide (md <> None)) now [] items = Ok sd
    /\ _add_diagnostic_and_signal_sensors ops isoformat (cycle_mapper ops api c now md) now sd
       = Ok (sensors d)
    /\ last_update d = now.
Proof.
  unfold _async_update_data, cycle_mapper.
  rewrite <- (refresh_if_needed_keeps_include_inactive ops api c now).
  set (c1 := _update_sensor_mapping_if_needed ops api c now).
  destruct (get_live_data api (length (api_calls c1))) as [raw|e] eqn:El.
  2:{ destruct e; discriminate. }
  unfold _process_live_data.
  destruct (collect_sensor_items raw) as [[items md]|e] eqn:Ec.
  2:{ destruct e; discriminate. }
  intros E. exists raw, items, md.
  destruct md as [md0|]; cbn [sensor_mapper set_sensor_mapper record_call _include_inactive] in E.
  - destruct (process_items C ops isoformat (_handle_ws90_device (sensor_mapper c1) md0)
                (_include_inactive c1) (bool_decide (Some md0 <> None)) now [] items)
      as [sd|e] eqn:Ep; [|simpl in E; destruct e; discriminate].
    exists sd. cbn [mbind result_bind] in E.
    destruct (_add_diagnostic_and_signal_sensors ops isoformat
                (_handle_ws90_device (sensor_mapper c1) md0) now sd)
      as [out|e] eqn:Ed; [|destruct e; discriminate].
    destruct (_process_gateway_info api _) as [c2 info]. simpl in E.
    injection E as <-. simpl. auto.
  - destruct (process_items C ops isoformat (sensor_mapper c1)
                (_include_inactive c1) (bool_decide (None <> None)) now [] items)
      as [sd|e] eqn:Ep; [|simpl in E; destruct e; discriminate].
    exists sd. cbn [mbind result_bind] in E.
    destruct (_add_diagnostic_and_signal_sensors ops isoformat (sensor_mapper c1) now sd)
      as [out|e] eqn:Ed; [|destruct e; discriminate].
    destruct (_process_gateway_info api _) as [c2 info]. simpl in E.
    injection E as <-. simpl. auto.
Qed.

End CycleReadings.

Lemma get_Forall {V} (P : string * V -> Prop) (d : odict V) k v :
  Forall P d -> ODict.get k d = Some v -> P (k, v).
Proof.
  intros Hd. induction Hd as [|[k0 v0] d H0 Hd IH]; simpl; [discriminate|].
  destruct (String.eqb_spec k0 k) as [->|Hne]; [|exact IH].
  now intros [= <-].
Qed.

Lemma category_of_known C key :
  category_of C key ∈ ["sensor"; "system"; "diagnostic"].
Proof.
  unfold category_of. rewrite !elem_of_cons.
  destruct (is_battery C key); [auto|]. destruct (is_system C key); auto.
Qed.

(** What holds of every entry of the data a cycle returns. *)
Definition wellformed_entry {float : Type} (e : string * SensorData (float := float))
  : Prop :=
  entity_id e.2 = e.1 /\ category e.2 ∈ ["sensor"; "system"; "diagnostic"].

Lemma cycle_readings_inv {float : Type} `{!PyFloatOps float}
    (C : Const) (ops : MapperOps) (api : Api) (isoformat : Z -> string)
    (c : Coordinator) (now : Z) (d : ProcessedData) :
  snd (_async_update_data (float := float) C ops api isoformat c now) = Returned d ->
  NoDup (ODict.keys (sensors d)) /\ Forall wellformed_entry (sensors d).
Proof.
  intros E.
  destruct (cycle_returned C ops api isoformat c now d E)
    as (raw & items & md & sd & _ & _ & Hloop & Hdiag & _).
  unfold _add_diagnostic_and_signal_sensors in Hdiag.
  destruct (add_diagnostics_loop ops isoformat (cycle_mapper ops api c now md) now
              (sd, ∅) (ODict.values sd)) as [[out added]|] eqn:El; [|discriminate].
  injection Hdiag as Hout. simpl in Hout. subst out. split.
  - assert (Hn : NoDup (ODict.keys sd)).
    { eapply process_items_NoDup; [|exact Hloop]. apply NoDup_nil_2. }
    pose proof (diag_loop_inv ops isoformat _ now sd (ODict.values sd) [] (sd, ∅) _
                  (diag_inv_init ops isoformat _ now sd) El) as [_ _ _ Hnd _].
    exact (Hnd Hn).
  - assert (Hsd : Forall wellformed_entry sd).
    { refine (process_items_Forall C ops isoformat wellformed_entry _ _ _ _ _ items [] sd
                (Forall_nil_2 _) Hloop).
      intros item r _ _ _ _ Hc _. split; [reflexivity|]. simpl. rewrite Hc.
      apply category_of_known. }
    refine (diag_loop_Forall ops isoformat wellformed_entry _ now _ _ _ (ODict.values sd)
              (sd, ∅) (sensors d, added) Hsd El);
      intros; (split; [reflexivity|]); simpl; rewrite !elem_of_cons; auto.
Qed.

(** X5.  In the data a cycle returns, the entity ids are pairwise distinct,
    every reading is stored under its own entity id, and its category is
    "sensor", "system" or "diagnostic": the category "battery" is never
    produced. *)
Theorem cycle_readings_wellformed {float : Type} `{!PyFloatOps float}
    (C : Const) (ops : MapperOps) (api : Api) (isoformat : Z -> string)
    (c : Coordinator) (now : Z) (d : ProcessedData) :
  snd (_async_update_data (float := float) C ops api isoformat c now) = Returned d ->
  NoDup (ODict.keys (sensors d))
  /\ (forall k r, ODict.get k (sensors d) = Some r ->
        entity_id r = k /\ category r ∈ ["sensor"; "system"; "diagnostic"]).
Proof.
  intros E. destruct (cycle_readings_inv C ops api isoformat c now d E) as [Hn Hall].
  split; [exact Hn|]. intros k r Hget. exact (get_Forall wellformed_entry _ k r Hall Hget).
Qed.

Lemma cycle_readings_wellformed_witness :
  exists d,
    snd (_async_update_data (float := float_literal) example_const example_mapper
           (offline_api (common_only [reading "soilmoisture1" "41"; reading "soilbatt1" "4";
                                      reading "soilmoisture1" "42"]))
           example_isoformat paired_coordinator 1000) = Returned d
    /\ NoDup (ODict.keys (sensors d))
    /\ ODict.keys (sensors d) <> [].
Proof.
  match goal with |- exists d, ?o = _ /\ _ =>
    destruct o as [d| |] eqn:E; [|vm_compute in E; discriminate..]
  end.
  exists d. split; [reflexivity|].
  split; [exact (proj1 (cycle_readings_wellformed _ _ _ _ _ _ d E))|].
  vm_compute in E. injection E as <-. discriminate.
Defined.

(** ** A cycle without a WS90 *)

Lemma add_diagnostics_loop_unowned {float : Type} `{!PyFloatOps float}
    (ops : MapperOps) (isoformat : Z -> string) (m : SensorMapper) (now : Z)
    (xs : list (SensorData (float := float))) acc :
  Forall (fun r => hardware_id r = None) xs ->
  add_diagnostics_loop ops isoformat m now acc xs = Ok acc.
Proof.
  induction 1 as [|x xs Hx _ IH]; simpl; [reflexivity|].
  assert (add_diagnostics ops isoformat m now acc x = Ok acc) as ->; [|exact IH].
  unfold add_diagnostics. destruct acc as [sd added]. now rewrite Hx.
Qed.

(** X6.  When no item of the rain section announces a WS90, a cycle that
    returns gives every reading to the gateway: the mapper is never asked
    for a hardware id, whatever mapping was fetched, no reading carries a
    hardware id, and the diagnostics pass adds nothing to what the loop over
    the readings stored. *)
Theorem cycle_without_ws90 {float : Type} `{!PyFloatOps float}
    (C : Const) (ops : MapperOps) (api : Api) (isoformat : Z -> string)
    (c : Coordinator) (now : Z) (raw : RawData) (d : ProcessedData) :
  let c1 := _update_sensor_mapping_if_needed ops api c now in
  get_live_data api (length (api_calls c1)) = Ok raw ->
  (forall item, item ∈ piezoRain raw -> ~ announces_ws90 item) ->
  snd (_async_update_data (float := float) C ops api isoformat c now) = Returned d ->
  (forall k r, ODict.get k (sensors d) = Some r -> hardware_id r = None)
  /\ exists items,
       collect_sensor_items raw = Ok (items, None)
       /\ process_items C ops isoformat (sensor_mapper c1) (_include_inactive c) false now
            [] items = Ok (sensors d).
Proof.
  intros c1 Hlive Hno E.
  destruct (cycle_returned C ops api isoformat c now d E)
    as (raw' & items & md & sd & Hlive' & Hcollect & Hloop & Hdiag & _).
  fold c1 in Hlive'. assert (raw' = raw) as -> by congruence.
  assert (md = None) as ->.
  { pose proof (collect_metadata raw items md Hcollect) as Hmd.
    destruct md as [md0|]; [|reflexivity]. exfalso. symmetry in Hmd.
    rewrite fmap_last in Hmd. apply fmap_Some in Hmd as (item & Hl & _).
    apply last_Some_elem_of, list_elem_of_filter in Hl as [Ha Hin].
    exact (Hno item Hin Ha). }
  unfold cycle_mapper in Hloop, Hdiag. fold c1 in Hloop, Hdiag.
  rewrite bool_decide_eq_false_2 in Hloop by tauto.
  set (P := fun e : string * SensorData (float := float) => hardware_id e.2 = None).
  assert (Hsd : Forall P sd).
  { refine (process_items_Forall C ops isoformat P _ _ _ _ _ items [] sd
              (Forall_nil_2 _) Hloop).
    intros item r _ _ _ Hr _ _. unfold P. simpl. unfold resolve in Hr.
    rewrite (proj1 (gateway_owned_spec C _ false) (or_introl eq_refl)) in Hr. congruence. }
  unfold _add_diagnostic_and_signal_sensors in Hdiag.
  rewrite add_diagnostics_loop_unowned in Hdiag.
  2:{ clear -Hsd. induction Hsd; simpl; constructor; auto. }
  injection Hdiag as Hout. simpl in Hout. subst sd. split.
  - intros k r Hget. exact (get_Forall P _ k r Hsd Hget).
  - exists items. auto.
Qed.

Lemma cycle_without_ws90_witness :
  exists d,
    snd (_async_update_data (float := float_literal) example_const example_mapper
           (offline_api (common_only [reading "soilmoisture1" "41"]))
           example_isoformat paired_coordinator 1000) = Returned d
    /\ _hardware_mapping paired_mapper !! "soilmoisture1" = Some "A1B2"
    /\ (forall k r, ODict.get k (sensors d) = Some r -> hardware_id r = None).
Proof.
  match goal with |- exists d, ?o = _ /\ _ =>
    destruct o as [d| |] eqn:E; [|vm_compute in E; discriminate..]
  end.
  exists d. split; [reflexivity|]. split; [reflexivity|].
  refine (proj1 (cycle_without_ws90 example_const example_mapper
                   (offline_api (common_only [reading "soilmoisture1" "41"]))
                   example_isoformat paired_coordinator 1000
                   (common_only [reading "soilmoisture1" "41"]) d eq_refl _ E)).
  intros item Hin. now apply elem_of_nil in Hin.
Defined.

(** ** When the gateway is called *)

(** The test of [_update_sensor_mapping_if_needed]. *)
Definition mapping_due (c : Coordinator) (now : Z) : bool :=
  match _last_mapping_update c with
  | None => true
  | Some last => (mapping_interval c * 1000000 <=? now - last)%Z
  end.

Lemma refresh_calls ops api c :
  api_calls (_update_sensor_mapping ops api c) = api_calls c ++ [GetAllSensorMappings]
  /\ mapping_interval (_update_sensor_mapping ops api c) = mapping_interval c
  /\ _last_mapping_update (_update_sensor_mapping ops api c) = _last_mapping_update c.
Proof.
  unfold _update_sensor_mapping.
  destruct (get_all_sensor_mappings api (length (api_calls c))) as [l|e]; simpl; [|auto].
  destruct (update_mapping ops (sensor_mapper c) l) as [m [u|e]]; simpl; [|auto].
  destruct (get_mapping_stats ops m); simpl; auto.
Qed.

Lemma refresh_if_needed_calls ops api c now :
  api_calls (_update_sensor_mapping_if_needed ops api c now)
  = api_calls c ++ (if mapping_due c now then [GetAllSensorMappings] else []).
Proof.
  unfold _update_sensor_mapping_if_needed. fold (mapping_due c now).
  destruct (mapping_due c now); simpl; [|now rewrite app_nil_r].
  apply refresh_calls.
Qed.

(** X7.  A mapping refresh that is due issues one mapping fetch and records
    the time, whether or not the fetch or the mapper raised; until the
    mapping interval has passed since then, [_update_sensor_mapping_if_needed]
    changes nothing and calls nothing, so a failed refresh is not tried
    again before the next interval. *)
Theorem mapping_refresh_waits (ops : MapperOps) (api : Api) (c : Coordinator) (now t : Z) :
  mapping_due c now = true ->
  let c1 := _update_sensor_mapping_if_needed ops api c now in
  api_calls c1 = api_calls c ++ [GetAllSensorMappings]
  /\ _last_mapping_update c1 = Some now
  /\ ((t - now < mapping_interval c * 1000000)%Z ->
      _update_sensor_mapping_if_needed ops api c1 t = c1).
Proof.
  intros Hdue c1.
  assert (Hc1 : c1 = set_last_mapping_update now (_update_sensor_mapping ops api c)).
  { unfold c1, _update_sensor_mapping_if_needed. fold (mapping_due c now).
    now rewrite Hdue. }
  destruct (refresh_calls ops api c) as (Hcalls & Hint & _).
  split; [rewrite Hc1; exact Hcalls|]. split; [now rewrite Hc1|].
  intros Hlt. unfold _update_sensor_mapping_if_needed at 1.
  replace (_last_mapping_update c1) with (Some now) by now rewrite Hc1.
  replace (mapping_interval c1) with (mapping_interval c) by (rewrite Hc1; simpl; congruence).
  destruct (Z.leb_spec (mapping_interval c * 1000000) (t - now)); [lia|reflexivity].
Qed.

Lemma mapping_refresh_waits_witness :
  let api := offline_api (common_only []) in
  let c1 := _update_sensor_mapping_if_needed example_mapper api example_coordinator 1000 in
  api_calls c1 = [GetAllSensorMappings]
  /\ sensor_mapper c1 = empty_mapper
  /\ _update_sensor_mapping_if_needed example_mapper api c1 (1000 + 599999999) = c1.
Proof.
  intros api c1.
  destruct (mapping_refresh_waits example_mapper api example_coordinator 1000
              (1000 + 599999999) eq_refl) as (H1 & _ & H3).
  split; [exact H1|]. split; [reflexivity|]. apply H3. reflexivity.
Defined.

Section CycleCalls.
Context {float : Type} `{!PyFloatOps float}.
Variable C : Const.
Variable ops : MapperOps.
Variable api : Api.
Variable isoformat : Z -> string.

Lemma gateway_info_calls c :
  api_calls (fst (_process_gateway_info api c))
  = api_calls c ++ (if bool_decide (_gateway_info c = ∅) then [GetVersion] else []).
Proof.
  unfold _process_gateway_info. case_bool_decide; simpl; [reflexivity|].
  now rewrite app_nil_r.
Qed.

Lemma process_live_data_calls c raw now :
  let r := _process_live_data (float := float) C ops api isoformat c raw now in
  api_calls (fst r)
  = api_calls c ++ match snd r with
                   | Ok _ => if bool_decide (_gateway_info c = ∅) then [GetVersion] else []
                   | Raise _ => []
                   end.
Proof.
  unfold _process_live_data.
  destruct (collect_sensor_items raw) as [[items md]|e]; simpl; [|now rewrite app_nil_r].
  set (c1 := match md with
             | Some md0 => set_sensor_mapper (_handle_ws90_device (sensor_mapper c) md0) c
             | None => c
             end).
  assert (Hg : _gateway_info c1 = _gateway_info c) by (subst c1; now destruct md).
  assert (Hl : api_calls c1 = api_calls c) by (subst c1; now destruct md).
  match goal with |- context [match ?b with Ok _ => _ | Raise _ => _ end] => destruct b end;
    simpl; [|now rewrite app_nil_r].
  pose proof (gateway_info_calls c1) as Hcalls.
  destruct (_process_gateway_info api c1) as [c2 info]. simpl in *.
  now rewrite Hcalls, Hg, Hl.
Qed.

End CycleCalls.

Lemma cycle_calls {float : Type} `{!PyFloatOps float}
    (C : Const) (ops : MapperOps) (api : Api) (isoformat : Z -> string)
    (c : Coordinator) (now : Z) :
  let r := _async_update_data (float := float) C ops api isoformat c now in
  api_calls (fst r)
  = api_calls c
    ++ (if mapping_due c now then [GetAllSensorMappings] else [])
    ++ [GetLiveData]
    ++ match snd r with
       | Returned _ => if bool_decide (_gateway_info c = ∅) then [GetVersion] else []
       | _ => []
       end.
Proof.
  unfold _async_update_data.
  pose proof (refresh_if_needed_calls ops api c now) as Hcalls.
  destruct (refresh_if_needed_keeps ops api c now) as [Hg _].
  set (c1 := _update_sensor_mapping_if_needed ops api c now) in *.
  destruct (get_live_data api (length (api_calls c1))) as [raw|e].
  - pose proof (process_live_data_calls C ops api isoformat (record_call GetLiveData c1)
                  raw now) as Hp.
    cbv zeta in Hp.
    destruct (_process_live_data C ops api isoformat (record_call GetLiveData c1) raw now)
      as [c2 [d|e]]; simpl in *.
    + rewrite Hp, Hcalls, Hg, <- !app_assoc. reflexivity.
    + destruct e; simpl; rewrite Hp, Hcalls, <- !app_assoc; reflexivity.
  - destruct e; simpl; rewrite Hcalls, <- !app_assoc; reflexivity.
Qed.

(** X8.  The calls of one update cycle, in order: a mapping fetch when the
    refresh is due, the live-data fetch, and a version fetch only when the
    cycle returns data and the gateway info is not cached yet.  A cycle that
    fails fetches no version. *)
Theorem cycle_api_calls {float : Type} `{!PyFloatOps float}
    (C : Const) (ops : MapperOps) (api : Api) (isoformat : Z -> string)
    (c : Coordinator) (now : Z) :
  let r := _async_update_data (float := float) C ops api isoformat c now in
  api_calls (fst r)
  = api_calls c
    ++ (if mapping_due c now then [GetAllSensorMappings] else [])
    ++ [GetLiveData]
    ++ match snd r with
       | Returned _ => if bool_decide (_gateway_info c = ∅) then [GetVersion] else []
       | _ => []
       end.
Proof. apply cycle_calls. Qed.

(** ** Pairs without a value *)

Lemma converted_empty {float : Type} `{!PyFloatOps float} (C : Const) key :
  converted (float := float) C key "" = Ok PyNone.
Proof.
  unfold converted. replace (is_battery C key && nonempty "" && isdigit "") with false
    by (now destruct (is_battery C key)).
  reflexivity.
Qed.

(** X9.  A pair with a key and no value (missing or empty) is skipped when
    inactive sensors are not included.  When they are included it is stored,
    unless identity resolution raises, with the state [None] and the empty
    raw value. *)
Theorem pair_without_value {float : Type} `{!PyFloatOps float}
    (C : Const) (ops : MapperOps) (isoformat : Z -> string)
    (m : SensorMapper) (ws : bool) (now : Z) (sd : odict SensorData) (item : Item) :
  get_or_empty item "id" <> "" ->
  get_or_empty item "val" = "" ->
  process_item (float := float) C ops isoformat m false ws now sd item = Ok sd
  /\ (forall sd',
        process_item (float := float) C ops isoformat m true ws now sd item = Ok sd' ->
        exists r, sd' = ODict.set (entity_id r) r sd
          /\ sensor_key r = get_or_empty item "id"
          /\ state r = PyNone /\ raw_value r = "")
  /\ (forall h names info,
        resolve C ops m (get_or_empty item "id") ws = Ok h ->
        generate_entity_id ops m (get_or_empty item "id") h = Ok names ->
        details ops m h = Ok info ->
        exists sd', process_item (float := float) C ops isoformat m true ws now sd item
                    = Ok sd').
Proof.
  intros Hk Hv. split; [|split].
  - apply process_item_skipped. intros [_ [Hv'|Hinc]]; [congruence|discriminate].
  - intros sd' E.
    assert (Hp : processed true item) by (split; [exact Hk|now right]).
    destruct (process_item_returned C ops isoformat m true ws now sd item sd' Hp E)
      as (r & H1 & H2 & H3 & _ & _ & H6).
    exists r. rewrite Hv in H3, H6. rewrite converted_empty in H6.
    repeat split; congruence.
  - intros h names info Hr Hg Hd.
    assert (Hp : processed true item) by (split; [exact Hk|now right]).
    destruct (process_item_stores C ops isoformat m true ws now sd item h names info PyNone
                Hp Hr Hg Hd) as (r & E & _).
    { rewrite Hv. apply converted_empty. }
    eauto.
Qed.

Lemma pair_without_value_witness :
  process_item (float := float_literal) example_const example_mapper example_isoformat
    empty_mapper false false 1000 [] {[ "id" := "tempf" ]} = Ok []
  /\ exists r,
       process_item (float := float_literal) example_const example_mapper example_isoformat
         empty_mapper true false 1000 [] {[ "id" := "tempf" ]}
       = Ok [(entity_id r, r)]
       /\ state r = PyNone.
Proof.
  assert (Hk : get_or_empty ({[ "id" := "tempf" ]} : Item) "id" <> "") by discriminate.
  destruct (pair_without_value (float := float_literal) example_const example_mapper
              example_isoformat empty_mapper false 1000 [] {[ "id" := "tempf" ]} Hk eq_refl)
    as (H1 & H2 & _).
  split; [exact H1|].
  destruct (process_item (float := float_literal) example_const example_mapper
              example_isoformat empty_mapper true false 1000 [] {[ "id" := "tempf" ]})
    as [sd'|] eqn:E; [|vm_compute in E; discriminate].
  destruct (H2 sd' eq_refl) as (r & -> & _ & Hs & _).
  exists r. split; [reflexivity|exact Hs].
Defined.

(** ** The gateway model read from the firmware version *)

Lemma rstrip_cons c s : isspace_c c = false -> rstrip (String c s) = String c (rstrip s).
Proof. intros Hc. simpl. destruct (rstrip s); [now rewrite Hc|reflexivity]. Qed.

Lemma starts_GW a b r :
  a = "G"%char \/ a = "g"%char -> b = "W"%char \/ b = "w"%char ->
  startswith "GW" (upper (String a (String b r))) = true.
Proof.
  intros Ha Hb. unfold startswith. cbn [upper]. generalize (upper r). intros u.
  destruct Ha as [-> | ->], Hb as [-> | ->], u; vm_compute; reflexivity.
Qed.

Lemma upper_starts_GW s :
  startswith "GW" (upper s) = true ->
  exists a b r,
    s = String a (String b r) /\ isspace_c a = false /\ isspace_c b = false
    /\ forall r', startswith "GW" (upper (String a (String b r'))) = true.
Proof.
  intros H. destruct s as [|a [|b r]].
  - discriminate.
  - exfalso. revert H. ascii_cases a.
  - assert (Ha : a = "G"%char \/ a = "g"%char).
    { revert H. destruct a as [[] [] [] [] [] [] [] []]; intros H;
        try (left; reflexivity); try (right; reflexivity);
        exfalso; vm_compute in H; discriminate. }
    assert (Hb : b = "W"%char \/ b = "w"%char).
    { destruct Ha as [-> | ->]; revert H; destruct b as [[] [] [] [] [] [] [] []]; intros H;
        try (left; reflexivity); try (right; reflexivity);
        exfalso; vm_compute in H; discriminate. }
    exists a, b, r. split; [reflexivity|].
    split; [destruct Ha as [-> | ->]; reflexivity|].
    split; [destruct Hb as [-> | ->]; reflexivity|].
    intros r'. now apply starts_GW.
Qed.

Lemma gw_match_Some s g : gw_match s = Some g -> exists w, g = "GW" +:+ w.
Proof.
  destruct s as [|a s]; [discriminate|].
  destruct a as [[] [] [] [] [] [] [] []]; try discriminate.
  destruct s as [|b s]; [discriminate|].
  destruct b as [[] [] [] [] [] [] [] []]; try discriminate.
  unfold gw_match. destruct (is_empty (span_word s)); [discriminate|].
  intros [= <-]. eauto.
Qed.

(** X10.  The model read from a firmware version is never empty: it is
    "Unknown", or it begins with "GW" in upper or lower case.  So of the two
    tests [_process_gateway_info] makes before falling back to the station
    type, only the one for "Unknown" can succeed. *)
Theorem firmware_model_shape (firmware_version : string) :
  (_extract_model_from_firmware firmware_version = "Unknown"
   \/ startswith "GW" (upper (_extract_model_from_firmware firmware_version)) = true)
  /\ is_empty (_extract_model_from_firmware firmware_version) = false.
Proof.
  assert (H : _extract_model_from_firmware firmware_version = "Unknown"
              \/ startswith "GW" (upper (_extract_model_from_firmware firmware_version))
                 = true).
  { unfold _extract_model_from_firmware.
    destruct (is_empty firmware_version || String.eqb firmware_version "Unknown");
      [now left|].
    destruct (contains "_" firmware_version
              && nonempty (strip (before_first "_" firmware_version))
              && startswith "GW" (upper (strip (before_first "_" firmware_version))))
      eqn:E1.
    { right. now apply andb_prop in E1 as [_ ?]. }
    destruct (startswith "GW" (upper firmware_version)
              && negb (contains "." firmware_version)) eqn:E2.
    { right. apply andb_prop in E2 as [E2 _].
      destruct (upper_starts_GW _ E2) as (a & b & r & -> & Ha & Hb & Hall).
      unfold strip. cbn [lstrip]. rewrite Ha, !rstrip_cons by assumption. apply Hall. }
    destruct (gw_match firmware_version) as [g|] eqn:Eg; [|now left].
    right. destruct (gw_match_Some _ _ Eg) as [w ->]. apply starts_GW; now left. }
  split; [exact H|].
  destruct H as [-> | H]; [reflexivity|].
  destruct (_extract_model_from_firmware firmware_version); [discriminate|reflexivity].
Qed.

(** ** Detecting the WS90 again *)

(** The hardware id made up from the version when the mapper has no WH90
    entry. *)
Definition generated_ws90_id (md : Ws90Metadata) : string :=
  if nonempty (ws90_ver md) then "D" +:+ last_n 3 (ws90_ver md) else "WS90_DEFAULT".

Lemma set_set {V} k (v v' : V) (d : odict V) :
  ODict.set k v' (ODict.set k v d) = ODict.set k v' d.
Proof.
  induction d as [|[k0 v0] d IH]; simpl.
  - now rewrite String.eqb_refl.
  - destruct (String.eqb k0 k) eqn:E; simpl; rewrite E; congruence.
Qed.

Lemma find_wh90_set hid info d :
  is_wh90 info = false -> find_wh90 d = None -> find_wh90 (ODict.set hid info d) = None.
Proof.
  intros Hi. induction d as [|[k v] d IH]; simpl.
  - now rewrite Hi.
  - destruct (is_wh90 v) eqn:Ev; [discriminate|]. intros Hd.
    destruct (String.eqb k hid); simpl; rewrite ?Hi, ?Ev; auto.
Qed.

Lemma map_keys_twice keys hid hid' mapping :
  map_keys keys hid' (map_keys keys hid mapping) = map_keys keys hid' mapping.
Proof.
  apply map_eq. intros k. destruct (decide (k ∈ keys)) as [Hin|Hout].
  - now rewrite !map_keys_elem.
  - now rewrite !map_keys_other.
Qed.

Lemma handle_ws90_generated m md :
  find_wh90 (_sensor_info m) = None ->
  _handle_ws90_device m md
  = {| _sensor_info :=
         ODict.set (generated_ws90_id md) (ws90_info (generated_ws90_id md) md)
           (_sensor_info m);
       _hardware_mapping :=
         map_keys hex_id_sensors (generated_ws90_id md) (_hardware_mapping m) |}.
Proof.
  intros Hf. unfold _handle_ws90_device, _get_or_generate_ws90_hardware_id, generated_ws90_id.
  rewrite Hf. destruct (nonempty (ws90_ver md)); reflexivity.
Qed.

(** X11.  While the mapper holds no WH90 entry, detecting the WS90 again
    with the same version leaves one synthetic unit: handling the second
    detection after the first gives the tables that handling the second
    alone gives. *)
Theorem ws90_generated_unit_stable (m : SensorMapper) (md md' : Ws90Metadata) :
  find_wh90 (_sensor_info m) = None ->
  ws90_ver md' = ws90_ver md ->
  _handle_ws90_device (_handle_ws90_device m md) md' = _handle_ws90_device m md'.
Proof.
  intros Hf Hv.
  assert (Hid : generated_ws90_id md' = generated_ws90_id md)
    by (unfold generated_ws90_id; now rewrite Hv).
  rewrite (handle_ws90_generated m md Hf), (handle_ws90_generated m md' Hf).
  rewrite handle_ws90_generated
    by (cbn [_sensor_info]; apply find_wh90_set; [reflexivity|exact Hf]).
  cbn [_sensor_info _hardware_mapping]. rewrite Hid, set_set, map_keys_twice. reflexivity.
Qed.

Lemma ws90_generated_unit_stable_witness :
  let md' := {| ws90_battery := "3"; ws90_voltage := None; ws90_cap_volt := None;
                ws90_ver := "158" |} in
  _handle_ws90_device (_handle_ws90_device paired_mapper ws90_example_metadata) md'
  = _handle_ws90_device paired_mapper md'
  /\ ODict.keys (_sensor_info (_handle_ws90_device paired_mapper md')) = ["A1B2"; "D158"].
Proof.
  intros md'. split; [|reflexivity].
  apply (ws90_generated_unit_stable paired_mapper ws90_example_metadata md'); reflexivity.
Defined.

Lemma no_wh90 (d : odict HardwareInfo) :
  List.filter (fun e => is_wh90 e.2) d = [] -> find_wh90 d = None.
Proof.
  induction d as [|[k v] d IH]; simpl; [reflexivity|].
  destruct (is_wh90 v); [discriminate|exact IH].
Qed.

Lemma single_wh90 (d : odict HardwareInfo) hid info :
  List.filter (fun e => is_wh90 e.2) d = [(hid, info)] ->
  find_wh90 d = Some hid /\ find_wh90 (mark_ws90 d) = None.
Proof.
  induction d as [|[k v] d IH]; simpl; [discriminate|].
  destruct (is_wh90 v) eqn:Ev.
  - intros [= -> -> Hd]. split; [reflexivity|].
    simpl. change (is_wh90 (as_ws90 info)) with false. cbv iota. now apply no_wh90.
  - intros Hd. destruct (IH Hd) as [H1 H2]. simpl. rewrite Ev. auto.
Qed.

(** X12.  A WH90 entry of the mapper is adopted once.  When the mapper has
    exactly one entry whose model names a WH90, the detection uses that
    entry's hardware id and rewrites the entry as a WS90; a detection that
    follows without a mapping refresh in between finds no WH90 entry and
    uses the id generated from the version instead. *)
Theorem ws90_entry_adopted_once (m : SensorMapper) (md md' : Ws90Metadata)
    (hid : string) (info : HardwareInfo) :
  List.filter (fun e => is_wh90 e.2) (_sensor_info m) = [(hid, info)] ->
  ws90_hardware_id m md = hid
  /\ find_wh90 (_sensor_info (_handle_ws90_device m md)) = None
  /\ ws90_hardware_id (_handle_ws90_device m md) md' = generated_ws90_id md'.
Proof.
  intros Hone. destruct (single_wh90 _ _ _ Hone) as [Hf Hm].
  assert (Hnone : find_wh90 (_sensor_info (_handle_ws90_device m md)) = None).
  { unfold _handle_ws90_device, _get_or_generate_ws90_hardware_id. rewrite Hf.
    destruct (negb (present (Some hid))); cbn [_sensor_info]; [exact Hm|].
    apply find_wh90_set; [reflexivity|exact Hm]. }
  split; [unfold ws90_hardware_id; now rewrite Hf|]. split; [exact Hnone|].
  unfold ws90_hardware_id. now rewrite Hnone.
Qed.

(** A mapper that learned of the unit as a WH90. *)
Definition wh90_mapper : SensorMapper :=
  {| _sensor_info :=
       [("A1B2", paired_info);
        ("4C5D", {| info_hardware_id := "4C5D"; info_sensor_type := "WH90";
                    info_channel := ""; info_device_model := "wh90";
                    info_battery := "5"; info_signal := "4"; info_raw_data := ∅ |})];
     _hardware_mapping := {[ "soilmoisture1" := "A1B2" ]} |}.

Lemma ws90_entry_adopted_once_witness :
  let m1 := _handle_ws90_device wh90_mapper ws90_example_metadata in
  let m2 := _handle_ws90_device m1 ws90_example_metadata in
  _hardware_mapping m1 !! "0x02" = Some "4C5D"
  /\ _hardware_mapping m2 !! "0x02" = Some "D158"
  /\ ws90_hardware_id m1 ws90_example_metadata = "D158".
Proof.
  intros m1 m2.
  destruct (ws90_entry_adopted_once wh90_mapper ws90_example_metadata ws90_example_metadata
              "4C5D" _ eq_refl) as (_ & _ & H3).
  split; [vm_compute; reflexivity|]. split; [vm_compute; reflexivity|exact H3].
Defined.

(** ** What the diagnostics pass leaves alone *)

Section DiagnosticsKeep.
Context {float : Type} `{!PyFloatOps float}.
Variable ops : MapperOps.
Variable isoformat : Z -> string.
Variable m : SensorMapper.
Variable now : Z.

(** An entity id that is none of the diagnostic ids of a unit. *)
Definition not_diagnostic_id (k : string) : Prop :=
  forall h, k <> signal_entity_id h /\ k <> hardware_id_entity_id h
            /\ k <> channel_entity_id h.

Lemma keys_set_extends {V} k (v : V) (d : odict V) :
  exists extra, ODict.keys (ODict.set k v d) = ODict.keys d ++ extra.
Proof.
  rewrite keys_set. case_bool_decide; [exists []; now rewrite app_nil_r|eauto].
Qed.

Lemma diag_insert_keeps h info pct (sd : odict (SensorData (float := float))) :
  (forall k, not_diagnostic_id k ->
     ODict.get k (diag_insert isoformat now h info pct sd) = ODict.get k sd)
  /\ exists extra,
       ODict.keys (diag_insert isoformat now h info pct sd) = ODict.keys sd ++ extra.
Proof.
  unfold diag_insert. split.
  - intros k Hk. destruct (Hk h) as (H1 & H2 & H3).
    rewrite !get_set_ne by congruence.
    destruct pct; [now rewrite get_set_ne by congruence|reflexivity].
  - destruct (keys_set_extends (channel_entity_id h)
                (channel_sensor isoformat h (info_channel info) now)
                (ODict.set (hardware_id_entity_id h) (hardware_id_sensor isoformat h now)
                   match pct with
                   | Some p =>
                       ODict.set (signal_entity_id h)
                         (signal_sensor isoformat h (info_signal info) p now) sd
                   | None => sd
                   end)) as [e1 ->].
    destruct (keys_set_extends (hardware_id_entity_id h) (hardware_id_sensor isoformat h now)
                match pct with
                | Some p =>
                    ODict.set (signal_entity_id h)
                      (signal_sensor isoformat h (info_signal info) p now) sd
                | None => sd
                end) as [e2 ->].
    destruct pct as [p|].
    + destruct (keys_set_extends (signal_entity_id h)
                  (signal_sensor isoformat h (info_signal info) p now) sd) as [e3 ->].
      exists (e3 ++ e2 ++ e1). now rewrite <- !app_assoc.
    + exists (e2 ++ e1). now rewrite <- !app_assoc.
Qed.

Lemma diag_loop_keeps sd0 xs :
  forall acc acc',
    add_diagnostics_loop (float := float) ops isoformat m now acc xs = Ok acc' ->
    ((forall k, not_diagnostic_id k -> ODict.get k acc.1 = ODict.get k sd0)
     /\ exists extra, ODict.keys acc.1 = ODict.keys sd0 ++ extra) ->
    (forall k, not_diagnostic_id k -> ODict.get k acc'.1 = ODict.get k sd0)
    /\ exists extra, ODict.keys acc'.1 = ODict.keys sd0 ++ extra.
Proof.
  induction xs as [|x xs IH]; intros acc acc' E Hacc; simpl in E.
  - now injection E as <-.
  - destruct (add_diagnostics ops isoformat m now acc x) as [acc1|] eqn:E1;
      simpl in E; [|discriminate].
    apply (IH acc1 acc' E). destruct acc as [sd added].
    apply add_diagnostics_step in E1 as [[-> _]|(h & info & pct & _ & _ & _ & _ & ->)];
      [assumption|].
    destruct Hacc as [Hget [extra Hkeys]].
    destruct (diag_insert_keeps h info pct sd) as [Hget' [extra' Hkeys']].
    cbn [fst] in *. split.
    + intros k Hk. now rewrite Hget', Hget.
    + exists (extra ++ extra'). now rewrite Hkeys', Hkeys, <- app_assoc.
Qed.

End DiagnosticsKeep.

(** X13.  The diagnostics pass only adds: the readings present before it
    keep their positions, the new ones come after them, and a reading whose
    entity id is not a diagnostic id of a unit is returned as it was
    stored. *)
Theorem diagnostics_keep_readings {float : Type} `{!PyFloatOps float}
    (ops : MapperOps) (isoformat : Z -> string) (m : SensorMapper) (now : Z)
    (sd out : odict (SensorData (float := float))) :
  _add_diagnostic_and_signal_sensors ops isoformat m now sd = Ok out ->
  (exists added, ODict.keys out = ODict.keys sd ++ added)
  /\ (forall k, not_diagnostic_id k -> ODict.get k out = ODict.get k sd).
Proof.
  unfold _add_diagnostic_and_signal_sensors. intros E.
  destruct (add_diagnostics_loop ops isoformat m now (sd, ∅) (ODict.values sd))
    as [[out' added]|] eqn:El; [|discriminate].
  injection E as <-.
  destruct (diag_loop_keeps ops isoformat m now sd (ODict.values sd) (sd, ∅) (out', added) El)
    as [Hget Hkeys].
  { split; [reflexivity|]. exists []. now rewrite app_nil_r. }
  split; assumption.
Qed.

Lemma diagnostics_keep_readings_witness :
  exists out,
    _add_diagnostic_and_signal_sensors example_mapper example_isoformat paired_mapper 1000
      [(entity_id soil_reading, soil_reading)] = Ok out
    /\ ODict.get (entity_id soil_reading) out = Some soil_reading
    /\ length out = 4%nat.
Proof.
  destruct (_add_diagnostic_and_signal_sensors example_mapper example_isoformat paired_mapper
              1000 [(entity_id soil_reading, soil_reading)]) as [out|] eqn:E;
    [|vm_compute in E; discriminate].
  exists out. split; [reflexivity|]. split.
  - rewrite (proj2 (diagnostics_keep_readings _ _ _ _ _ _ E) (entity_id soil_reading));
      [reflexivity|].
    intros h. repeat split; discriminate.
  - vm_compute in E. now injection E as <-.
Defined.

(** * The sensor platform and the set-up *)

(** ** One entity for each reading *)

Lemma entities_of_all {float : Type} (C : Const) (H : Hass) (entry_id : string)
    (sensor_data : odict (SensorData (float := float))) :
  Forall wellformed_entry sensor_data ->
  SensorPy.entities_of C H entry_id sensor_data
  = map (fun e => SensorPy.__init__ C H entry_id (entity_id e.2) e.2) sensor_data.
Proof.
  induction 1 as [|[k r] sd [Hid Hcat] _ IH]; simpl; [reflexivity|].
  simpl in Hid, Hcat. rewrite bool_decide_eq_true_2.
  - now rewrite IH, Hid.
  - rewrite !elem_of_cons in *. tauto.
Qed.

(** X14.  The platform leaves no reading of a returned cycle out: it
    creates one entity for each, in the order of the data, under the
    reading's own entity id, so the entity ids of the platform are those of
    the data and pairwise distinct. *)
Theorem platform_entity_per_reading {float : Type} `{!PyFloatOps float}
    (C : Const) (H : Hass) (ops : MapperOps) (api : Api) (isoformat : Z -> string)
    (c : Coordinator) (now : Z) (d : ProcessedData) (entry_id : string) :
  snd (_async_update_data (float := float) C ops api isoformat c now) = Returned d ->
  SensorPy.async_setup_entry C H entry_id (Some d)
  = map (fun e => SensorPy.__init__ C H entry_id (entity_id e.2) e.2) (sensors d)
  /\ map sensor_entity_id (SensorPy.async_setup_entry C H entry_id (Some d))
     = ODict.keys (sensors d)
  /\ NoDup (map sensor_entity_id (SensorPy.async_setup_entry C H entry_id (Some d))).
Proof.
  intros E. destruct (cycle_readings_inv C ops api isoformat c now d E) as [Hn Hall].
  assert (Hent : SensorPy.async_setup_entry C H entry_id (Some d)
                 = map (fun e => SensorPy.__init__ C H entry_id (entity_id e.2) e.2)
                     (sensors d)).
  { unfold SensorPy.async_setup_entry. simpl. now apply entities_of_all. }
  assert (Hids : map sensor_entity_id (SensorPy.async_setup_entry C H entry_id (Some d))
                 = ODict.keys (sensors d)).
  { rewrite Hent, map_map. unfold ODict.keys. clear -Hall.
    induction Hall as [|e sd [Hid _] _ IH]; [reflexivity|].
    cbn [map]. f_equal; [exact Hid|exact IH]. }
  split; [exact Hent|]. split; [exact Hids|]. now rewrite Hids.
Qed.

(** Stand-ins for the constants of Home Assistant. *)
Definition example_hass : Hass :=
  {| FAHRENHEIT := "deg F"; CELSIUS := "deg C"; INHG := "inHg"; HPA := "hPa";
     MILES_PER_HOUR := "mph"; KILOMETERS_PER_HOUR := "km/h"; INCHES := "in";
     MILLIMETERS := "mm"; INCHES_PER_HOUR := "in/h"; MILLIMETERS_PER_HOUR := "mm/h";
     WATTS_PER_SQUARE_METER := "W/m2"; PERCENTAGE := "%";
     is_device_class := fun s => bool_decide (s ∈ ["temperature"; "battery"; "moisture"]);
     BATTERY := "battery" |}.

Lemma platform_entity_per_reading_witness :
  exists d,
    snd (_async_update_data (float := float_literal) example_const example_mapper
           (example_api (common_only [reading "tempf" "70.5"; reading "soilbatt1" "4"]))
           example_isoformat example_coordinator 1000) = Returned d
    /\ map sensor_entity_id (SensorPy.async_setup_entry example_const example_hass "entry1"
                               (Some d))
       = ODict.keys (sensors d)
    /\ length (sensors d) = 2%nat.
Proof.
  match goal with |- exists d, ?o = _ /\ _ =>
    destruct o as [d| |] eqn:E; [|vm_compute in E; discriminate..]
  end.
  exists d. split; [reflexivity|].
  split; [exact (proj1 (proj2 (platform_entity_per_reading _ example_hass _ _ _ _ _ d
                                "entry1" E)))|].
  vm_compute in E. now injection E as <-.
Defined.

(** ** Battery entities *)

(** X15.  A reading the loop stores under a key of the battery table makes
    a diagnostic entity with the battery device class, the percentage unit
    and the measurement state class, although its state is a text and its
    category is "diagnostic", not "battery". *)
Theorem battery_entity {float : Type} `{!PyFloatOps float}
    (C : Const) (H : Hass) (ops : MapperOps) (isoformat : Z -> string)
    (m : SensorMapper) (inc ws : bool) (now : Z) (sd sd' : odict SensorData)
    (item : Item) (entry_id : string) :
  processed inc item ->
  is_battery C (get_or_empty item "id") = true ->
  digits (get_or_empty item "val") ->
  process_item (float := float) C ops isoformat m inc ws now sd item = Ok sd' ->
  exists r,
    sd' = ODict.set (entity_id r) r sd
    /\ (exists text, state r = PyStr text)
    /\ category r = "diagnostic"
    /\ let e := SensorPy.__init__ C H entry_id (entity_id r) r in
       _attr_entity_category e = Some "diagnostic"
       /\ _attr_device_class e = Some (BATTERY H)
       /\ _attr_native_unit_of_measurement e = Some (PERCENTAGE H)
       /\ _attr_state_class e = Some MEASUREMENT
       /\ _attr_native_value e = state r.
Proof.
  intros Hp Hb Hd E.
  rewrite (process_item_steps C ops isoformat) in E by assumption. cbv zeta in E.
  destruct (resolve C ops m (get_or_empty item "id") ws) as [h|]; simpl in E; [|discriminate].
  destruct (generate_entity_id ops m (get_or_empty item "id") h) as [names|]; simpl in E;
    [|discriminate].
  destruct (details ops m h) as [info|]; simpl in E; [|discriminate].
  rewrite (converted_battery_digits C _ _ Hb Hd) in E. simpl in E.
  unfold category_of in E. rewrite Hb in E. injection E as <-.
  match goal with |- context [ODict.set _ ?x sd] => exists x end.
  cbn [entity_id state category]. split; [reflexivity|]. split; [eauto|].
  split; [reflexivity|]. repeat split.
Qed.

Lemma battery_entity_witness :
  exists r,
    process_item (float := float_literal) example_const example_mapper example_isoformat
      empty_mapper false false 1000 [] (reading "soilbatt1" "4")
    = Ok [(entity_id r, r)]
    /\ (exists text, state r = PyStr text)
    /\ _attr_state_class (SensorPy.__init__ example_const example_hass "entry1"
                            (entity_id r) r) = Some MEASUREMENT.
Proof.
  assert (Hp : processed false (reading "soilbatt1" "4")).
  { split; [discriminate|left; discriminate]. }
  assert (Hd : digits (get_or_empty (reading "soilbatt1" "4") "val")).
  { split; [discriminate|reflexivity]. }
  destruct (process_item (float := float_literal) example_const example_mapper
              example_isoformat empty_mapper false false 1000 [] (reading "soilbatt1" "4"))
    as [sd'|] eqn:E; [|vm_compute in E; discriminate].
  destruct (battery_entity example_const example_hass example_mapper example_isoformat
              empty_mapper false false 1000 [] sd' (reading "soilbatt1" "4") "entry1"
              Hp eq_refl Hd E) as (r & -> & Ht & _ & _ & _ & _ & Hs & _).
  exists r. split; [reflexivity|]. split; [exact Ht|exact Hs].
Defined.

(** ** The device of an entity and the device registry *)

Lemma display_names_agree (info : HardwareInfo) :
  SensorPy._get_sensor_type_display_name info
  = InitPy._get_sensor_type_display_name (info_sensor_type info)
  /\ SensorPy._is_outdoor_sensor info = InitPy._is_outdoor_sensor (info_sensor_type info).
Proof. split; reflexivity. Qed.

(** X16.  The device an entity reports is the device the registry was
    given, as long as the manufacturer constant is "Ecowitt": for an entity
    of a unit the mapper knows, field by field the device
    [_async_setup_device_registry] creates for that hardware id, attached to
    the gateway device; for an entity without a hardware id, the gateway
    device, provided the gateway info has a host (without one the registry
    is given no configuration URL and the entity reports "http://"). *)
Theorem entity_device_is_registered {float : Type}
    (C : Const) (MANUFACTURER : string) (ops : MapperOps)
    (gateway_info : gmap string string) (m : SensorMapper)
    (self : EcowittLocalSensor (float := float)) :
  MANUFACTURER = "Ecowitt" ->
  (forall h info,
     _hardware_id self = Some h -> h <> "" -> upper h ∉ invalid_hardware_ids ->
     get_sensor_info ops m h = Ok (Some info) ->
     exists device,
       SensorPy.device_info C MANUFACTURER ops gateway_info m self = Ok device
       /\ InitPy.sensor_device C ops gateway_info m h = Ok (Some device)
       /\ dev_identifiers device = (DOMAIN C, h)
       /\ dev_via_device device
          = Some (dev_identifiers (InitPy.gateway_device C gateway_info)))
  /\ (_hardware_id self = None ->
      SensorPy.device_info C MANUFACTURER ops gateway_info m self
      = Ok (if nonempty (default "" (gateway_info !! "host"))
            then InitPy.gateway_device C gateway_info
            else {| dev_identifiers := dev_identifiers (InitPy.gateway_device C gateway_info);
                    dev_name := "Ecowitt Gateway ";
                    dev_manufacturer := "Ecowitt";
                    dev_model := dev_model (InitPy.gateway_device C gateway_info);
                    dev_sw_version :=
                      dev_sw_version (InitPy.gateway_device C gateway_info);
                    dev_configuration_url := Some "http://";
                    dev_via_device := None;
                    dev_suggested_area := None |})).
Proof.
  intros ->. split.
  - intros h info Hh Hne Hvalid Hinfo.
    unfold SensorPy.device_info, InitPy.sensor_device. rewrite Hh.
    cbn [default from_option id present].
    assert (nonempty h = true) as -> by (destruct h; [congruence|reflexivity]).
    assert (is_empty h = false) as -> by (destruct h; [congruence|reflexivity]).
    rewrite bool_decide_eq_false_2 by assumption. cbn [negb andb orb].
    rewrite Hinfo. cbn [mbind result_bind].
    eexists. split; [reflexivity|]. split; [|split; reflexivity].
    destruct (display_names_agree info) as [Hn Ho]. cbv zeta. now rewrite <- Hn, <- Ho.
  - intros Hh. unfold SensorPy.device_info. rewrite Hh. cbn [present andb].
    unfold InitPy.gateway_device.
    destruct (nonempty (default "" (gateway_info !! "host"))) eqn:En; [reflexivity|].
    assert (default "" (gateway_info !! "host") = "") as ->; [|reflexivity].
    destruct (default "" (gateway_info !! "host")); [reflexivity|discriminate].
Qed.

Lemma entity_device_is_registered_witness :
  let gateway_info : gmap string string :=
    {[ "gateway_id" := "GW1100A"; "host" := "192.168.1.50"; "model" := "GW1100A";
       "firmware_version" := "GW1100A_V2.4.3" ]} in
  let self :=
    SensorPy.__init__ example_const example_hass "entry1" (entity_id soil_reading)
      soil_reading in
  exists device,
    SensorPy.device_info example_const "Ecowitt" example_mapper gateway_info paired_mapper self
    = Ok device
    /\ InitPy.sensor_device example_const example_mapper gateway_info paired_mapper "A1B2"
       = Ok (Some device)
    /\ dev_via_device device = Some ("ecowitt_local", "GW1100A").
Proof.
  intros gateway_info self.
  destruct (proj1 (entity_device_is_registered example_const "Ecowitt" example_mapper
                     gateway_info paired_mapper self eq_refl) "A1B2" paired_info eq_refl)
    as (device & H1 & H2 & _ & H4).
  - discriminate.
  - vm_compute. intros Hin. repeat (apply elem_of_cons in Hin as [Hin|Hin]; [discriminate|]).
    now apply elem_of_nil in Hin.
  - reflexivity.
  - exists device. split; [exact H1|]. split; [exact H2|]. rewrite H4. reflexivity.
Defined.

(** ** Setting up *)

Section Setup.
Variable C : Const.
Variable ops : MapperOps.
Variable get_all_hardware_ids : SensorMapper -> result (list string).
Variable api : Api.

(** What holds of the device created for a hardware id. *)
Definition registered_for (gateway_info : gmap string string) (h : string)
    (d : DeviceInfo) : Prop :=
  dev_via_device d = Some (DOMAIN C, default "unknown" (gateway_info !! "gateway_id"))
  /\ dev_identifiers d = (DOMAIN C, h)
  /\ h <> "" /\ upper h ∉ invalid_hardware_ids.

Lemma sensor_device_registered gateway_info m h :
  match InitPy.sensor_device C ops gateway_info m h with
  | Ok (Some d) => registered_for gateway_info h d
  | _ => True
  end.
Proof.
  unfold InitPy.sensor_device.
  destruct (is_empty h) eqn:Ee; [exact I|].
  case_bool_decide as Hs; [exact I|]. cbn [orb].
  destruct (get_sensor_info ops m h) as [[info|]|]; cbn [mbind result_bind]; try exact I.
  split; [reflexivity|]. split; [reflexivity|]. split; [intros ->; discriminate|exact Hs].
Qed.

Lemma sensor_devices_via gateway_info m hardware_ids devices :
  InitPy.sensor_devices C ops gateway_info m hardware_ids = Ok devices ->
  Forall (fun d => exists h, h ∈ hardware_ids /\ registered_for gateway_info h d) devices.
Proof.
  revert devices. induction hardware_ids as [|h hs IH]; intros devices E; simpl in E.
  - injection E as <-. constructor.
  - pose proof (sensor_device_registered gateway_info m h) as Hdev.
    destruct (InitPy.sensor_device C ops gateway_info m h) as [dev|];
      cbn [mbind result_bind] in E; [|discriminate].
    destruct (InitPy.sensor_devices C ops gateway_info m hs) as [devs|];
      cbn [mbind result_bind] in E; [|discriminate].
    injection E as <-.
    assert (Hrest : Forall (fun d => exists h', h' ∈ h :: hs
                                       /\ registered_for gateway_info h' d) devs).
    { specialize (IH devs eq_refl). eapply Forall_impl; [exact IH|].
      intros d (h' & Hin & Hreg). exists h'. split; [apply elem_of_cons; now right|exact Hreg]. }
    destruct dev as [dev|]; [|exact Hrest]. constructor; [|exact Hrest].
    exists h. split; [apply elem_of_cons; now left|exact Hdev].
Qed.

Lemma setup_keeps_gateway_info test_connection c :
  _gateway_info (fst (async_setup ops api test_connection c)) = _gateway_info c.
Proof.
  unfold async_setup. destruct test_connection as [v|[]]; simpl; try reflexivity.
  apply (refresh_keeps ops api c).
Qed.

End Setup.

(** X17.  When the integration is set up, the gateway info of the new
    coordinator is still empty: whatever the gateway answers, the gateway
    device is registered under the id "unknown", with the model "Unknown",
    an empty host in its name and no configuration URL, and every sensor
    device is attached to that id.  Sensor devices are created only for
    hardware ids that are neither empty nor reserved. *)
Theorem setup_registers_unknown_gateway
    (C : Const) (ops : MapperOps) (get_all_hardware_ids : SensorMapper -> result (list string))
    (api : Api) (test_connection : result bool) (new_mapper : SensorMapper)
    (conf_host : string) (conf_mapping_interval : Z) (conf_include_inactive : bool)
    (c : Coordinator) (devices : list DeviceInfo) :
  InitPy.async_setup_entry C ops get_all_hardware_ids api test_connection new_mapper
    conf_host conf_mapping_interval conf_include_inactive = (c, SetUp devices) ->
  _gateway_info c = ∅
  /\ exists sensor_devices,
       devices
       = {| dev_identifiers := (DOMAIN C, "unknown");
            dev_name := "Ecowitt Gateway ";
            dev_manufacturer := "Ecowitt";
            dev_model := "Unknown";
            dev_sw_version := Some "Unknown";
            dev_configuration_url := None;
            dev_via_device := None;
            dev_suggested_area := None |} :: sensor_devices
       /\ Forall (fun d => dev_via_device d = Some (DOMAIN C, "unknown")
                    /\ exists h, dev_identifiers d = (DOMAIN C, h)
                         /\ h <> "" /\ upper h ∉ invalid_hardware_ids)
            sensor_devices.
Proof.
  unfold InitPy.async_setup_entry.
  pose proof (setup_keeps_gateway_info ops api test_connection
                (new_coordinator new_mapper conf_host conf_mapping_interval
                   conf_include_inactive)) as Hg.
  destruct (async_setup ops api test_connection _) as [c1 [[]|e|e|e]]; try discriminate.
  cbn [fst new_coordinator _gateway_info] in Hg.
  unfold InitPy._async_setup_device_registry. rewrite Hg.
  destruct (get_all_hardware_ids (sensor_mapper c1)) as [ids|]; simpl; [|discriminate].
  destruct (InitPy.sensor_devices C ops ∅ (sensor_mapper c1) ids) as [devs|] eqn:Ed;
    simpl; [|discriminate].
  intros [= <- <-]. split; [exact Hg|]. exists devs. split; [reflexivity|].
  apply sensor_devices_via in Ed. eapply Forall_impl; [exact Ed|].
  intros d (h & _ & Hv & Hid). split; [exact Hv|]. eauto.
Qed.

Lemma setup_registers_unknown_gateway_witness :
  exists c devices,
    InitPy.async_setup_entry example_const example_mapper
      (fun m => Ok (ODict.keys (_sensor_info m)))
      (example_api (common_only [])) (Ok true) paired_mapper "192.168.1.50" 600 false
    = (c, SetUp devices)
    /\ _gateway_info c = ∅
    /\ get_version (example_api (common_only [])) 0
       = Ok {[ "version" := "GW1100A_V2.4.3"; "stationtype" := "GW1100A" ]}
    /\ dev_identifiers <$> head devices = Some ("ecowitt_local", "unknown").
Proof.
  destruct (InitPy.async_setup_entry example_const example_mapper
              (fun m => Ok (ODict.keys (_sensor_info m)))
              (example_api (common_only [])) (Ok true) paired_mapper "192.168.1.50" 600 false)
    as [c [devices|e|e|e]] eqn:E; try (vm_compute in E; discriminate).
  exists c, devices. split; [reflexivity|].
  destruct (setup_registers_unknown_gateway _ _ _ _ _ _ _ _ _ c devices E)
    as (Hg & devs & -> & _).
  split; [exact Hg|]. split; reflexivity.
Defined.

(** X18.  Setting up fails exactly when the connection test raises, and
    then always with [ConfigEntryNotReady], also for an authentication
    error: the [ConfigEntryAuthFailed] of the coordinator's [async_setup]
    does not get past [async_setup_entry], and no data call is made.  When
    the test passes, one mapping fetch is made; if it fails the set-up goes
    on, and the time of the last mapping update stays unset. *)
Theorem setup_fails_as_not_ready
    (C : Const) (ops : MapperOps) (get_all_hardware_ids : SensorMapper -> result (list string))
    (api : Api) (test_connection : result bool) (new_mapper : SensorMapper)
    (conf_host : string) (conf_mapping_interval : Z) (conf_include_inactive : bool) :
  let r := InitPy.async_setup_entry C ops get_all_hardware_ids api test_connection
             new_mapper conf_host conf_mapping_interval conf_include_inactive in
  (forall cause, snd r <> SetupAuthFailed cause)
  /\ (forall err, test_connection = Raise err ->
        snd r = ConfigEntryNotReady err /\ api_calls (fst r) = [])
  /\ (forall v, test_connection = Ok v ->
        (forall cause, snd r <> ConfigEntryNotReady cause)
        /\ api_calls (fst r) = [GetAllSensorMappings]
        /\ _last_mapping_update (fst r) = None).
Proof.
  cbv zeta. unfold InitPy.async_setup_entry, async_setup.
  set (c0 := new_coordinator new_mapper conf_host conf_mapping_interval conf_include_inactive).
  destruct test_connection as [v|err].
  - destruct (refresh_calls ops api c0) as (Hcalls & _ & Hlast).
    destruct (InitPy._async_setup_device_registry C ops get_all_hardware_ids
                (_gateway_info (_update_sensor_mapping ops api c0))
                (sensor_mapper (_update_sensor_mapping ops api c0))) as [devices|e];
      cbn [fst snd]; (split; [discriminate|]); (split; [discriminate|]);
      intros v' _; (split; [discriminate|]); rewrite Hcalls, Hlast; split; reflexivity.
  - destruct err; cbn [fst snd]; (split; [discriminate|]);
      (split; [|discriminate]); intros err' [= <-]; split; reflexivity.
Qed.

Lemma setup_fails_as_not_ready_witness :
  snd (InitPy.async_setup_entry example_const example_mapper (fun _ => Ok [])
         (example_api (common_only [])) (Raise AuthenticationError) empty_mapper
         "192.168.1.50" 600 false)
  = ConfigEntryNotReady AuthenticationError
  /\ api_calls (fst (InitPy.async_setup_entry example_const example_mapper (fun _ => Ok [])
                       (offline_api (common_only [])) (Ok true) empty_mapper
                       "192.168.1.50" 600 false))
     = [GetAllSensorMappings].
Proof.
  split.
  - apply (proj1 (proj2 (setup_fails_as_not_ready example_const example_mapper
                           (fun _ => Ok []) (example_api (common_only []))
                           (Raise AuthenticationError) empty_mapper "192.168.1.50" 600 false))
             AuthenticationError eq_refl).
  - apply (proj2 (proj2 (setup_fails_as_not_ready example_const example_mapper
                           (fun _ => Ok []) (offline_api (common_only []))
                           (Ok true) empty_mapper "192.168.1.50" 600 false))
             true eq_refl).
Defined.

(** X19.  The mapping fetched while setting up does not count as a mapping
    update: the first update cycle after a set-up fetches the mapping again
    before it fetches the live data, whatever the time and the mapping
    interval. *)
Theorem first_cycle_fetches_mapping_again {float : Type} `{!PyFloatOps float}
    (C : Const) (ops : MapperOps) (get_all_hardware_ids : SensorMapper -> result (list string))
    (api : Api) (isoformat : Z -> string) (test_connection : result bool)
    (new_mapper : SensorMapper) (conf_host : string) (conf_mapping_interval : Z)
    (conf_include_inactive : bool) (c : Coordinator) (devices : list DeviceInfo) (now : Z) :
  InitPy.async_setup_entry C ops get_all_hardware_ids api test_connection new_mapper
    conf_host conf_mapping_interval conf_include_inactive = (c, SetUp devices) ->
  let r := _async_update_data (float := float) C ops api isoformat c now in
  api_calls (fst r)
  = [GetAllSensorMappings; GetAllSensorMappings; GetLiveData]
    ++ match snd r with
       | Returned _ => [GetVersion]
       | _ => []
       end.
Proof.
  intros E. cbv zeta. rewrite cycle_calls.
  revert E. unfold InitPy.async_setup_entry, async_setup.
  set (c0 := new_coordinator new_mapper conf_host conf_mapping_interval conf_include_inactive).
  destruct test_connection as [v|[]]; try discriminate.
  destruct (refresh_calls ops api c0) as (Hcalls & _ & Hlast).
  destruct (refresh_keeps ops api c0) as [Hg _].
  destruct (InitPy._async_setup_device_registry C ops get_all_hardware_ids
              (_gateway_info (_update_sensor_mapping ops api c0))
              (sensor_mapper (_update_sensor_mapping ops api c0))) as [devs|e];
    [|discriminate].
  intros [= <- _]. unfold mapping_due. rewrite Hcalls, Hlast, Hg.
  rewrite bool_decide_eq_true_2 by reflexivity. reflexivity.
Qed.

Lemma first_cycle_fetches_mapping_again_witness :
  exists c devices,
    InitPy.async_setup_entry example_const example_mapper (fun _ => Ok [])
      (example_api (common_only [reading "tempf" "70.5"])) (Ok true) empty_mapper
      "192.168.1.50" 600 false = (c, SetUp devices)
    /\ api_calls (fst (_async_update_data (float := float_literal) example_const
                         example_mapper (example_api (common_only [reading "tempf" "70.5"]))
                         example_isoformat c 1000))
       = [GetAllSensorMappings; GetAllSensorMappings; GetLiveData; GetVersion].
Proof.
  destruct (InitPy.async_setup_entry example_const example_mapper (fun _ => Ok [])
              (example_api (common_only [reading "tempf" "70.5"])) (Ok true) empty_mapper
              "192.168.1.50" 600 false) as [c [devices|e|e|e]] eqn:E;
    try (vm_compute in E; discriminate).
  exists c, devices. split; [reflexivity|].
  rewrite (first_cycle_fetches_mapping_again (float := float_literal) example_const
             example_mapper (fun _ => Ok [])
             (example_api (common_only [reading "tempf" "70.5"])) example_isoformat
             (Ok true) empty_mapper "192.168.1.50" 600 false c devices 1000 E).
  vm_compute in E. injection E as <- _. vm_compute. reflexivity.
Defined.

(** ** Migration: the hardware id read back from a unique id *)








(** ** Entities and their readings *)

Lemma get_elem_NoDup {V} (d : odict V) k v :
  NoDup (ODict.keys d) -> (k, v) ∈ d -> ODict.get k d = Some v.
Proof.
  induction d as [|[k0 v0] d IH]; simpl; intros Hn Hin.
  - now apply elem_of_nil in Hin.
  - apply NoDup_cons in Hn as [Hk0 Hn].
    apply elem_of_cons in Hin as [[= -> ->]|Hin]; [now rewrite String.eqb_refl|].
    destruct (String.eqb_spec k0 k) as [->|_]; [|auto].
    exfalso. apply Hk0. unfold ODict.keys.
    change k with (fst (k, v)). apply list_elem_of_In, in_map, list_elem_of_In, Hin.
Qed.

(** X21.  After a cycle that returned, every entity the platform creates
    from its data finds its own reading again under its entity id, with the
    state it was created with; it is then unavailable exactly when it has a
    hardware id, its state is [None], and inactive sensors are not
    included. *)
Theorem entity_finds_its_reading {float : Type} `{!PyFloatOps float}
    (C : Const) (H : Hass) (ops : MapperOps) (api : Api) (isoformat : Z -> string)
    (c : Coordinator) (now : Z) (d : ProcessedData) (entry_id : string)
    (include_inactive : bool) (self : EcowittLocalSensor) :
  snd (_async_update_data (float := float) C ops api isoformat c now) = Returned d ->
  self ∈ SensorPy.async_setup_entry C H entry_id (Some d) ->
  exists sensor_info,
    get_sensor_data (Some d) (sensor_entity_id self) = Some sensor_info
    /\ self = SensorPy.__init__ C H entry_id (sensor_entity_id self) sensor_info
    /\ _attr_native_value self = state sensor_info
    /\ SensorPy.available true include_inactive (Some d) self
       = (if present (_hardware_id self)
             && match state sensor_info with PyNone => true | _ => false end
          then include_inactive else true).
Proof.
  intros E Hin. destruct (cycle_readings_inv C ops api isoformat c now d E) as [Hn Hall].
  unfold SensorPy.async_setup_entry in Hin. cbn [get_all_sensors] in Hin.
  rewrite (entities_of_all C H entry_id _ Hall) in Hin.
  apply list_elem_of_In, in_map_iff in Hin as ([k r] & <- & Hentry).
  apply list_elem_of_In in Hentry.
  assert (Hid : entity_id r = k).
  { rewrite Forall_forall in Hall. exact (proj1 (Hall _ Hentry)). }
  cbn [snd]. exists r.
  assert (Hget : get_sensor_data (Some d)
                   (sensor_entity_id (SensorPy.__init__ C H entry_id (entity_id r) r))
                 = Some r).
  { cbn [get_sensor_data]. change (sensor_entity_id _) with (entity_id r).
    rewrite Hid. now apply get_elem_NoDup. }
  split; [exact Hget|]. split; [reflexivity|]. split; [reflexivity|].
  unfold SensorPy.available. rewrite Hget. reflexivity.
Qed.

Lemma entity_finds_its_reading_witness :
  exists d self,
    snd (_async_update_data (float := float_literal) example_const example_mapper
           (example_api (common_only [reading "tempf" "--"]))
           example_isoformat example_coordinator 1000) = Returned d
    /\ SensorPy.async_setup_entry example_const example_hass "entry1" (Some d) = [self]
    /\ _attr_native_value self = PyNone
    /\ SensorPy.available true false (Some d) self = true.
Proof.
  match goal with |- exists d self, ?o = _ /\ _ =>
    destruct o as [d| |] eqn:E; [|vm_compute in E; discriminate..]
  end.
  destruct (SensorPy.async_setup_entry example_const example_hass "entry1" (Some d))
    as [|self [|other rest]] eqn:Es;
    [exfalso; vm_compute in E; injection E as <-; vm_compute in Es; discriminate
    | |exfalso; vm_compute in E; injection E as <-; vm_compute in Es; discriminate].
  exists d, self. split; [reflexivity|]. split; [exact Es|].
  destruct (entity_finds_its_reading example_const example_hass example_mapper _ _ _ _ d
              "entry1" false self E) as (r & Hget & _ & Hv & Ha).
  { rewrite Es. apply elem_of_cons. now left. }
  rewrite Hv, Ha. clear Hv Ha.
  vm_compute in E. injection E as <-. vm_compute in Es. injection Es as <-.
  vm_compute in Hget. injection Hget as <-. split; reflexivity.
Defined.

(** * What can fail while the sections are read *)

Lemma battery_pct_raises battery e :
  battery_pct battery = Raise e ->
  e = ValueError /\ isdigit battery = true /\ py_int battery = Raise ValueError.
Proof.
  unfold battery_pct. destruct (isdigit battery); [|discriminate].
  destruct (py_int battery) as [n|e'] eqn:E; [discriminate|].
  pose proof (py_int_raises _ _ E) as ->. intros [= <-]. auto.
Qed.

(** A battery level [isdigit] accepts and [int] rejects. *)
Definition bad_battery (item : Item) : Prop :=
  exists battery,
    item !! "battery" = Some battery
    /\ isdigit battery = true /\ py_int battery = Raise ValueError.

Lemma concat_items_raises (f : Item -> result (list Item)) section e :
  concat_items f section = Raise e -> exists item, item ∈ section /\ f item = Raise e.
Proof.
  induction section as [|item rest IH]; simpl; [discriminate|].
  destruct (f item) as [added|e'] eqn:Ef; simpl.
  - destruct (concat_items f rest) as [more|e'']; simpl; [discriminate|].
    intros [= <-]. destruct (IH eq_refl) as (it & Hin & Hit).
    exists it. split; [apply elem_of_cons; now right|exact Hit].
  - intros [= <-]. exists item. split; [apply elem_of_cons; now left|exact Ef].
Qed.

Lemma soil_items_raises item e :
  soil_items item = Raise e -> e = ValueError /\ bad_battery item.
Proof.
  unfold soil_items.
  destruct (present (item !! "channel")
            && nonempty (replace "%" "" (default "" (item !! "humidity"))));
    [|discriminate].
  destruct (item !! "battery") as [battery|] eqn:Eb; [|discriminate].
  cbn [present default from_option id].
  destruct (nonempty battery); [|discriminate].
  destruct (battery_pct battery) as [pct|e'] eqn:Ep; [discriminate|].
  intros [= <-]. destruct (battery_pct_raises _ _ Ep) as (-> & Hd & Hi).
  split; [reflexivity|]. exists battery. auto.
Qed.

Lemma aisle_items_raises item e :
  aisle_items item = Raise e -> e = ValueError /\ bad_battery item.
Proof.
  unfold aisle_items. destruct (present (item !! "channel")); [|discriminate].
  destruct (item !! "battery") as [battery|] eqn:Eb; [|discriminate].
  cbn [present default from_option id].
  destruct (nonempty battery && not_None battery); [|discriminate].
  destruct (battery_pct battery) as [pct|e'] eqn:Ep; [discriminate|].
  intros [= <-]. destruct (battery_pct_raises _ _ Ep) as (-> & Hd & Hi).
  split; [reflexivity|]. exists battery. auto.
Qed.

Lemma piezo_item_raises item e :
  piezo_item item = Raise e -> e = ValueError /\ bad_battery item.
Proof.
  unfold piezo_item. destruct (item !! "id"); [|discriminate].
  destruct (item !! "val"); [|discriminate].
  destruct (item !! "battery") as [battery|] eqn:Eb; [|discriminate].
  cbn [present default from_option id].
  destruct (nonempty battery && present (item !! "ws90_ver")); [|discriminate].
  destruct (battery_pct battery) as [pct|e'] eqn:Ep; [discriminate|].
  intros [= <-]. destruct (battery_pct_raises _ _ Ep) as (-> & Hd & Hi).
  split; [reflexivity|]. exists battery. auto.
Qed.

Lemma piezo_items_raises rain acc e :
  piezo_items rain acc = Raise e -> exists item, item ∈ rain /\ piezo_item item = Raise e.
Proof.
  revert acc. induction rain as [|item rest IH]; intros acc; simpl; [discriminate|].
  destruct (piezo_item item) as [[added md]|e'] eqn:Ef; simpl.
  - destruct (piezo_items rest (match md with Some _ => md | None => acc end))
      as [[more md']|e''] eqn:Er; simpl; [discriminate|].
    intros [= <-]. destruct (IH _ Er) as (it & Hin & Hit).
    exists it. split; [apply elem_of_cons; now right|exact Hit].
  - intros [= <-]. exists item. split; [apply elem_of_cons; now left|exact Ef].
Qed.

Lemma collect_raises raw e :
  collect_sensor_items raw = Raise e ->
  e = ValueError
  /\ exists item,
       (item ∈ ch_soil raw \/ item ∈ piezoRain raw \/ item ∈ ch_aisle raw)
       /\ bad_battery item.
Proof.
  unfold collect_sensor_items.
  destruct (concat_items soil_items (ch_soil raw)) as [soil|e1] eqn:Es; simpl.
  2:{ intros [= <-]. destruct (concat_items_raises _ _ _ Es) as (item & Hin & Hi).
      destruct (soil_items_raises _ _ Hi) as [-> Hb]. eauto 6. }
  destruct (piezo_items (piezoRain raw) None) as [[rain md]|e2] eqn:Ep; simpl.
  2:{ intros [= <-]. destruct (piezo_items_raises _ _ _ Ep) as (item & Hin & Hi).
      destruct (piezo_item_raises _ _ Hi) as [-> Hb]. eauto 6. }
  destruct (concat_items aisle_items (ch_aisle raw)) as [aisle|e3] eqn:Ea; simpl;
    [discriminate|].
  intros [= <-]. destruct (concat_items_raises _ _ _ Ea) as (item & Hin & Hi).
  destruct (aisle_items_raises _ _ Hi) as [-> Hb]. eauto 6.
Qed.

(** X22.  Reading the sections of the live data raises nothing but a
    [ValueError], and only for an item of the soil, rain or aisle section
    whose battery level [isdigit] accepts and [int] rejects; the mapper is
    then not touched, no reading is produced and the cycle fails with
    [UpdateFailed]. *)
Theorem sections_raise_on_battery_only {float : Type} `{!PyFloatOps float}
    (C : Const) (ops : MapperOps) (api : Api) (isoformat : Z -> string)
    (c : Coordinator) (now : Z) (raw : RawData) (e : exn) :
  let c1 := _update_sensor_mapping_if_needed ops api c now in
  get_live_data api (length (api_calls c1)) = Ok raw ->
  collect_sensor_items raw = Raise e ->
  e = ValueError
  /\ (exists item,
        (item ∈ ch_soil raw \/ item ∈ piezoRain raw \/ item ∈ ch_aisle raw)
        /\ bad_battery item)
  /\ snd (_async_update_data (float := float) C ops api isoformat c now)
     = UpdateFailed ValueError
  /\ sensor_mapper (fst (_async_update_data (float := float) C ops api isoformat c now))
     = sensor_mapper c1.
Proof.
  intros c1 Hlive Hraise. destruct (collect_raises raw e Hraise) as [-> Hitem].
  split; [reflexivity|]. split; [exact Hitem|].
  unfold _async_update_data. fold c1. rewrite Hlive.
  unfold _process_live_data. rewrite Hraise. split; reflexivity.
Qed.

Lemma sections_raise_on_battery_only_witness :
  let raw := {| common_list := [reading "tempf" "70.5"];
                ch_soil := [ {[ "channel" := "1"; "humidity" := "41%";
                                "battery" := superscript_two ]} ];
                wh25 := []; piezoRain := []; ch_aisle := [] |} in
  snd (_async_update_data (float := float_literal) example_const example_mapper
         (example_api raw) example_isoformat example_coordinator 1000)
  = UpdateFailed ValueError.
Proof.
  intros raw.
  exact (proj1 (proj2 (proj2 (sections_raise_on_battery_only (float := float_literal)
                                example_const example_mapper (example_api raw)
                                example_isoformat example_coordinator 1000 raw ValueError
                                eq_refl eq_refl)))).
Defined.
